(** * GoogleMapsEditor: the coordinate picker widget of Editor.js

    A shallow embedding of
    [GoogleMapsEditor/ClientResources/googlemaps/Editor.js]: the fields of the
    widget object ([this]) are a record, every method of the widget is a
    function on that record, and the browser side (timeouts, pending promises
    of the Places provider, fresh session tokens) is a second record.  The
    event loop is a function [step] that delivers one event to the widget;
    an [async] method is cut at each [await] into the part that runs at once
    and the continuation that runs when the promise settles.

    What the widget relies on and does not define is modelled as its
    documentation states it:
    - Dojo: [set("value", v)] calls [_setValueAttr(v)]; the inherited
      [_setValueAttr] of [_FormValueWidget] stores [v] in [this.value] (the
      notification of the host that it may schedule on its own is outside
      the model: the record of [onChange] holds the calls that Editor.js
      itself makes); [startup()] sets [_started]; the inherited [destroy()]
      removes the handles given to [own] and deletes the attach points of
      the template ([this.textbox], [this.searchTextbox], ...), so that code
      which runs afterwards and reads one of them throws a TypeError.
    - The browser: [setTimeout] returns a positive handle, [clearTimeout]
      cancels the timeout of that handle; time is counted in milliseconds.
    - The DOM and the map provider: their calls succeed; a promise settles
      when the event loop delivers its event. *)

From Stdlib Require Import String Ascii List ZArith Bool Arith Lia.
From Stdlib Require Import Floats.PrimFloat Floats.FloatOps Floats.SpecFloat.
From Stdlib Require Import Numbers.Cyclic.Int63.Uint63 DecimalString.
Import ListNotations.
Open Scope string_scope.

(** ** JavaScript values handled by the widget *)

(** A coordinate component as the widget sees it: a missing property reads
    as [undefined], an unset one is [null], a number is an IEEE binary64
    float (with its NaN and its two zeros).  The host declares latitude and
    longitude as numbers but the widget does not check the type: any other
    value (a string, a boolean) is [COther], given by what ToNumber and
    ToString make of it, the only two operations the widget applies to a
    component besides the comparisons with [undefined], [null] and [0]. *)
Inductive Component :=
| CUndefined
| CNull
| CNumber (x : float)
| COther (to_number : float) (to_string : string).

(** The object format of a value: [{latitude, longitude}]. *)
Record Coordinates := { latitude : Component; longitude : Component }.

(** The values of [this.value]: nothing, the string format ["lat,lng"], or
    the object format. *)
Inductive Value :=
| VUndefined
| VNull
| VString (s : string)
| VObject (o : Coordinates).

(** A [google.maps.LatLng]: what its accessors [lat()] and [lng()] return. *)
Record LatLng := { lat : Component; lng : Component }.

(** [new google.maps.LatLng(a, b)]. *)
Definition new_LatLng (a b : Component) : LatLng := {| lat := a; lng := b |}.

(** The conversions of the ECMAScript runtime that the widget calls and does
    not define: [Number::toString] and the global [parseFloat] on a string. *)
Class Runtime := {
  NumberToString : float -> string;
  parseFloat : string -> float
}.

Module JS.

(** ToBoolean. *)
Definition truthy (v : Value) : bool :=
  match v with
  | VUndefined | VNull => false
  | VString s => negb (String.eqb s "")
  | VObject _ => true
  end.

(** [typeof c === "undefined"]. *)
Definition is_undefined (c : Component) : bool :=
  match c with CUndefined => true | _ => false end.

(** [c === null]. *)
Definition is_null (c : Component) : bool :=
  match c with CNull => true | _ => false end.

(** The global [isNaN(c)]: ToNumber, then the NaN test. *)
Definition isNaN (c : Component) : bool :=
  match c with
  | CUndefined => true
  | CNull => false
  | CNumber x => PrimFloat.is_nan x
  | COther x _ => PrimFloat.is_nan x
  end.

(** [c === 0]: strict equality with the number zero (IEEE equality on
    numbers, so [-0 === 0]; false at every other type). *)
Definition is_zero (c : Component) : bool :=
  match c with
  | CNumber x => PrimFloat.eqb x 0%float
  | _ => false
  end.

(** [v.latitude] and [v.longitude]; a string has no such property. *)
Definition get_latitude (v : Value) : Component :=
  match v with VObject o => latitude o | _ => CUndefined end.

Definition get_longitude (v : Value) : Component :=
  match v with VObject o => longitude o | _ => CUndefined end.

(** [s.split(sep)] for a one-character separator. *)
Fixpoint split (sep : ascii) (s : string) : list string :=
  match s with
  | EmptyString => [EmptyString]
  | String c rest =>
      if Ascii.eqb c sep then EmptyString :: split sep rest
      else match split sep rest with
           | [] => [String c EmptyString]
           | part :: parts => String c part :: parts
           end
  end.

(** [parts[i]] coerced to a string, as [parseFloat] does to its argument. *)
Definition part (i : nat) (parts : list string) : string :=
  nth i parts "undefined".

(** ToString of a component. *)
Definition ToString `{Runtime} (c : Component) : string :=
  match c with
  | CUndefined => "undefined"
  | CNull => "null"
  | CNumber x => NumberToString x
  | COther _ s => s
  end.

(** [v || ""] assigned to a DOM text property. *)
Definition or_empty_text (v : Value) : string :=
  match v with
  | VString s => s
  | VObject _ => "[object Object]"
  | VUndefined | VNull => ""
  end.

End JS.

(** ** The widget object *)

(** What the host form supplies and the widget never writes. *)
Record Config := {
  required : bool;
  readOnly : bool;
  (** [this.properties]: [Some n] when it is an array of length [n]. *)
  properties : option nat;
  (** [this.metadata]: [None] when falsy, else its [properties] likewise. *)
  metadata : option (option nat);
  defaultCoordinates : Coordinates;
  defaultZoom : Z
}.

Record Map := { center : LatLng; zoom : Z; grayscale : bool }.

(** An [AdvancedMarkerElement] and its [position]. *)
Record Marker := { position : option LatLng }.

(** An autocomplete suggestion: the text of its place prediction. *)
Record Suggestion := { text : string; placeId : nat }.

(** The [<ul>] of suggestions: its display style and its [<li>] items, each
    with the text assigned to its [innerHTML] and whether it carries the
    class [selected]. *)
Record Dropdown := { display : bool; items : list (string * bool) }.

(** The handles the widget registers with [this.own]; Dojo removes them when
    the widget is destroyed. *)
Record Handles := {
  scriptLoadedSignal : bool;
  clearHandler : bool;
  rightClickHandler : bool;
  keyupHandler : bool;
  documentClickHandler : bool
}.

Inductive PlacesLibrary := placesLibrary.

Record Widget := mkWidget {
  config : Config;
  _started : bool;
  value : Value;
  textbox : string;
  searchTextbox : string;
  searchDisabled : bool;
  _map : option Map;
  _marker : option Marker;
  _sessionToken : option nat;
  _suggestions : option (list Suggestion);
  _suggestionsDropdown : option Dropdown;
  _selectedSuggestionIndex : Z;
  _typingTimer : option nat;
  _placesLibrary : option PlacesLibrary;
  owned : Handles;
  (** Whether the attach points of the template exist: they do from the
      creation of the widget until the inherited [destroy()] deletes them. *)
  attached : bool;
  (** Calls of [this.onChange] made by the code of Editor.js (line 183),
      oldest first; calls scheduled by the inherited setter of Dojo are not
      recorded. *)
  onChange : list Value;
  (** Calls of [console.error], oldest first. *)
  console_error : list string
}.

(** Field updates: [set_f x w] is [w] after the assignment [this.f = x]. *)

Definition set_started x w : Widget :=
  mkWidget (config w) x (value w) (textbox w) (searchTextbox w)
    (searchDisabled w) (_map w) (_marker w) (_sessionToken w) (_suggestions w)
    (_suggestionsDropdown w) (_selectedSuggestionIndex w) (_typingTimer w)
    (_placesLibrary w) (owned w) (attached w) (onChange w) (console_error w).

Definition set_value x w : Widget :=
  mkWidget (config w) (_started w) x (textbox w) (searchTextbox w)
    (searchDisabled w) (_map w) (_marker w) (_sessionToken w) (_suggestions w)
    (_suggestionsDropdown w) (_selectedSuggestionIndex w) (_typingTimer w)
    (_placesLibrary w) (owned w) (attached w) (onChange w) (console_error w).

Definition set_textbox x w : Widget :=
  mkWidget (config w) (_started w) (value w) x (searchTextbox w)
    (searchDisabled w) (_map w) (_marker w) (_sessionToken w) (_suggestions w)
    (_suggestionsDropdown w) (_selectedSuggestionIndex w) (_typingTimer w)
    (_placesLibrary w) (owned w) (attached w) (onChange w) (console_error w).

Definition set_searchTextbox x w : Widget :=
  mkWidget (config w) (_started w) (value w) (textbox w) x (searchDisabled w)
    (_map w) (_marker w) (_sessionToken w) (_suggestions w)
    (_suggestionsDropdown w) (_selectedSuggestionIndex w) (_typingTimer w)
    (_placesLibrary w) (owned w) (attached w) (onChange w) (console_error w).

Definition set_searchDisabled x w : Widget :=
  mkWidget (config w) (_started w) (value w) (textbox w) (searchTextbox w) x
    (_map w) (_marker w) (_sessionToken w) (_suggestions w)
    (_suggestionsDropdown w) (_selectedSuggestionIndex w) (_typingTimer w)
    (_placesLibrary w) (owned w) (attached w) (onChange w) (console_error w).

Definition set_map x w : Widget :=
  mkWidget (config w) (_started w) (value w) (textbox w) (searchTextbox w)
    (searchDisabled w) x (_marker w) (_sessionToken w) (_suggestions w)
    (_suggestionsDropdown w) (_selectedSuggestionIndex w) (_typingTimer w)
    (_placesLibrary w) (owned w) (attached w) (onChange w) (console_error w).

Definition set_marker x w : Widget :=
  mkWidget (config w) (_started w) (value w) (textbox w) (searchTextbox w)
    (searchDisabled w) (_map w) x (_sessionToken w) (_suggestions w)
    (_suggestionsDropdown w) (_selectedSuggestionIndex w) (_typingTimer w)
    (_placesLibrary w) (owned w) (attached w) (onChange w) (console_error w).

Definition set_sessionToken x w : Widget :=
  mkWidget (config w) (_started w) (value w) (textbox w) (searchTextbox w)
    (searchDisabled w) (_map w) (_marker w) x (_suggestions w)
    (_suggestionsDropdown w) (_selectedSuggestionIndex w) (_typingTimer w)
    (_placesLibrary w) (owned w) (attached w) (onChange w) (console_error w).

Definition set_suggestions x w : Widget :=
  mkWidget (config w) (_started w) (value w) (textbox w) (searchTextbox w)
    (searchDisabled w) (_map w) (_marker w) (_sessionToken w) x
    (_suggestionsDropdown w) (_selectedSuggestionIndex w) (_typingTimer w)
    (_placesLibrary w) (owned w) (attached w) (onChange w) (console_error w).

Definition set_suggestionsDropdown x w : Widget :=
  mkWidget (config w) (_started w) (value w) (textbox w) (searchTextbox w)
    (searchDisabled w) (_map w) (_marker w) (_sessionToken w) (_suggestions w)
    x (_selectedSuggestionIndex w) (_typingTimer w) (_placesLibrary w)
    (owned w) (attached w) (onChange w) (console_error w).

Definition set_selectedSuggestionIndex x w : Widget :=
  mkWidget (config w) (_started w) (value w) (textbox w) (searchTextbox w)
    (searchDisabled w) (_map w) (_marker w) (_sessionToken w) (_suggestions w)
    (_suggestionsDropdown w) x (_typingTimer w) (_placesLibrary w) (owned w)
    (attached w) (onChange w) (console_error w).

Definition set_typingTimer x w : Widget :=
  mkWidget (config w) (_started w) (value w) (textbox w) (searchTextbox w)
    (searchDisabled w) (_map w) (_marker w) (_sessionToken w) (_suggestions w)
    (_suggestionsDropdown w) (_selectedSuggestionIndex w) x (_placesLibrary w)
    (owned w) (attached w) (onChange w) (console_error w).

Definition set_placesLibrary x w : Widget :=
  mkWidget (config w) (_started w) (value w) (textbox w) (searchTextbox w)
    (searchDisabled w) (_map w) (_marker w) (_sessionToken w) (_suggestions w)
    (_suggestionsDropdown w) (_selectedSuggestionIndex w) (_typingTimer w) x
    (owned w) (attached w) (onChange w) (console_error w).

Definition set_owned x w : Widget :=
  mkWidget (config w) (_started w) (value w) (textbox w) (searchTextbox w)
    (searchDisabled w) (_map w) (_marker w) (_sessionToken w) (_suggestions w)
    (_suggestionsDropdown w) (_selectedSuggestionIndex w) (_typingTimer w)
    (_placesLibrary w) x (attached w) (onChange w) (console_error w).

Definition set_attached x w : Widget :=
  mkWidget (config w) (_started w) (value w) (textbox w) (searchTextbox w)
    (searchDisabled w) (_map w) (_marker w) (_sessionToken w) (_suggestions w)
    (_suggestionsDropdown w) (_selectedSuggestionIndex w) (_typingTimer w)
    (_placesLibrary w) (owned w) x (onChange w) (console_error w).

Definition set_onChange x w : Widget :=
  mkWidget (config w) (_started w) (value w) (textbox w) (searchTextbox w)
    (searchDisabled w) (_map w) (_marker w) (_sessionToken w) (_suggestions w)
    (_suggestionsDropdown w) (_selectedSuggestionIndex w) (_typingTimer w)
    (_placesLibrary w) (owned w) (attached w) x (console_error w).

Definition set_console_error x w : Widget :=
  mkWidget (config w) (_started w) (value w) (textbox w) (searchTextbox w)
    (searchDisabled w) (_map w) (_marker w) (_sessionToken w) (_suggestions w)
    (_suggestionsDropdown w) (_selectedSuggestionIndex w) (_typingTimer w)
    (_placesLibrary w) (owned w) (attached w) (onChange w) x.

(** ** Methods of the widget that need no conversion of the runtime *)

(** [_isComplexType(value)]: [arg] is the optional argument ([VUndefined]
    when the method is called without one). *)
Definition _isComplexType (arg : Value) (w : Widget) : bool :=
  let valueToCheck := if JS.truthy arg then arg else value w in
  match valueToCheck with
  | VObject _ => true
  | _ =>
      match properties (config w) with
      | Some length => (0 <? length)%nat
      | None =>
          match metadata (config w) with
          | Some (Some length) => (0 <? length)%nat
          | _ => false
          end
      end
  end.

(** [_hasCoordinates()]. *)
Definition _hasCoordinates (w : Widget) : bool :=
  if negb (JS.truthy (value w)) then false
  else if _isComplexType VUndefined w then
    let latitude := JS.get_latitude (value w) in
    let longitude := JS.get_longitude (value w) in
    negb (JS.is_undefined latitude) &&
    negb (JS.is_undefined longitude) &&
    negb (JS.is_null longitude) &&
    negb (JS.is_null latitude) &&
    negb (JS.isNaN longitude) &&
    negb (JS.isNaN latitude) &&
    negb (JS.is_zero longitude) &&
    negb (JS.is_zero latitude)
  else
    match value w with
    | VString s => (length (JS.split "," s) =? 2)%nat
    | _ => false
    end.

(** [isValid()], which the host form polls. *)
Definition isValid (w : Widget) : bool :=
  if required (config w) then _hasCoordinates w else true.

(** [_hideSuggestionsDropdown()]. *)
Definition _hideSuggestionsDropdown (w : Widget) : Widget :=
  let w :=
    match _suggestionsDropdown w with
    | Some d => set_suggestionsDropdown (Some {| display := false; items := items d |}) w
    | None => w
    end in
  set_selectedSuggestionIndex (-1)%Z w.

(** How a call of a method ends, for the methods that can run on a
    destroyed widget: it returns, or it throws a TypeError at the first read
    of a deleted attach point; either way the widget is left as the
    statements executed so far have made it. *)
Inductive Outcome :=
| Returned (w : Widget)
| Thrown (w : Widget).

Definition after (o : Outcome) : Widget :=
  match o with
  | Returned w => w
  | Thrown w => w
  end.

(** [_createSuggestionsDropdown()]: a hidden, empty list, assigned to
    [this._suggestionsDropdown] and then placed after the search box; the
    placement (line 428) reads [this.searchTextbox.domNode]. *)
Definition _createSuggestionsDropdown (w : Widget) : Outcome :=
  match _suggestionsDropdown w with
  | Some _ => Returned w
  | None =>
      let w := set_suggestionsDropdown (Some {| display := false; items := [] |}) w in
      if attached w then Returned w else Thrown w
  end.

(** [_showSuggestionsDropdown(suggestions)]: the list is created when there
    is none, emptied ([domConstruct.empty]) and filled. *)
Definition _showSuggestionsDropdown (suggestions : list Suggestion) (w : Widget) : Outcome :=
  match (match _suggestionsDropdown w with
         | None => _createSuggestionsDropdown w
         | Some _ => Returned w
         end) with
  | Thrown w => Thrown w
  | Returned w =>
      let shown := match _suggestionsDropdown w with
                   | Some d => display d
                   | None => false
                   end in
      let w := set_suggestionsDropdown (Some {| display := shown; items := [] |}) w in
      let w := set_selectedSuggestionIndex (-1)%Z w in
      Returned
        match suggestions with
        | [] => _hideSuggestionsDropdown w
        | _ :: _ =>
            set_suggestionsDropdown
              (Some {| display := true;
                       items := List.map (fun s => (text s, false)) suggestions |}) w
        end
  end.

(** [_highlightSuggestion(index)]. *)
Definition _highlightSuggestion (index : nat) (w : Widget) : Widget :=
  match _suggestionsDropdown w with
  | None => w
  | Some d =>
      let marked :=
        List.map (fun '(i, (label, _)) => (label, (i =? index)%nat))
                 (List.combine (List.seq 0 (length (items d))) (items d)) in
      let w := set_suggestionsDropdown (Some {| display := display d; items := marked |}) w in
      set_selectedSuggestionIndex (Z.of_nat index) w
  end.

(** [_setMapLocation(location, zoom, center, skipMarker)]; [zoomArg] is
    [None] for [null]. *)
Definition _setMapLocation (location : LatLng) (zoomArg : option Z)
    (centerArg skipMarker : bool) (w : Widget) : Widget :=
  match _map w with
  | None => w
  | Some m =>
      let w :=
        if negb skipMarker then
          let marker := match _marker w with
                        | None => {| position := None |}
                        | Some marker => marker
                        end in
          set_marker (Some {| position := Some location |}) (set_marker (Some marker) w)
        else w in
      let m :=
        if centerArg
        then {| center := location; zoom := zoom m; grayscale := grayscale m |}
        else m in
      let m :=
        match zoomArg with
        | Some z =>
            if (z =? 0)%Z then m
            else {| center := center m; zoom := z; grayscale := grayscale m |}
        | None => m
        end in
      set_map (Some m) w
  end.

(** ** Methods that convert between numbers and strings *)

Section WithRuntime.

Context {rt : Runtime}.

(** [_refreshMarkerLocation()]. *)
Definition _refreshMarkerLocation (w : Widget) : Widget :=
  match _map w with
  | None => w
  | Some _ =>
      if negb (_hasCoordinates w) then
        let location := new_LatLng (latitude (defaultCoordinates (config w)))
                                   (longitude (defaultCoordinates (config w))) in
        _setMapLocation location None true true w
      else if _isComplexType VUndefined w then
        let location := new_LatLng (JS.get_latitude (value w))
                                   (JS.get_longitude (value w)) in
        _setMapLocation location None true false w
      else
        match value w with
        | VString s =>
            let coordinates := JS.split "," s in
            let location :=
              new_LatLng (CNumber (parseFloat (JS.part 0 coordinates)))
                         (CNumber (parseFloat (JS.part 1 coordinates))) in
            _setMapLocation location None true false w
        | _ => w
        end
  end.

(** [_setValueAttr(newValue)] on a widget whose template is attached: the
    inherited setter of Dojo's [_FormValueWidget] stores the value in
    [this.value]; the call of [this.onChange] recorded is the one of line
    183. *)
Definition _setValueAttr (newValue : Value) (w : Widget) : Widget :=
  let w := set_value newValue w in
  let w := set_textbox (JS.or_empty_text newValue) w in
  let w := match _marker w with
           | None => _refreshMarkerLocation w
           | Some _ => w
           end in
  if _isComplexType VUndefined w
  then set_onChange (onChange w ++ [newValue]) w
  else w.

Definition missing_coordinate_message : string :=
  "[GoogleMapsEditor] Unexpectedly missing longitude and/or latitude coordinate".

(** [_setCoordinatesValue(location)] on a widget whose template is attached;
    [None] is the [null] location. *)
Definition _setCoordinatesValue (location : option LatLng) (w : Widget) : Widget :=
  if negb (_started w) then w
  else
    match location with
    | None =>
        if _isComplexType VUndefined w
        then _setValueAttr (VObject {| latitude := CNull; longitude := CNull |}) w
        else _setValueAttr VNull w
    | Some location =>
        let longitude := lng location in
        let latitude := lat location in
        if JS.is_undefined longitude || JS.is_undefined latitude then
          set_console_error (console_error w ++ [missing_coordinate_message]) w
        else if _isComplexType VUndefined w then
          _setValueAttr
            (VObject {| latitude := CNumber (parseFloat (JS.ToString latitude));
                        longitude := CNumber (parseFloat (JS.ToString longitude)) |}) w
        else
          _setValueAttr
            (VString (JS.ToString latitude ++ "," ++ JS.ToString longitude)) w
    end.

(** [_clearCoordinates()]; the handler of the clear icon is an owned
    handle, so it runs on a widget whose template is attached. *)
Definition _clearCoordinates (w : Widget) : Widget :=
  let w := set_searchTextbox "" w in
  let w := _hideSuggestionsDropdown w in
  let w := match _marker w with
           | Some _ => set_marker None w
           | None => w
           end in
  _setCoordinatesValue None w.

(** A call of [_setValueAttr(newValue)] on a widget that may have been
    destroyed: once the attach points are deleted, the inherited setter
    still stores the value and line 176, [this.textbox.value = ...], throws. *)
Definition _setValueAttr_call (newValue : Value) (w : Widget) : Outcome :=
  if attached w then Returned (_setValueAttr newValue w)
  else Thrown (set_value newValue w).

(** A call of [_setCoordinatesValue(location)] on a widget that may have
    been destroyed; it throws where [this.set("value", value)] does. *)
Definition _setCoordinatesValue_call (location : option LatLng) (w : Widget) : Outcome :=
  if negb (_started w) then Returned w
  else
    match location with
    | None =>
        if _isComplexType VUndefined w
        then _setValueAttr_call (VObject {| latitude := CNull; longitude := CNull |}) w
        else _setValueAttr_call VNull w
    | Some location =>
        let longitude := lng location in
        let latitude := lat location in
        if JS.is_undefined longitude || JS.is_undefined latitude then
          Returned (set_console_error (console_error w ++ [missing_coordinate_message]) w)
        else if _isComplexType VUndefined w then
          _setValueAttr_call
            (VObject {| latitude := CNumber (parseFloat (JS.ToString latitude));
                        longitude := CNumber (parseFloat (JS.ToString longitude)) |}) w
        else
          _setValueAttr_call
            (VString (JS.ToString latitude ++ "," ++ JS.ToString longitude)) w
    end.

End WithRuntime.

(** ** The browser side *)

(** A pending timeout of the debounce: its handle, the time it is due at and
    the text its callback passes to [_fetchAutocompleteSuggestions]. *)
Record Timer := { handle : nat; due : nat; callback_input : string }.

(** The request object of [fetchAutocompleteSuggestions]. *)
Record Request := {
  input : string;
  sessionToken : option nat;
  origin : option (Component * Component)
}.

Record Browser := mkBrowser {
  (** Milliseconds since the widget was created. *)
  now : nat;
  timers : list Timer;
  next_timer : nat;
  (** The next [new AutocompleteSessionToken()]; a token is its number. *)
  next_token : nat;
  next_task : nat;
  (** Pending [importLibrary('places')] promises, each with the input of the
      search that awaits it. *)
  imports : list (nat * string);
  (** Pending [fetchAutocompleteSuggestions] promises. *)
  requests : list (nat * Request);
  (** Pending [place.fetchFields] promises. *)
  details : list nat;
  (** The arguments of the calls of [_fetchAutocompleteSuggestions], oldest
      first. *)
  fetch_calls : list string
}.

Definition set_now x b : Browser :=
  mkBrowser x (timers b) (next_timer b) (next_token b) (next_task b)
    (imports b) (requests b) (details b) (fetch_calls b).

Definition set_timers x b : Browser :=
  mkBrowser (now b) x (next_timer b) (next_token b) (next_task b) (imports b)
    (requests b) (details b) (fetch_calls b).

Definition set_next_timer x b : Browser :=
  mkBrowser (now b) (timers b) x (next_token b) (next_task b) (imports b)
    (requests b) (details b) (fetch_calls b).

Definition set_next_token x b : Browser :=
  mkBrowser (now b) (timers b) (next_timer b) x (next_task b) (imports b)
    (requests b) (details b) (fetch_calls b).

Definition set_next_task x b : Browser :=
  mkBrowser (now b) (timers b) (next_timer b) (next_token b) x (imports b)
    (requests b) (details b) (fetch_calls b).

Definition set_imports x b : Browser :=
  mkBrowser (now b) (timers b) (next_timer b) (next_token b) (next_task b) x
    (requests b) (details b) (fetch_calls b).

Definition set_requests x b : Browser :=
  mkBrowser (now b) (timers b) (next_timer b) (next_token b) (next_task b)
    (imports b) x (details b) (fetch_calls b).

Definition set_details x b : Browser :=
  mkBrowser (now b) (timers b) (next_timer b) (next_token b) (next_task b)
    (imports b) (requests b) x (fetch_calls b).

Definition set_fetch_calls x b : Browser :=
  mkBrowser (now b) (timers b) (next_timer b) (next_token b) (next_task b)
    (imports b) (requests b) (details b) x.

Record System := { widget : Widget; browser : Browser }.

Definition on_widget (f : Widget -> Widget) (s : System) : System :=
  {| widget := f (widget s); browser := browser s |}.

Definition on_browser (f : Browser -> Browser) (s : System) : System :=
  {| widget := widget s; browser := f (browser s) |}.

(** [clearTimeout(h)]. *)
Definition clearTimeout (h : nat) (b : Browser) : Browser :=
  set_timers (filter (fun t => negb (handle t =? h)%nat) (timers b)) b.

(** [setTimeout(callback, delay)], the callback being
    [_fetchAutocompleteSuggestions(text)]; returns the new handle. *)
Definition setTimeout (text : string) (delay : nat) (b : Browser) : nat * Browser :=
  let t := {| handle := next_timer b; due := now b + delay; callback_input := text |} in
  (next_timer b, set_next_timer (S (next_timer b)) (set_timers (timers b ++ [t]) b)).

(** Truthiness of a timer handle ([if (this._typingTimer)]). *)
Definition handle_truthy (h : option nat) : bool :=
  match h with
  | Some n => negb (n =? 0)%nat
  | None => false
  end.

Fixpoint lookup {A} (k : nat) (l : list (nat * A)) : option A :=
  match l with
  | [] => None
  | (k', a) :: rest => if (k' =? k)%nat then Some a else lookup k rest
  end.

Definition remove_key {A} (k : nat) (l : list (nat * A)) : list (nat * A) :=
  filter (fun p => negb (fst p =? k)%nat) l.

(** ** Handlers, asynchronous methods and the event loop *)

(** The events the browser, the provider and the host deliver. *)
Inductive Event :=
| Startup                        (* Dojo's startup(): sets _started *)
| SetValue (newValue : Value)    (* the host: set("value", newValue) *)
| ScriptLoaded                   (* document event googleMapsScriptLoaded *)
| Keyup (text : string)          (* keyup in the search box; e.target.value *)
| Elapse (ms : nat)              (* time passes with no other event *)
| ImportResolved (task : nat)    (* importLibrary('places') fulfilled *)
| ImportRejected (task : nat)
| SuggestionsResolved (task : nat) (suggestions : list Suggestion)
| SuggestionsRejected (task : nat)
| ItemClick (index : nat)        (* click on a suggestion item *)
| ItemMouseEnter (index : nat)
| PlaceResolved (task : nat) (location : option LatLng)  (* fetchFields fulfilled *)
| PlaceRejected (task : nat)
| RightClick (latLng : LatLng)   (* rightclick on the map *)
| DocumentClick (outside : bool) (* click; outside the search box and the list? *)
| ClearClick                     (* click on the clear icon *)
| Destroy.                       (* the host: destroy() *)

Definition typingDelay : nat := 200.

(** [postCreate()]: the template is attached, the script-loaded signal and
    the icon handlers are owned; the value is the form widget's initial
    empty string.  Timer handles of a browser are positive. *)
Definition postCreate (cfg : Config) : System :=
  {| widget :=
       mkWidget cfg false (VString "") "" "" false None None None None None
         (-1)%Z None None
         {| scriptLoadedSignal := true; clearHandler := true;
            rightClickHandler := false; keyupHandler := false;
            documentClickHandler := false |}
         true [] [];
     browser := mkBrowser 0 [] 1 0 0 [] [] [] [] |}.

(** [_setupCustomAutocomplete()]: registers the keyup handler and the
    document click listener. *)
Definition _setupCustomAutocomplete (w : Widget) : Widget :=
  set_owned {| scriptLoadedSignal := scriptLoadedSignal (owned w);
               clearHandler := clearHandler (owned w);
               rightClickHandler := rightClickHandler (owned w);
               keyupHandler := true;
               documentClickHandler := true |} w.

(** [_createGoogleMapsElement()]; declared [async], it has no [await]. *)
Definition _createGoogleMapsElement (w : Widget) : Widget :=
  let initialCoordinates :=
    new_LatLng (latitude (defaultCoordinates (config w)))
               (longitude (defaultCoordinates (config w))) in
  let w := set_map (Some {| center := initialCoordinates;
                            zoom := defaultZoom (config w);
                            grayscale := readOnly (config w) |}) w in
  if negb (readOnly (config w)) then
    let w := set_owned {| scriptLoadedSignal := scriptLoadedSignal (owned w);
                          clearHandler := clearHandler (owned w);
                          rightClickHandler := true;
                          keyupHandler := keyupHandler (owned w);
                          documentClickHandler := documentClickHandler (owned w) |} w in
    _setupCustomAutocomplete w
  else set_searchDisabled true w.

(** The keyup handler of [_setupCustomAutocomplete]. *)
Definition on_keyup (text : string) (s : System) : System :=
  let b := if handle_truthy (_typingTimer (widget s))
           then match _typingTimer (widget s) with
                | Some h => clearTimeout h (browser s)
                | None => browser s
                end
           else browser s in
  let (h, b) := setTimeout text typingDelay b in
  {| widget := set_typingTimer (Some h) (widget s); browser := b |}.

Definition fetch_error_message : string :=
  "[GoogleMapsEditor] Error fetching suggestions:".

Definition select_error_message : string :=
  "[GoogleMapsEditor] Error selecting place:".

(** [_fetchAutocompleteSuggestions] from the point where the Places library
    is at hand up to its second [await]: the session token is created when
    absent and the request goes out. *)
Definition fetch_request (text : string) (s : System) : System :=
  let s :=
    match _sessionToken (widget s) with
    | Some _ => s
    | None =>
        {| widget := set_sessionToken (Some (next_token (browser s))) (widget s);
           browser := set_next_token (S (next_token (browser s))) (browser s) |}
    end in
  let request :=
    {| input := text;
       sessionToken := _sessionToken (widget s);
       origin := match _map (widget s) with
                 | Some m => Some (lat (center m), lng (center m))
                 | None => None
                 end |} in
  on_browser (fun b => set_next_task (S (next_task b))
                         (set_requests (requests b ++ [(next_task b, request)]) b)) s.

(** [_fetchAutocompleteSuggestions(input)] up to its first suspension.  With
    the library cached, [_getPlacesLibrary] is already fulfilled and the
    method runs on to the request before any other event. *)
Definition _fetchAutocompleteSuggestions (text : string) (s : System) : System :=
  let s := on_browser (fun b => set_fetch_calls (fetch_calls b ++ [text]) b) s in
  if String.eqb text "" then on_widget _hideSuggestionsDropdown s
  else
    match _placesLibrary (widget s) with
    | Some _ => fetch_request text s
    | None =>
        on_browser (fun b => set_next_task (S (next_task b))
                               (set_imports (imports b ++ [(next_task b, text)]) b)) s
    end.

(** The rest of [_getPlacesLibrary] and of the search once
    [importLibrary('places')] is fulfilled. *)
Definition on_import_resolved (task : nat) (s : System) : System :=
  match lookup task (imports (browser s)) with
  | None => s
  | Some text =>
      let s := on_browser (fun b => set_imports (remove_key task (imports b)) b) s in
      let s := on_widget (set_placesLibrary (Some placesLibrary)) s in
      fetch_request text s
  end.

Definition on_import_rejected (task : nat) (s : System) : System :=
  match lookup task (imports (browser s)) with
  | None => s
  | Some _ =>
      let s := on_browser (fun b => set_imports (remove_key task (imports b)) b) s in
      on_widget (fun w => set_console_error (console_error w ++ [fetch_error_message]) w) s
  end.

(** The rest of [_fetchAutocompleteSuggestions] once the provider answers:
    lines 590 and 591, inside the [try]; the [catch] logs what they throw. *)
Definition on_suggestions_resolved (task : nat) (suggestions : list Suggestion)
    (s : System) : System :=
  match lookup task (requests (browser s)) with
  | None => s
  | Some _ =>
      let s := on_browser (fun b => set_requests (remove_key task (requests b)) b) s in
      on_widget (fun w =>
        match _showSuggestionsDropdown suggestions (set_suggestions (Some suggestions) w) with
        | Returned w => w
        | Thrown w => set_console_error (console_error w ++ [fetch_error_message]) w
        end) s
  end.

Definition on_suggestions_rejected (task : nat) (s : System) : System :=
  match lookup task (requests (browser s)) with
  | None => s
  | Some _ =>
      let s := on_browser (fun b => set_requests (remove_key task (requests b)) b) s in
      on_widget (fun w => set_console_error (console_error w ++ [fetch_error_message]) w) s
  end.

(** [_selectSuggestion(index)] up to [await place.fetchFields]. *)
Definition _selectSuggestion (index : nat) (s : System) : System :=
  match _suggestions (widget s) with
  | None => s
  | Some suggestions =>
      if (length suggestions <=? index)%nat then s
      else on_browser (fun b => set_next_task (S (next_task b))
                                  (set_details (details b ++ [next_task b]) b)) s
  end.

(** Whether the list shows an item at [index] for the pointer to reach. *)
Definition item_shown (index : nat) (w : Widget) : bool :=
  match _suggestionsDropdown w with
  | Some d => display d && (index <? length (items d))%nat
  | None => false
  end.

(** Time passes: the timeouts that fall due run their callback, in the order
    they were set. *)
Definition elapse (ms : nat) (s : System) : System :=
  let deadline := now (browser s) + ms in
  let due_now := filter (fun t => (due t <=? deadline)%nat) (timers (browser s)) in
  let later := filter (fun t => negb (due t <=? deadline)%nat) (timers (browser s)) in
  let s := on_browser (fun b => set_now deadline (set_timers later b)) s in
  fold_left (fun s t => _fetchAutocompleteSuggestions (callback_input t) s) due_now s.

Definition no_handles : Handles :=
  {| scriptLoadedSignal := false; clearHandler := false; rightClickHandler := false;
     keyupHandler := false; documentClickHandler := false |}.

(** [destroy()]; the inherited destroy of Dojo removes the owned handles
    and deletes the attach points of the template. *)
Definition destroy (s : System) : System :=
  let s :=
    if handle_truthy (_typingTimer (widget s)) then
      let b := match _typingTimer (widget s) with
               | Some h => clearTimeout h (browser s)
               | None => browser s
               end in
      {| widget := set_typingTimer None (widget s); browser := b |}
    else s in
  let s := match _suggestionsDropdown (widget s) with
           | Some _ => on_widget (set_suggestionsDropdown None) s
           | None => s
           end in
  let s := on_widget (set_sessionToken None) s in
  let s := on_widget (set_suggestions None) s in
  let s := on_widget (set_placesLibrary None) s in
  let s := on_widget (set_owned no_handles) s in
  on_widget (set_attached false) s.

Section EventLoop.

Context {rt : Runtime}.

(** The rest of [_selectSuggestion] once the place details arrive: lines
    521 to 536, inside the [try]; the [catch] logs what they throw.  On a
    destroyed widget that is the TypeError of [this.set("value", value)] or,
    when that call returns without writing, the one of line 535, which reads
    [this.searchTextbox]. *)
Definition on_place_resolved (task : nat) (place_location : option LatLng)
    (s : System) : System :=
  if existsb (Nat.eqb task) (details (browser s)) then
    let s := on_browser (fun b => set_details
               (filter (fun k => negb (k =? task)%nat) (details b)) b) s in
    match place_location with
    | None => s
    | Some l =>
        let location := new_LatLng (lat l) (lng l) in
        on_widget (fun w =>
          let w := _setMapLocation location (Some 15%Z) true false w in
          match _setCoordinatesValue_call (Some location) w with
          | Thrown w => set_console_error (console_error w ++ [select_error_message]) w
          | Returned w =>
              if attached w then
                let w := set_searchTextbox "" w in
                _hideSuggestionsDropdown w
              else set_console_error (console_error w ++ [select_error_message]) w
          end) s
    end
  else s.

Definition on_place_rejected (task : nat) (s : System) : System :=
  if existsb (Nat.eqb task) (details (browser s)) then
    let s := on_browser (fun b => set_details
               (filter (fun k => negb (k =? task)%nat) (details b)) b) s in
    on_widget (fun w => set_console_error (console_error w ++ [select_error_message]) w) s
  else s.

(** The rightclick listener of the map. *)
Definition on_rightclick (latLng : LatLng) (w : Widget) : Widget :=
  let w := _setMapLocation latLng None false false w in
  _setCoordinatesValue (Some latLng) w.

(** The handler of the script-loaded signal. *)
Definition on_script_loaded (w : Widget) : Widget :=
  let w := _createGoogleMapsElement w in
  let w := _refreshMarkerLocation w in
  set_owned {| scriptLoadedSignal := false;
               clearHandler := clearHandler (owned w);
               rightClickHandler := rightClickHandler (owned w);
               keyupHandler := keyupHandler (owned w);
               documentClickHandler := documentClickHandler (owned w) |} w.

(** One turn of the event loop.  An event whose listener is not registered
    (or no longer) reaches no code of the widget; what a call by the host
    throws goes back to the host. *)
Definition step (e : Event) (s : System) : System :=
  match e with
  | Startup => on_widget (set_started true) s
  | SetValue newValue => on_widget (fun w => after (_setValueAttr_call newValue w)) s
  | ScriptLoaded =>
      if scriptLoadedSignal (owned (widget s)) then on_widget on_script_loaded s else s
  | Keyup text =>
      if keyupHandler (owned (widget s)) then on_keyup text s else s
  | Elapse ms => elapse ms s
  | ImportResolved task => on_import_resolved task s
  | ImportRejected task => on_import_rejected task s
  | SuggestionsResolved task suggestions => on_suggestions_resolved task suggestions s
  | SuggestionsRejected task => on_suggestions_rejected task s
  | ItemClick index =>
      if item_shown index (widget s) then _selectSuggestion index s else s
  | ItemMouseEnter index =>
      if item_shown index (widget s) then on_widget (_highlightSuggestion index) s else s
  | PlaceResolved task place_location => on_place_resolved task place_location s
  | PlaceRejected task => on_place_rejected task s
  | RightClick latLng =>
      if rightClickHandler (owned (widget s)) then on_widget (on_rightclick latLng) s else s
  | DocumentClick outside =>
      if documentClickHandler (owned (widget s)) && outside then
        match _suggestionsDropdown (widget s) with
        | Some _ => on_widget _hideSuggestionsDropdown s
        | None => s
        end
      else s
  | ClearClick =>
      if clearHandler (owned (widget s)) then on_widget _clearCoordinates s else s
  | Destroy => destroy s
  end.

Definition run (events : list Event) (s : System) : System :=
  fold_left (fun s e => step e s) events s.

(** The states the widget can be in: created by [postCreate], then driven
    by events. *)
Inductive reachable : System -> Prop :=
| reachable_postCreate cfg : reachable (postCreate cfg)
| reachable_step e s : reachable s -> reachable (step e s).

End EventLoop.

(** ** A runtime for closed examples

    [Number::toString] and [parseFloat] restricted to what the examples
    below convert: integer-valued numbers below 10^21 (which JavaScript
    prints as plain decimal digits), NaN and the infinities; strings made of
    an optional minus sign followed by decimal digits.  Outside of that
    domain the two functions answer NaN.  Every theorem of this file is
    stated for an arbitrary [Runtime]. *)
Module Sample.

Definition print_Z (n : Z) : string :=
  NilZero.string_of_uint (N.to_uint (Z.to_N n)).

Definition print_integer (negative : bool) (n : Z) : string :=
  if (n <? 10 ^ 21)%Z
  then (if negative then "-" else "") ++ print_Z n
  else "NaN".

Definition NumberToString (x : float) : string :=
  match Prim2SF x with
  | S754_nan => "NaN"
  | S754_infinity negative => if negative then "-Infinity" else "Infinity"
  | S754_zero _ => "0"
  | S754_finite negative m e =>
      if (0 <=? e)%Z then print_integer negative (Z.pos m * 2 ^ e)
      else if (Z.pos m mod 2 ^ (- e) =? 0)%Z
           then print_integer negative (Z.pos m / 2 ^ (- e))
           else "NaN"
  end.

Definition digit_of (c : ascii) : option Z :=
  let n := nat_of_ascii c in
  if ((48 <=? n) && (n <=? 57))%nat then Some (Z.of_nat (n - 48)) else None.

Fixpoint digits (acc : option Z) (s : string) : option Z :=
  match s with
  | EmptyString => acc
  | String c rest =>
      match digit_of c with
      | Some d =>
          digits (Some (10 * match acc with Some a => a | None => 0 end + d)%Z) rest
      | None => acc
      end
  end.

Definition float_of_Z (n : Z) : float := PrimFloat.of_uint63 (Uint63.of_Z n).

Definition parseFloat (s : string) : float :=
  match s with
  | String "-" rest =>
      match digits None rest with
      | Some n => PrimFloat.opp (float_of_Z n)
      | None => PrimFloat.nan
      end
  | _ =>
      match digits None s with
      | Some n => float_of_Z n
      | None => PrimFloat.nan
      end
  end.

Definition runtime : Runtime :=
  Build_Runtime NumberToString parseFloat.

End Sample.

(** ** Configurations and states of the examples *)

(** A string property: no sub-properties, so the value is ["lat,lng"]. *)
Definition delimited_config : Config :=
  {| required := true; readOnly := false; properties := None; metadata := None;
     defaultCoordinates := {| latitude := CNumber 59%float; longitude := CNumber 18%float |};
     defaultZoom := 5 |}.

(** A string property that the editor may leave empty. *)
Definition optional_config : Config :=
  {| required := false; readOnly := false; properties := None; metadata := None;
     defaultCoordinates := {| latitude := CNumber 59%float; longitude := CNumber 18%float |};
     defaultZoom := 5 |}.

(** A block property with two sub-properties: the value is an object. *)
Definition structured_config : Config :=
  {| required := true; readOnly := false; properties := Some 2; metadata := None;
     defaultCoordinates := {| latitude := CNumber 59%float; longitude := CNumber 18%float |};
     defaultZoom := 5 |}.

Definition new_york : LatLng :=
  {| lat := CNumber 40%float; lng := CNumber (-73)%float |}.

(** A started editor of a string property, its map loaded, after a right
    click on the map: the value is the delimited string. *)
Definition delimited_picked : System :=
  @run Sample.runtime [Startup; ScriptLoaded; RightClick new_york]
       (postCreate delimited_config).

Definition structured_picked : System :=
  @run Sample.runtime [Startup; ScriptLoaded; RightClick new_york]
       (postCreate structured_config).


(** ** Relations used by the frame lemmas *)

(** [surface w w']: [w'] is [w] except for the map and the marker. *)
Definition surface (w w' : Widget) : Prop :=
  w' = set_map (_map w') (set_marker (_marker w') w).



(** ** Scenarios of the search *)

Definition suggestions_a : list Suggestion :=
  [ {| text := "Amsterdam"; placeId := 1 |}; {| text := "Athens"; placeId := 2 |} ].

Definition suggestions_ab : list Suggestion :=
  [ {| text := "Aberdeen"; placeId := 3 |} ].

(** The user types "a", pauses, then types "ab" and pauses again: two
    searches are in flight (tasks 1 and 2; task 0 was the import of the
    Places library). *)
Definition two_searches_in_flight : System :=
  @run Sample.runtime
    [Startup; ScriptLoaded; Keyup "a"; Elapse 200; ImportResolved 0;
     Keyup "ab"; Elapse 200]
    (postCreate delimited_config).

(** The answer to "ab" arrives first, the answer to "a" after it. *)
Definition stale_answer_last : System :=
  @run Sample.runtime
    [SuggestionsResolved 2 suggestions_ab; SuggestionsResolved 1 suggestions_a]
    two_searches_in_flight.

(** One search for "a" has been made and answered. *)
Definition searched_once : System :=
  @run Sample.runtime
    [Startup; ScriptLoaded; Keyup "a"; Elapse 200; ImportResolved 0;
     SuggestionsResolved 1 suggestions_a]
    (postCreate delimited_config).

(** The clear icon, then a search for "b". *)
Definition search_after_clear : list Event :=
  [ClearClick; Keyup "b"; Elapse 200].

(** The search box emptied from the keyboard, then a search for "b". *)
Definition search_after_erase : list Event :=
  [Keyup ""; Elapse 200; Keyup "b"; Elapse 200].

(** One search in flight (task 1). *)
Definition one_search_in_flight : System :=
  @run Sample.runtime
    [Startup; ScriptLoaded; Keyup "a"; Elapse 200; ImportResolved 0]
    (postCreate delimited_config).

(** A search that still awaits the Places library (task 0). *)
Definition import_in_flight : System :=
  @run Sample.runtime
    [Startup; ScriptLoaded; Keyup "a"; Elapse 200]
    (postCreate delimited_config).

(** ** Invariants of the event loop *)

(** Every live timeout is the one [_typingTimer] names, and handles are
    positive. *)
Definition timer_inv (s : System) : Prop :=
  next_timer (browser s) <> 0 /\
  forall t, In t (timers (browser s)) ->
    handle t <> 0 /\ _typingTimer (widget s) = Some (handle t).

(** A timeout set by the last keystroke is pending, due one delay after
    that keystroke, and will search for [text]. *)
Definition armed (text : string) (s : System) : Prop :=
  exists h,
    timers (browser s)
      = [{| handle := h; due := now (browser s) + typingDelay; callback_input := text |}] /\
    h <> 0 /\
    next_timer (browser s) <> 0 /\
    _typingTimer (widget s) = Some h /\
    keyupHandler (owned (widget s)) = true.

(** The events that reach the widget through a listener or a timeout, as
    opposed to the settling of a promise and to calls by the host. *)
Definition is_ui_event (e : Event) : bool :=
  match e with
  | ScriptLoaded | Keyup _ | Elapse _ | ItemClick _ | ItemMouseEnter _
  | RightClick _ | DocumentClick _ | ClearClick => true
  | _ => false
  end.

(** A burst of keystrokes after a first one: each comes [gap] milliseconds
    after the one before it. *)
Fixpoint burst (keystrokes : list (nat * string)) : list Event :=
  match keystrokes with
  | [] => []
  | (gap, text) :: rest => Elapse gap :: Keyup text :: burst rest
  end.

(** The text of the last keystroke of a burst. *)
Definition last_text (first : string) (keystrokes : list (nat * string)) : string :=
  last (List.map snd keystrokes) first.

(** After [destroy()]: no owned handle, no dropdown, no pending timeout. *)
Definition torn_down (s : System) : Prop :=
  owned (widget s) = no_handles /\
  _suggestionsDropdown (widget s) = None /\
  timers (browser s) = [].

(** The state of the timeouts as an event may leave it untouched. *)
Definition same_timers (s s' : System) : Prop :=
  _typingTimer (widget s') = _typingTimer (widget s) /\
  timers (browser s') = timers (browser s) /\
  next_timer (browser s') = next_timer (browser s).

(** ** Scenarios of the debounce and of the teardown *)

(** A started editor with its map loaded and the search box wired up. *)
Definition ready : System :=
  @step Sample.runtime ScriptLoaded
    (@step Sample.runtime Startup (postCreate delimited_config)).

(** Four more keystrokes within 190 ms of the first. *)
Definition five_keystrokes : list (nat * string) :=
  [(50, "ab"); (50, "abc"); (50, "abcd"); (40, "abcde")].

(** The user has typed "a"; the search has not started yet. *)
Definition typed_a : System := @step Sample.runtime (Keyup "a") ready.

(** The widget is destroyed while a search is in flight. *)
Definition destroyed_during_search : System :=
  @step Sample.runtime Destroy one_search_in_flight.

(** The widget is destroyed while the first search awaits the library. *)
Definition destroyed_during_import : System :=
  @step Sample.runtime Destroy import_in_flight.

(** The widget is destroyed after a click on a suggestion, while the details
    of the place (task 2) are being fetched. *)
Definition destroyed_during_commit : System :=
  @run Sample.runtime
    [SuggestionsResolved 1 suggestions_a; ItemClick 0; Destroy]
    one_search_in_flight.

(** ** Strings with commas *)

(** The number of occurrences of a character in a string. *)
Fixpoint count_char (c : ascii) (s : string) : nat :=
  match s with
  | EmptyString => 0
  | String c' rest => (if Ascii.eqb c' c then 1 else 0) + count_char c rest
  end.

(** ** Components that count as coordinates *)

(** What the object branch of [_hasCoordinates] lets through: a component
    that is neither [undefined] nor [null], that does not convert to NaN and
    that is not the number zero.  No test asks for the type number. *)
Definition counts (c : Component) : Prop :=
  match c with
  | CUndefined | CNull => False
  | CNumber x => PrimFloat.is_nan x = false /\ PrimFloat.eqb x 0%float = false
  | COther x _ => PrimFloat.is_nan x = false
  end.

(** ** Further invariants of the event loop *)

(** The events by which the host sets the value. *)
Definition is_host_set (e : Event) : bool :=
  match e with
  | SetValue _ => true
  | _ => false
  end.

Definition is_destroy (e : Event) : bool :=
  match e with
  | Destroy => true
  | _ => false
  end.

(** The events by which an answer to a search arrives. *)
Definition is_answer (e : Event) : bool :=
  match e with
  | SuggestionsResolved _ _ => true
  | _ => false
  end.

(** The dropdown of a widget that has not been destroyed, and a dropdown
    that is displayed, lists the suggestions of the last answer; while it is
    displayed the highlighted index is -1 or the index of an item, and the
    items that carry the class [selected] are exactly the one at that index.
    (A destroyed widget can hold a hidden list that was never filled.) *)
Definition dropdown_inv (w : Widget) : Prop :=
  match _suggestionsDropdown w with
  | None => True
  | Some d =>
      attached w = true \/ display d = true ->
      (exists l, _suggestions w = Some l /\
                 List.map fst (items d) = List.map text l) /\
      (display d = true ->
       (_selectedSuggestionIndex w = (-1)%Z \/
        (0 <= _selectedSuggestionIndex w < Z.of_nat (length (items d)))%Z) /\
       forall i label selected,
         nth_error (items d) i = Some (label, selected) ->
         selected = (Z.of_nat i =? _selectedSuggestionIndex w)%Z)
  end.

(** The map is created by the script-loaded handler, once; a marker and the
    listeners of the map and of the search box exist only on a map, and the
    latter only when the property is not read-only. *)
Definition surface_inv (w : Widget) : Prop :=
  (_map w = None -> _marker w = None) /\
  (scriptLoadedSignal (owned w) = true -> _map w = None) /\
  (rightClickHandler (owned w) = true -> _map w <> None) /\
  (readOnly (config w) = true ->
   rightClickHandler (owned w) = false /\
   keyupHandler (owned w) = false /\
   documentClickHandler (owned w) = false).

(** Every search that awaits the Places library, and every request in
    flight, is for a non-empty text; a request carries a session token, and
    every token in use was created before. *)
Definition requests_inv (s : System) : Prop :=
  (forall t, _sessionToken (widget s) = Some t -> t < next_token (browser s)) /\
  (forall k text, In (k, text) (imports (browser s)) -> text <> "") /\
  forall k r, In (k, r) (requests (browser s)) ->
    input r <> "" /\
    exists t, sessionToken r = Some t /\ t < next_token (browser s).

(** At most one session token was created, and it is the one in use. *)
Definition one_token (s : System) : Prop :=
  ((next_token (browser s) = 0 /\ _sessionToken (widget s) = None) \/
   (next_token (browser s) = 1 /\ _sessionToken (widget s) = Some 0)) /\
  Forall (fun r => sessionToken (snd r) = Some 0) (requests (browser s)).

(** ** Footprints of the methods *)

(** [form_only w w']: [w'] is [w] except for the value, the text box, the map,
    the marker and the records of [onChange] and [console.error]. *)
Definition form_only (w w' : Widget) : Prop :=
  w' = set_value (value w') (set_textbox (textbox w')
         (set_map (_map w') (set_marker (_marker w')
            (set_onChange (onChange w') (set_console_error (console_error w') w))))).

(** [search_only w w']: [w'] is [w] except for the state of the search:
    the session token, the suggestions, the dropdown and its highlighted
    index, the cached library, and the record of [console.error]. *)
Definition search_only (w w' : Widget) : Prop :=
  w' = set_sessionToken (_sessionToken w')
         (set_suggestions (_suggestions w')
            (set_suggestionsDropdown (_suggestionsDropdown w')
               (set_selectedSuggestionIndex (_selectedSuggestionIndex w')
                  (set_placesLibrary (_placesLibrary w')
                     (set_console_error (console_error w') w))))).

(** The events that only touch the state of the search. *)
Definition is_search_event (e : Event) : bool :=
  match e with
  | Elapse _ | ImportResolved _ | ImportRejected _
  | SuggestionsResolved _ _ | SuggestionsRejected _
  | ItemClick _ | ItemMouseEnter _ | PlaceRejected _ | DocumentClick _ => true
  | _ => false
  end.

(** [same_presence w w']: the handles and the configuration are the same,
    and [w'] has a map exactly when [w] has one; without a map the marker is
    the same too. *)
Definition same_presence (w w' : Widget) : Prop :=
  owned w' = owned w /\ config w' = config w /\
  (_map w = None -> _map w' = None /\ _marker w' = _marker w) /\
  (_map w <> None -> _map w' <> None).

(** ** Further scenarios *)

(** A read-only string property. *)
Definition readonly_config : Config :=
  {| required := false; readOnly := true; properties := None; metadata := None;
     defaultCoordinates := {| latitude := CNumber 59%float; longitude := CNumber 18%float |};
     defaultZoom := 5 |}.

(** The read-only editor, started, its map loaded. *)
Definition readonly_ready : System :=
  @step Sample.runtime ScriptLoaded
    (@step Sample.runtime Startup (postCreate readonly_config)).

(** An editor whose value the host has set before the map is loaded. *)
Definition value_before_map : System :=
  @step Sample.runtime (SetValue (VString "40,-73"))
    (@step Sample.runtime Startup (postCreate delimited_config)).

(** The default location of a configuration. *)
Definition default_location (cfg : Config) : LatLng :=
  new_LatLng (latitude (defaultCoordinates cfg)) (longitude (defaultCoordinates cfg)).

(** A suggestion has been clicked: the details of its place (task 2) are
    being fetched. *)
Definition commit_pending : System :=
  @step Sample.runtime (ItemClick 0)
    (@step Sample.runtime (SuggestionsResolved 1 suggestions_a) one_search_in_flight).

(** The answer to the search has arrived and the dropdown lists it. *)
Definition suggestions_shown : System :=
  @step Sample.runtime (SuggestionsResolved 1 suggestions_a) one_search_in_flight.

(** ** The page: the loader the editors share *)

(** What [_addGoogleMapsScript] reads and writes outside the widget: the
    global object [window.googleMapsEditor] with its event, the global
    callback (bound to the editor that installed it), the script element with
    id [googleMapsEditor-script] (its [src]), and whether [google.maps] is an
    object.  [dispatched] counts the dispatches of the event
    [googleMapsScriptLoaded]; [editors] are the editors of the page, in the
    order of their creation. *)
Record Page := mkPage {
  googleMapsEditor : bool;
  googleMapsScriptCallback : option nat;
  script_src : option string;
  google_maps : bool;
  dispatched : nat;
  editors : list System
}.

Definition set_editors x p : Page :=
  mkPage (googleMapsEditor p) (googleMapsScriptCallback p) (script_src p)
    (google_maps p) (dispatched p) x.

(** A page on which no editor has been created; [google.maps] may have been
    defined by other code of the page. *)
Definition blank_page (google : bool) : Page :=
  mkPage false None None google 0 [].

Definition scriptUrl (apiKey : string) : string :=
  "https://maps.googleapis.com/maps/api/js?key=" ++ apiKey ++
  "&loading=async&libraries=places,marker&callback=googleMapsScriptCallback&v=weekly".

(** [update i f l] applies [f] to the element of [l] at index [i]. *)
Fixpoint update {A : Type} (i : nat) (f : A -> A) (l : list A) {struct l} : list A :=
  match l, i with
  | [], _ => []
  | x :: rest, 0 => f x :: rest
  | x :: rest, S j => x :: update j f rest
  end.

(** The events of a page: an editor is created with its configuration and
    API key; other code defines [google.maps]; the script of the tag has
    loaded and calls the callback named in its URL; an event reaches the
    editor at an index. *)
Inductive PageEvent : Type :=
| Create (cfg : Config) (apiKey : string)
| GoogleDefined
| ScriptCallback
| Editor (index : nat) (e : Event).

Section PageLoop.

Context {rt : Runtime}.

(** [document.dispatchEvent(googleMapsEditor.scriptLoadedEvent)]: the
    listeners run one after the other, each in its editor. *)
Definition dispatchEvent (p : Page) : Page :=
  mkPage (googleMapsEditor p) (googleMapsScriptCallback p) (script_src p)
    (google_maps p) (S (dispatched p)) (List.map (step ScriptLoaded) (editors p)).

(** A call of [window.googleMapsScriptCallback]; [log] writes to the
    console only. *)
Definition call_googleMapsScriptCallback (p : Page) : Page :=
  match googleMapsScriptCallback p with
  | Some _ => dispatchEvent p
  | None => p
  end.

(** [_addGoogleMapsScript()], called by the editor at index [self]. *)
Definition _addGoogleMapsScript (self : nat) (apiKey : string) (p : Page) : Page :=
  let p := if googleMapsEditor p then p
           else mkPage true (googleMapsScriptCallback p) (script_src p)
                  (google_maps p) (dispatched p) (editors p) in
  let p := match googleMapsScriptCallback p with
           | Some _ => p
           | None => mkPage (googleMapsEditor p) (Some self) (script_src p)
                       (google_maps p) (dispatched p) (editors p)
           end in
  match script_src p with
  | None =>
      mkPage (googleMapsEditor p) (googleMapsScriptCallback p)
        (Some (scriptUrl apiKey)) (google_maps p) (dispatched p) (editors p)
  | Some _ => if google_maps p then call_googleMapsScriptCallback p else p
  end.

(** The creation of an editor: [postCreate()] wires up the icons and the
    script-loaded listener, then calls [_addGoogleMapsScript()]. *)
Definition create (cfg : Config) (apiKey : string) (p : Page) : Page :=
  _addGoogleMapsScript (length (editors p)) apiKey
    (set_editors (editors p ++ [postCreate cfg]) p).

(** One turn of the page.  The event [googleMapsScriptLoaded] reaches an
    editor only through a dispatch. *)
Definition page_step (e : PageEvent) (p : Page) : Page :=
  match e with
  | Create cfg apiKey => create cfg apiKey p
  | GoogleDefined =>
      mkPage (googleMapsEditor p) (googleMapsScriptCallback p) (script_src p)
        true (dispatched p) (editors p)
  | ScriptCallback =>
      match script_src p with
      | Some _ =>
          call_googleMapsScriptCallback
            (mkPage (googleMapsEditor p) (googleMapsScriptCallback p) (script_src p)
               true (dispatched p) (editors p))
      | None => p
      end
  | Editor index ScriptLoaded => p
  | Editor index e => set_editors (update index (step e) (editors p)) p
  end.

Definition page_run (events : list PageEvent) (p : Page) : Page :=
  fold_left (fun p e => page_step e p) events p.

(** The pages that can be: a blank page, then driven by events. *)
Inductive page_reachable : Page -> Prop :=
| page_reachable_blank google : page_reachable (blank_page google)
| page_reachable_step e p : page_reachable p -> page_reachable (page_step e p).

(** Once the event has been dispatched the tag is there, [google.maps] is
    defined, the callback is installed and no editor still listens. *)
Definition page_inv (p : Page) : Prop :=
  (script_src p <> None -> googleMapsScriptCallback p <> None) /\
  (0 < dispatched p ->
   script_src p <> None /\ google_maps p = true /\
   Forall (fun s => scriptLoadedSignal (owned (widget s)) = false) (editors p)) /\
  (dispatched p = 0 -> Forall (fun s => _map (widget s) = None) (editors p)).

End PageLoop.

(** Two editors created before the script has loaded, a third one after. *)
Definition three_editors : Page :=
  @page_run Sample.runtime
    [Create delimited_config "first-key"; Create structured_config "second-key";
     ScriptCallback; Create readonly_config "third-key"]
    (blank_page false).
(** * Properties *)

(** ** The model on the scenarios of the specification *)

Example split_two : JS.split "," "40,-73" = ["40"; "-73"].
Proof. reflexivity. Qed.

Example split_empty : JS.split "," "" = [""].
Proof. reflexivity. Qed.

Example split_three : JS.split "," "1,2,3" = ["1"; "2"; "3"].
Proof. reflexivity. Qed.

Example sample_prints : Sample.NumberToString (-73)%float = "-73".
Proof. vm_compute. reflexivity. Qed.

Example sample_parses : Sample.parseFloat "40" = 40%float.
Proof. vm_compute. reflexivity. Qed.

Example delimited_picked_value :
  value (widget delimited_picked) = VString "40,-73" /\
  _hasCoordinates (widget delimited_picked) = true /\
  _marker (widget delimited_picked) = Some {| position := Some new_york |}.
Proof. vm_compute. repeat split. Qed.

Example structured_picked_value :
  value (widget structured_picked)
    = VObject {| latitude := CNumber 40%float; longitude := CNumber (-73)%float |} /\
  isValid (widget structured_picked) = true.
Proof. vm_compute. repeat split. Qed.

(** ** Frame lemmas: what each method leaves alone *)

Lemma surface_refl w : surface w w.
Proof. destruct w; reflexivity. Qed.

Lemma surface_fields w w' :
  surface w w' ->
  config w' = config w /\ _started w' = _started w /\ value w' = value w /\
  textbox w' = textbox w /\ _sessionToken w' = _sessionToken w /\
  _suggestions w' = _suggestions w /\ onChange w' = onChange w /\
  console_error w' = console_error w /\ _typingTimer w' = _typingTimer w /\
  owned w' = owned w.
Proof. intros ->. repeat split. Qed.

Lemma surface_attached w w' : surface w w' -> attached w' = attached w.
Proof. intros ->. reflexivity. Qed.

Lemma _setMapLocation_surface location z c k w :
  surface w (_setMapLocation location z c k w).
Proof.
  unfold surface, _setMapLocation.
  destruct w as [? ? ? ? ? ? m mk ? ? ? ? ? ? ? ? ? ?]; simpl.
  destruct m as [m|]; [|reflexivity].
  destruct k; simpl; reflexivity.
Qed.

Lemma _isComplexType_ext arg w w' :
  value w' = value w -> config w' = config w ->
  _isComplexType arg w' = _isComplexType arg w.
Proof. unfold _isComplexType. intros -> ->. reflexivity. Qed.

Section Frames.

Context {rt : Runtime}.

Lemma _refreshMarkerLocation_surface w : surface w (_refreshMarkerLocation w).
Proof.
  unfold _refreshMarkerLocation.
  destruct (_map w); [|apply surface_refl].
  destruct (negb (_hasCoordinates w)); [apply _setMapLocation_surface|].
  destruct (_isComplexType VUndefined w); [apply _setMapLocation_surface|].
  destruct (value w); try apply surface_refl. apply _setMapLocation_surface.
Qed.

(** [_setValueAttr] stores the value it is given, whatever it renders. *)
Lemma _setValueAttr_value newValue w :
  value (_setValueAttr newValue w) = newValue.
Proof.
  unfold _setValueAttr.
  set (w1 := set_textbox _ (set_value newValue w)).
  assert (H1 : value w1 = newValue) by reflexivity.
  set (w2 := match _marker w1 with None => _ | Some _ => _ end).
  assert (H2 : value w2 = newValue).
  { subst w2. destruct (_marker w1); [exact H1|].
    destruct (surface_fields _ _ (_refreshMarkerLocation_surface w1)) as (_ & _ & -> & _).
    exact H1. }
  destruct (_isComplexType VUndefined w2); [simpl; exact H2 | exact H2].
Qed.

Lemma _setValueAttr_textbox newValue w :
  textbox (_setValueAttr newValue w) = JS.or_empty_text newValue.
Proof.
  unfold _setValueAttr.
  set (w1 := set_textbox _ (set_value newValue w)).
  set (w2 := match _marker w1 with None => _ | Some _ => _ end).
  assert (H2 : textbox w2 = JS.or_empty_text newValue).
  { subst w2. destruct (_marker w1); [reflexivity|].
    destruct (surface_fields _ _ (_refreshMarkerLocation_surface w1))
      as (_ & _ & _ & -> & _).
    reflexivity. }
  destruct (_isComplexType VUndefined w2); [simpl; exact H2 | exact H2].
Qed.

End Frames.

(** ** Validity of the stored value *)

(** On the object format the check tests each component against
    [undefined], [null], NaN (after conversion to a number) and the number
    zero. *)
Lemma _hasCoordinates_object w o :
  value w = VObject o ->
  _hasCoordinates w = true ->
  counts (latitude o) /\ counts (longitude o).
Proof.
  intros Hv. unfold _hasCoordinates, _isComplexType. rewrite Hv. simpl.
  destruct o as [la lo]; simpl.
  destruct la as [| |x|x sx], lo as [| |y|y sy]; simpl; try discriminate;
    intros H;
    destruct (PrimFloat.is_nan y), (PrimFloat.is_nan x); simpl in H; try discriminate;
    try (destruct (PrimFloat.eqb y 0); simpl in H; try discriminate);
    try (destruct (PrimFloat.eqb x 0); simpl in H; try discriminate);
    repeat split.
Qed.

(** On the string format the check only counts the comma-separated parts. *)
Lemma _hasCoordinates_string w s :
  value w = VString s ->
  _isComplexType VUndefined w = false ->
  _hasCoordinates w = (negb (String.eqb s "") && (length (JS.split "," s) =? 2)%nat).
Proof.
  intros Hv Hc. unfold _hasCoordinates. rewrite Hc, Hv. simpl.
  destruct (String.eqb s ""); reflexivity.
Qed.

(** C4 (the code departs from the claim): the string values ["0,0"],
    ["north,south"] and ["40,"] of a string property count as coordinates,
    although their components are zero, not numeric or missing; the object
    value with two zeros does not. *)
Theorem hasCoordinates_string_zero_or_text :
  _hasCoordinates (set_value (VString "0,0") (widget (postCreate delimited_config))) = true /\
  _hasCoordinates (set_value (VString "north,south") (widget (postCreate delimited_config))) = true /\
  _hasCoordinates (set_value (VString "40,") (widget (postCreate delimited_config))) = true /\
  _hasCoordinates
    (set_value (VObject {| latitude := CNumber 0%float; longitude := CNumber 0%float |})
               (widget (postCreate structured_config))) = false.
Proof. repeat split. Qed.

(** [isValid()] is [_hasCoordinates()] on a required field and true on any
    other. *)
Lemma isValid_contract (w : Widget) :
  (isValid w = false <-> required (config w) = true /\ _hasCoordinates w = false) /\
  (required (config w) = false -> isValid w = true).
Proof.
  unfold isValid. destruct (required (config w)); split.
  - split; [intros H; split; [reflexivity | exact H] | intros [_ H]; exact H].
  - discriminate.
  - split; [discriminate | intros [H _]; discriminate].
  - reflexivity.
Qed.

Example isValid_required_unset : isValid (widget (postCreate delimited_config)) = false.
Proof. reflexivity. Qed.

(** C8 (the code departs from the claim): on a required string property the
    values ["0,0"], ["north,south"] and ["40,"], whose components are zero,
    not numeric or missing, lack valid coordinates, and [isValid()] answers
    true; it answers false for the empty value and for a value without a
    comma.  On a required object property it answers false for a zero or a
    NaN component and true for two numbers that are neither.  A field that
    is not required is valid whatever its value. *)
Theorem isValid_accepts_zero_or_text :
  required delimited_config = true /\
  isValid (set_value (VString "0,0") (widget (postCreate delimited_config))) = true /\
  isValid (set_value (VString "north,south") (widget (postCreate delimited_config))) = true /\
  isValid (set_value (VString "40,") (widget (postCreate delimited_config))) = true /\
  isValid (set_value (VString "") (widget (postCreate delimited_config))) = false /\
  isValid (set_value (VString "40") (widget (postCreate delimited_config))) = false /\
  required structured_config = true /\
  isValid
    (set_value (VObject {| latitude := CNumber 0%float; longitude := CNumber 0%float |})
               (widget (postCreate structured_config))) = false /\
  isValid
    (set_value (VObject {| latitude := CNumber nan; longitude := CNumber 18%float |})
               (widget (postCreate structured_config))) = false /\
  isValid
    (set_value (VObject {| latitude := CNumber 40%float; longitude := CNumber (-73)%float |})
               (widget (postCreate structured_config))) = true /\
  required optional_config = false /\
  isValid (set_value (VString "") (widget (postCreate optional_config))) = true /\
  isValid (set_value (VString "north") (widget (postCreate optional_config))) = true.
Proof. repeat split. Qed.

(** ** Writing the value: [_setCoordinatesValue] *)

Lemma _hideSuggestionsDropdown_fields w :
  value (_hideSuggestionsDropdown w) = value w /\
  onChange (_hideSuggestionsDropdown w) = onChange w /\
  _sessionToken (_hideSuggestionsDropdown w) = _sessionToken w /\
  _suggestions (_hideSuggestionsDropdown w) = _suggestions w /\
  _started (_hideSuggestionsDropdown w) = _started w /\
  config (_hideSuggestionsDropdown w) = config w /\
  _marker (_hideSuggestionsDropdown w) = _marker w /\
  _map (_hideSuggestionsDropdown w) = _map w.
Proof.
  unfold _hideSuggestionsDropdown. destruct (_suggestionsDropdown w); repeat split.
Qed.

Section Writing.

Context {rt : Runtime}.

Lemma _setCoordinatesValue_not_started location w :
  _started w = false -> _setCoordinatesValue location w = w.
Proof. unfold _setCoordinatesValue. intros ->. reflexivity. Qed.

(** On a widget whose template is attached the calls return what the
    methods compute. *)
Lemma _setValueAttr_call_attached v w :
  attached w = true -> _setValueAttr_call v w = Returned (_setValueAttr v w).
Proof. unfold _setValueAttr_call. intros ->. reflexivity. Qed.

Lemma _setCoordinatesValue_call_attached location w :
  attached w = true ->
  _setCoordinatesValue_call location w = Returned (_setCoordinatesValue location w).
Proof.
  intros Ha. unfold _setCoordinatesValue_call, _setCoordinatesValue.
  destruct (negb (_started w)); [reflexivity|].
  destruct location as [l|].
  - destruct (JS.is_undefined (lng l) || JS.is_undefined (lat l)); [reflexivity|].
    destruct (_isComplexType VUndefined w); apply _setValueAttr_call_attached, Ha.
  - destruct (_isComplexType VUndefined w); apply _setValueAttr_call_attached, Ha.
Qed.

Lemma _setCoordinatesValue_call_not_started location w :
  _started w = false -> _setCoordinatesValue_call location w = Returned w.
Proof. unfold _setCoordinatesValue_call. intros ->. reflexivity. Qed.

Lemma _setValueAttr_console_error v w :
  console_error (_setValueAttr v w) = console_error w.
Proof.
  unfold _setValueAttr.
  set (w1 := set_textbox _ (set_value v w)).
  set (w2 := match _marker w1 with None => _ | Some _ => _ end).
  assert (H2 : console_error w2 = console_error w).
  { subst w2. destruct (_marker w1); [reflexivity|].
    destruct (surface_fields _ _ (_refreshMarkerLocation_surface w1))
      as (_ & _ & _ & _ & _ & _ & _ & -> & _).
    reflexivity. }
  destruct (_isComplexType VUndefined w2); simpl; exact H2.
Qed.

Lemma _setValueAttr_attached v w : attached (_setValueAttr v w) = attached w.
Proof.
  unfold _setValueAttr.
  set (w1 := set_textbox _ (set_value v w)).
  set (w2 := match _marker w1 with None => _ | Some _ => _ end).
  assert (H2 : attached w2 = attached w).
  { subst w2. destruct (_marker w1); [reflexivity|].
    rewrite (surface_attached _ _ (_refreshMarkerLocation_surface w1)). reflexivity. }
  destruct (_isComplexType VUndefined w2); simpl; exact H2.
Qed.

Lemma _setCoordinatesValue_attached location w :
  attached (_setCoordinatesValue location w) = attached w.
Proof.
  unfold _setCoordinatesValue.
  destruct (negb (_started w)); [reflexivity|].
  destruct location as [l|].
  - destruct (JS.is_undefined (lng l) || JS.is_undefined (lat l)); [reflexivity|].
    destruct (_isComplexType VUndefined w); apply _setValueAttr_attached.
  - destruct (_isComplexType VUndefined w); apply _setValueAttr_attached.
Qed.

(** On a destroyed widget a call of [_setCoordinatesValue] leaves the value
    and the error console as the method leaves them on a live widget, and
    changes nothing else: the setter throws once the value is stored. *)
Lemma _setCoordinatesValue_call_detached_after location w :
  attached w = false ->
  after (_setCoordinatesValue_call location w)
  = set_console_error (console_error (_setCoordinatesValue location w))
      (set_value (value (_setCoordinatesValue location w)) w).
Proof.
  intros Ha. unfold _setCoordinatesValue_call, _setCoordinatesValue, _setValueAttr_call.
  rewrite Ha.
  destruct (_started w) eqn:Es; simpl; [|destruct w; reflexivity].
  destruct location as [l|].
  - destruct (JS.is_undefined (lng l) || JS.is_undefined (lat l)).
    + destruct w; reflexivity.
    + destruct (_isComplexType VUndefined w); simpl;
        rewrite _setValueAttr_value, _setValueAttr_console_error; destruct w; reflexivity.
  - destruct (_isComplexType VUndefined w); simpl;
      rewrite _setValueAttr_value, _setValueAttr_console_error; destruct w; reflexivity.
Qed.

(** C9: while [_started] is false, [_setCoordinatesValue] returns at once
    and changes nothing, for every location and for [null]; a right click
    on the map and the arrival of a selected place's details then leave the
    stored value as it was and call [onChange] not once. *)
Theorem setCoordinatesValue_before_startup (s : System) :
  _started (widget s) = false ->
  (forall location, _setCoordinatesValue location (widget s) = widget s) /\
  (forall latLng,
      value (widget (step (RightClick latLng) s)) = value (widget s) /\
      onChange (widget (step (RightClick latLng) s)) = onChange (widget s)) /\
  (forall task place_location,
      value (widget (step (PlaceResolved task place_location) s)) = value (widget s) /\
      onChange (widget (step (PlaceResolved task place_location) s)) = onChange (widget s)).
Proof.
  intros Hs. split; [|split].
  - intros location. apply _setCoordinatesValue_not_started, Hs.
  - intros latLng. simpl.
    destruct (rightClickHandler (owned (widget s))); [|split; reflexivity].
    simpl. unfold on_rightclick.
    pose proof (surface_fields _ _
      (_setMapLocation_surface latLng None false false (widget s)))
      as (_ & Hst & Hv & _ & _ & _ & Ho & _).
    rewrite _setCoordinatesValue_not_started by (rewrite Hst; exact Hs).
    split; assumption.
  - intros task place_location. simpl. unfold on_place_resolved.
    destruct (existsb _ _); [|split; reflexivity].
    destruct place_location as [l|]; [|split; reflexivity].
    simpl.
    set (location := new_LatLng (lat l) (lng l)).
    pose proof (surface_fields _ _
      (_setMapLocation_surface location (Some 15%Z) true false (widget s)))
      as (_ & Hst & Hv & _ & _ & _ & Ho & _).
    rewrite _setCoordinatesValue_call_not_started by (rewrite Hst; exact Hs).
    destruct (attached _); [|simpl; split; assumption].
    destruct (_hideSuggestionsDropdown_fields
                (set_searchTextbox "" (_setMapLocation location (Some 15%Z) true false
                                         (widget s)))) as (-> & -> & _).
    split; assumption.
Qed.

(** C10: given a location one of whose accessors yields [undefined],
    [_setCoordinatesValue] writes no value: the stored value and the
    record of [onChange] calls are as before.  On a started widget (where
    the method gets as far as the accessors) the only effect is the error
    message on the console. *)
Theorem setCoordinatesValue_missing_component (location : LatLng) (w : Widget) :
  lng location = CUndefined \/ lat location = CUndefined ->
  value (_setCoordinatesValue (Some location) w) = value w /\
  onChange (_setCoordinatesValue (Some location) w) = onChange w /\
  (_started w = true ->
   _setCoordinatesValue (Some location) w
     = set_console_error (console_error w ++ [missing_coordinate_message]) w).
Proof.
  intros H. unfold _setCoordinatesValue.
  assert (Hu : JS.is_undefined (lng location) || JS.is_undefined (lat location) = true).
  { destruct H as [-> | ->]; simpl; [reflexivity | apply orb_true_r]. }
  rewrite Hu. destruct (_started w); simpl; repeat split.
  discriminate.
Qed.

(** C5, amended: on a started widget the absent value is written as the
    object with two [null] components when the property is of the object
    format, and as [null] (not as the empty string) when it is of the
    string format; there the visible text box is set to the empty string.
    The clear action stores that same value. *)
Theorem absent_value_serialization (w : Widget) :
  _started w = true ->
  (_isComplexType VUndefined w = true ->
   value (_setCoordinatesValue None w)
     = VObject {| latitude := CNull; longitude := CNull |}) /\
  (_isComplexType VUndefined w = false ->
   value (_setCoordinatesValue None w) = VNull /\
   textbox (_setCoordinatesValue None w) = "") /\
  value (_clearCoordinates w) = value (_setCoordinatesValue None w).
Proof.
  intros Hs. split; [|split].
  - intros Hc. unfold _setCoordinatesValue. rewrite Hs, Hc. simpl.
    apply _setValueAttr_value.
  - intros Hc. unfold _setCoordinatesValue. rewrite Hs, Hc. simpl.
    split; [apply _setValueAttr_value | apply _setValueAttr_textbox].
  - unfold _clearCoordinates.
    set (w1 := _hideSuggestionsDropdown (set_searchTextbox "" w)).
    set (w2 := match _marker w1 with Some _ => set_marker None w1 | None => w1 end).
    assert (Hf : value w2 = value w /\ config w2 = config w /\ _started w2 = _started w).
    { destruct (_hideSuggestionsDropdown_fields (set_searchTextbox "" w))
        as (Hv & _ & _ & _ & Hst & Hc & _).
      subst w2. fold w1 in Hv, Hst, Hc.
      destruct (_marker w1); simpl; repeat split; assumption. }
    destruct Hf as (Hv & Hc & Hst).
    unfold _setCoordinatesValue.
    rewrite Hst, (_isComplexType_ext _ _ _ Hv Hc).
    destruct (_started w); simpl; [|exact Hv].
    destruct (_isComplexType VUndefined w); rewrite !_setValueAttr_value; reflexivity.
Qed.

End Writing.

(** C9 at work: before startup a right click moves the marker and writes no
    value. *)
Lemma setCoordinatesValue_before_startup_witness :
  _started (widget (@run Sample.runtime [ScriptLoaded] (postCreate delimited_config))) = false /\
  value (widget (@run Sample.runtime [ScriptLoaded; RightClick new_york]
                   (postCreate delimited_config))) = VString "".
Proof.
  split; [reflexivity|].
  exact (proj1 (proj1 (proj2 (@setCoordinatesValue_before_startup Sample.runtime
           (@run Sample.runtime [ScriptLoaded] (postCreate delimited_config))
           eq_refl)) new_york)).
Defined.

(** C10 at work: a location without longitude on the started editor. *)
Lemma setCoordinatesValue_missing_component_witness :
  value (@_setCoordinatesValue Sample.runtime
           (Some {| lat := CNumber 40%float; lng := CUndefined |})
           (widget delimited_picked))
  = VString "40,-73".
Proof.
  exact (proj1 (@setCoordinatesValue_missing_component Sample.runtime
           {| lat := CNumber 40%float; lng := CUndefined |}
           (widget delimited_picked) (or_introl eq_refl))).
Defined.

(** C5, the claim as stated fails: after the clear action on a populated
    editor of a string property the stored value is [null], not the empty
    string. *)
Lemma clear_delimited_not_empty_string :
  value (widget delimited_picked) = VString "40,-73" /\
  value (widget (@step Sample.runtime ClearClick delimited_picked)) = VNull /\
  value (widget (@step Sample.runtime ClearClick delimited_picked)) <> VString "".
Proof. vm_compute. repeat split. discriminate. Qed.

(** C5 at work on the editor of an object property. *)
Lemma absent_value_serialization_witness :
  _started (widget structured_picked) = true /\
  value (@_clearCoordinates Sample.runtime (widget structured_picked))
    = VObject {| latitude := CNull; longitude := CNull |}.
Proof.
  split; [reflexivity|].
  destruct (@absent_value_serialization Sample.runtime (widget structured_picked) eq_refl)
    as (Hobj & _ & Hclear).
  rewrite Hclear. apply Hobj. reflexivity.
Defined.

(** ** Rendering the value: [_refreshMarkerLocation] *)

Lemma _setMapLocation_marker location z c w :
  _map w <> None ->
  _marker (_setMapLocation location z c false w) = Some {| position := Some location |} /\
  _marker (_setMapLocation location z c true w) = _marker w.
Proof.
  unfold _setMapLocation. destruct (_map w); [|congruence].
  intros _. split; reflexivity.
Qed.

Section Rendering.

Context {rt : Runtime}.


End Rendering.



(** What [_hasCoordinates()] accepts need not be a coordinate pair: the
    first render of the string ["north,south"] puts a marker at (NaN, NaN). *)
Example render_text_marker :
  _marker (widget (@run Sample.runtime
                     [Startup; ScriptLoaded; SetValue (VString "north,south")]
                     (postCreate delimited_config)))
  = Some {| position := Some (new_LatLng (CNumber nan) (CNumber nan)) |}.
Proof. vm_compute. reflexivity. Qed.

(** ** Suggestion searches and their answers *)

(** C1, the claim as stated fails: "a" was searched before "ab", both
    requests are in flight, the answer to "ab" arrives first and the answer
    to "a" last; the list then holds the answer to "a". *)
Lemma stale_answer_overwrites :
  List.map (fun r => input (snd r)) (requests (browser two_searches_in_flight)) = ["a"; "ab"] /\
  _suggestions (widget stale_answer_last) = Some suggestions_a /\
  _suggestions (widget stale_answer_last) <> Some suggestions_ab.
Proof. vm_compute. repeat split. discriminate. Qed.

(** ** The session token *)

Section Token.

Context {rt : Runtime}.

Lemma _setValueAttr_sessionToken v w :
  _sessionToken (_setValueAttr v w) = _sessionToken w /\
  _suggestions (_setValueAttr v w) = _suggestions w.
Proof.
  unfold _setValueAttr.
  set (w1 := set_textbox _ (set_value v w)).
  set (w2 := match _marker w1 with None => _ | Some _ => _ end).
  assert (H2 : _sessionToken w2 = _sessionToken w /\ _suggestions w2 = _suggestions w).
  { subst w2. destruct (_marker w1); [split; reflexivity|].
    destruct (surface_fields _ _ (_refreshMarkerLocation_surface w1))
      as (_ & _ & _ & _ & -> & -> & _).
    split; reflexivity. }
  destruct (_isComplexType VUndefined w2); simpl; exact H2.
Qed.

(** The clear action keeps the session token and the suggestion list. *)
Lemma _clearCoordinates_sessionToken w :
  _sessionToken (_clearCoordinates w) = _sessionToken w /\
  _suggestions (_clearCoordinates w) = _suggestions w.
Proof.
  unfold _clearCoordinates.
  set (w1 := _hideSuggestionsDropdown (set_searchTextbox "" w)).
  set (w2 := match _marker w1 with Some _ => set_marker None w1 | None => w1 end).
  assert (H2 : _sessionToken w2 = _sessionToken w /\ _suggestions w2 = _suggestions w).
  { destruct (_hideSuggestionsDropdown_fields (set_searchTextbox "" w))
      as (_ & _ & Ht & Hs & _).
    subst w2. fold w1 in Ht, Hs. destruct (_marker w1); simpl; split; assumption. }
  unfold _setCoordinatesValue.
  destruct (_started w2); simpl; [|exact H2].
  destruct (_isComplexType VUndefined w2);
    match goal with
    | |- _sessionToken (_setValueAttr ?v ?x) = _ /\ _ =>
        destruct (_setValueAttr_sessionToken v x) as [-> ->]; exact H2
    end.
Qed.

(** A search issued while a token exists sends that token and keeps it. *)
Lemma fetch_request_reuses_token text s token :
  _sessionToken (widget s) = Some token ->
  _sessionToken (widget (fetch_request text s)) = Some token /\
  exists task,
    requests (browser (fetch_request text s))
    = (requests (browser s)
        ++ [(task, {| input := text; sessionToken := Some token;
                      origin := match _map (widget s) with
                                | Some m => Some (lat (center m), lng (center m))
                                | None => None
                                end |})])%list.
Proof.
  intros Ht. unfold fetch_request. rewrite Ht. simpl. split; [exact Ht|].
  exists (next_task (browser s)). rewrite Ht. reflexivity.
Qed.

End Token.

(** C2 (the code departs from the claim): a search, the clear action and a
    second search.  The clear action leaves the token of the first search
    (and the suggestion list) in place, the second search sends that same
    token, and no second token was ever created.  Emptying the search box
    from the keyboard instead of clicking the clear icon does the same. *)
Theorem clear_keeps_session_token :
  _sessionToken (widget searched_once) = Some 0 /\
  _sessionToken (widget (@step Sample.runtime ClearClick searched_once)) = Some 0 /\
  _suggestions (widget (@step Sample.runtime ClearClick searched_once)) = Some suggestions_a /\
  List.map (fun r => (input (snd r), sessionToken (snd r)))
           (requests (browser (@run Sample.runtime search_after_clear searched_once)))
    = [("b", Some 0)] /\
  next_token (browser (@run Sample.runtime search_after_clear searched_once)) = 1 /\
  List.map (fun r => (input (snd r), sessionToken (snd r)))
           (requests (browser (@run Sample.runtime search_after_erase searched_once)))
    = [("b", Some 0)] /\
  next_token (browser (@run Sample.runtime search_after_erase searched_once)) = 1.
Proof. vm_compute. repeat split. Qed.

(** ** Timeouts: the debounce and the teardown *)

Section Timers.

Context {rt : Runtime}.

Lemma _setValueAttr_typingTimer v w :
  _typingTimer (_setValueAttr v w) = _typingTimer w.
Proof.
  unfold _setValueAttr.
  set (w1 := set_textbox _ (set_value v w)).
  set (w2 := match _marker w1 with None => _ | Some _ => _ end).
  assert (H2 : _typingTimer w2 = _typingTimer w).
  { subst w2. destruct (_marker w1); [reflexivity|].
    destruct (surface_fields _ _ (_refreshMarkerLocation_surface w1))
      as (_ & _ & _ & _ & _ & _ & _ & _ & -> & _).
    reflexivity. }
  destruct (_isComplexType VUndefined w2); simpl; exact H2.
Qed.

Lemma _setCoordinatesValue_typingTimer location w :
  _typingTimer (_setCoordinatesValue location w) = _typingTimer w.
Proof.
  unfold _setCoordinatesValue.
  destruct (negb (_started w)); [reflexivity|].
  destruct location as [l|].
  - destruct (JS.is_undefined (lng l) || JS.is_undefined (lat l)); [reflexivity|].
    destruct (_isComplexType VUndefined w); apply _setValueAttr_typingTimer.
  - destruct (_isComplexType VUndefined w); apply _setValueAttr_typingTimer.
Qed.

Lemma _hideSuggestionsDropdown_typingTimer w :
  _typingTimer (_hideSuggestionsDropdown w) = _typingTimer w.
Proof. unfold _hideSuggestionsDropdown. destruct (_suggestionsDropdown w); reflexivity. Qed.

Lemma _clearCoordinates_typingTimer w :
  _typingTimer (_clearCoordinates w) = _typingTimer w.
Proof.
  unfold _clearCoordinates. rewrite _setCoordinatesValue_typingTimer.
  destruct (_marker _); simpl;
    apply (_hideSuggestionsDropdown_typingTimer (set_searchTextbox "" w)).
Qed.

Lemma _showSuggestionsDropdown_typingTimer l w :
  _typingTimer (after (_showSuggestionsDropdown l w)) = _typingTimer w.
Proof.
  unfold _showSuggestionsDropdown, _createSuggestionsDropdown, _hideSuggestionsDropdown.
  destruct (_suggestionsDropdown w); [destruct l; reflexivity|].
  simpl. destruct (attached w); destruct l; reflexivity.
Qed.

Lemma _setValueAttr_call_typingTimer v w :
  _typingTimer (after (_setValueAttr_call v w)) = _typingTimer w.
Proof.
  unfold _setValueAttr_call.
  destruct (attached w); [apply _setValueAttr_typingTimer | reflexivity].
Qed.

Lemma _setCoordinatesValue_call_typingTimer location w :
  _typingTimer (after (_setCoordinatesValue_call location w)) = _typingTimer w.
Proof.
  destruct (attached w) eqn:Ea.
  - rewrite (_setCoordinatesValue_call_attached _ _ Ea).
    apply _setCoordinatesValue_typingTimer.
  - rewrite (_setCoordinatesValue_call_detached_after _ _ Ea). reflexivity.
Qed.

Lemma _setCoordinatesValue_call_attached_after location w :
  attached (after (_setCoordinatesValue_call location w)) = attached w.
Proof.
  destruct (attached w) eqn:Ea.
  - rewrite (_setCoordinatesValue_call_attached _ _ Ea). simpl.
    rewrite _setCoordinatesValue_attached. exact Ea.
  - rewrite (_setCoordinatesValue_call_detached_after _ _ Ea). exact Ea.
Qed.

(** The widget after the arrival of an answer and after the arrival of the
    details of a place, the [try] block and its [catch] taken together. *)
Lemma on_suggestions_resolved_widget task request l s :
  lookup task (requests (browser s)) = Some request ->
  widget (on_suggestions_resolved task l s)
  = match _showSuggestionsDropdown l (set_suggestions (Some l) (widget s)) with
    | Returned w => w
    | Thrown w => set_console_error (console_error w ++ [fetch_error_message]) w
    end.
Proof. unfold on_suggestions_resolved. intros ->. reflexivity. Qed.

Lemma on_place_resolved_attached task l s :
  existsb (Nat.eqb task) (details (browser s)) = true ->
  attached (widget s) = true ->
  widget (on_place_resolved task (Some l) s)
  = _hideSuggestionsDropdown
      (set_searchTextbox ""
         (_setCoordinatesValue (Some (new_LatLng (lat l) (lng l)))
            (_setMapLocation (new_LatLng (lat l) (lng l)) (Some 15%Z) true false
               (widget s)))).
Proof.
  intros He Ha. unfold on_place_resolved. rewrite He.
  unfold on_widget, on_browser; cbn [widget].
  assert (Ha1 : attached (_setMapLocation (new_LatLng (lat l) (lng l)) (Some 15%Z) true false
                            (widget s)) = true).
  { rewrite (surface_attached _ _ (_setMapLocation_surface _ _ _ _ _)). exact Ha. }
  rewrite (_setCoordinatesValue_call_attached _ _ Ha1).
  rewrite _setCoordinatesValue_attached, Ha1. reflexivity.
Qed.

Lemma on_place_resolved_detached task l s :
  existsb (Nat.eqb task) (details (browser s)) = true ->
  attached (widget s) = false ->
  widget (on_place_resolved task (Some l) s)
  = set_console_error
      (console_error
         (after (_setCoordinatesValue_call (Some (new_LatLng (lat l) (lng l)))
                   (_setMapLocation (new_LatLng (lat l) (lng l)) (Some 15%Z) true false
                      (widget s))))
       ++ [select_error_message])
      (after (_setCoordinatesValue_call (Some (new_LatLng (lat l) (lng l)))
                (_setMapLocation (new_LatLng (lat l) (lng l)) (Some 15%Z) true false
                   (widget s)))).
Proof.
  intros He Ha. unfold on_place_resolved. rewrite He.
  unfold on_widget, on_browser; cbn [widget].
  assert (Ha1 : attached (_setMapLocation (new_LatLng (lat l) (lng l)) (Some 15%Z) true false
                            (widget s)) = false).
  { rewrite (surface_attached _ _ (_setMapLocation_surface _ _ _ _ _)). exact Ha. }
  pose proof (_setCoordinatesValue_call_attached_after
                (Some (new_LatLng (lat l) (lng l)))
                (_setMapLocation (new_LatLng (lat l) (lng l)) (Some 15%Z) true false
                   (widget s))) as Hat.
  rewrite Ha1 in Hat.
  destruct (_setCoordinatesValue_call _ _) as [w2|w2]; simpl in Hat |- *;
    [rewrite Hat|]; reflexivity.
Qed.

Lemma on_script_loaded_typingTimer w :
  _typingTimer (on_script_loaded w) = _typingTimer w.
Proof.
  unfold on_script_loaded. simpl.
  destruct (surface_fields _ _ (_refreshMarkerLocation_surface (_createGoogleMapsElement w)))
    as (_ & _ & _ & _ & _ & _ & _ & _ & -> & _).
  unfold _createGoogleMapsElement. simpl.
  destruct (readOnly (config w)); reflexivity.
Qed.

Lemma on_rightclick_typingTimer latLng w :
  _typingTimer (on_rightclick latLng w) = _typingTimer w.
Proof.
  unfold on_rightclick. rewrite _setCoordinatesValue_typingTimer.
  apply (surface_fields _ _ (_setMapLocation_surface latLng None false false w)).
Qed.

Lemma fetch_request_timers text s :
  _typingTimer (widget (fetch_request text s)) = _typingTimer (widget s) /\
  timers (browser (fetch_request text s)) = timers (browser s) /\
  next_timer (browser (fetch_request text s)) = next_timer (browser s) /\
  now (browser (fetch_request text s)) = now (browser s) /\
  owned (widget (fetch_request text s)) = owned (widget s) /\
  fetch_calls (browser (fetch_request text s)) = fetch_calls (browser s).
Proof. unfold fetch_request. destruct (_sessionToken (widget s)); repeat split. Qed.

Lemma _fetchAutocompleteSuggestions_timers text s :
  _typingTimer (widget (_fetchAutocompleteSuggestions text s)) = _typingTimer (widget s) /\
  timers (browser (_fetchAutocompleteSuggestions text s)) = timers (browser s) /\
  next_timer (browser (_fetchAutocompleteSuggestions text s)) = next_timer (browser s) /\
  now (browser (_fetchAutocompleteSuggestions text s)) = now (browser s) /\
  owned (widget (_fetchAutocompleteSuggestions text s)) = owned (widget s) /\
  fetch_calls (browser (_fetchAutocompleteSuggestions text s))
    = (fetch_calls (browser s) ++ [text])%list.
Proof.
  unfold _fetchAutocompleteSuggestions.
  destruct (String.eqb text "").
  - unfold _hideSuggestionsDropdown. simpl.
    destruct (_suggestionsDropdown (widget s)); repeat split.
  - simpl. destruct (_placesLibrary (widget s)); [|repeat split].
    match goal with
    | |- context [fetch_request text ?s1] =>
        destruct (fetch_request_timers text s1) as (-> & -> & -> & -> & -> & ->)
    end.
    repeat split.
Qed.

End Timers.

Lemma timer_inv_same_timers s s' :
  same_timers s s' -> timer_inv s -> timer_inv s'.
Proof.
  intros (Ht & Hl & Hn) (Hnext & Hall). split.
  - rewrite Hn. exact Hnext.
  - intros t Hin. rewrite Hl in Hin. rewrite Ht. apply Hall, Hin.
Qed.

Lemma timer_inv_no_handle s :
  timer_inv s -> handle_truthy (_typingTimer (widget s)) = false ->
  timers (browser s) = [].
Proof.
  intros (_ & Hall) Hf.
  destruct (timers (browser s)) as [|t l] eqn:E; [reflexivity|].
  destruct (Hall t (or_introl eq_refl)) as (Hnz & Heq).
  rewrite Heq in Hf. simpl in Hf.
  destruct (Nat.eqb_spec (handle t) 0); [contradiction | discriminate].
Qed.

Lemma timer_inv_clearTimeout s h :
  timer_inv s -> _typingTimer (widget s) = Some h ->
  timers (clearTimeout h (browser s)) = [].
Proof.
  intros (_ & Hall) Hh. unfold clearTimeout. simpl.
  induction (timers (browser s)) as [|t l IH]; [reflexivity|].
  simpl. destruct (Hall t (or_introl eq_refl)) as (_ & Heq).
  rewrite Hh in Heq. injection Heq as ->.
  rewrite Nat.eqb_refl. simpl. apply IH.
  intros t' Hin. apply Hall. right. exact Hin.
Qed.

Lemma last_cons {A} (a d : A) l : last (a :: l) d = last l a.
Proof.
  revert a d. induction l as [|b l IH]; intros a d; [reflexivity|].
  change (last (a :: b :: l) d) with (last (b :: l) d).
  rewrite (IH b d), (IH b a). reflexivity.
Qed.

Section Debounce.

Context {rt : Runtime}.

(** The promise settlements, the host's calls and the pointer events do
    not touch the timeouts. *)
Lemma step_same_timers e s :
  match e with
  | Keyup _ | Elapse _ | Destroy => True
  | _ => same_timers s (step e s)
  end.
Proof.
  unfold same_timers.
  destruct e; simpl; try exact I.
  - repeat split.
  - repeat split. apply _setValueAttr_call_typingTimer.
  - destruct (scriptLoadedSignal _); simpl; repeat split.
    apply on_script_loaded_typingTimer.
  - unfold on_import_resolved. destruct (lookup _ _); [|repeat split].
    match goal with
    | |- context [fetch_request ?x ?s1] =>
        destruct (fetch_request_timers x s1) as (-> & -> & -> & _)
    end.
    repeat split.
  - unfold on_import_rejected. destruct (lookup _ _); repeat split.
  - unfold on_suggestions_resolved. destruct (lookup _ _); [|repeat split].
    simpl. repeat split.
    match goal with
    | |- context [_showSuggestionsDropdown ?l ?w0] =>
        pose proof (_showSuggestionsDropdown_typingTimer l w0) as H;
        destruct (_showSuggestionsDropdown l w0); exact H
    end.
  - unfold on_suggestions_rejected. destruct (lookup _ _); repeat split.
  - destruct (item_shown _ _); [|repeat split].
    unfold _selectSuggestion. destruct (_suggestions _); [|repeat split].
    destruct (_ <=? _)%nat; repeat split.
  - destruct (item_shown _ _); [|repeat split].
    simpl. unfold _highlightSuggestion.
    destruct (_suggestionsDropdown _); repeat split.
  - unfold on_place_resolved. destruct (existsb _ _); [|repeat split].
    destruct location as [l|]; [|repeat split].
    unfold on_widget, on_browser; cbn [widget browser].
    repeat split.
    match goal with
    | |- context [_setCoordinatesValue_call ?x ?w0] =>
        pose proof (_setCoordinatesValue_call_typingTimer x w0) as H;
        destruct (_setCoordinatesValue_call x w0) as [w2|w2]; simpl in H;
        [destruct (attached w2);
         [rewrite _hideSuggestionsDropdown_typingTimer|]|];
        cbn [_typingTimer set_searchTextbox set_console_error]; rewrite H
    end;
    apply (surface_fields _ _ (_setMapLocation_surface _ _ _ _ _)).
  - unfold on_place_rejected. destruct (existsb _ _); repeat split.
  - destruct (rightClickHandler _); [|repeat split].
    simpl. repeat split. apply on_rightclick_typingTimer.
  - destruct (documentClickHandler _ && outside); [|repeat split].
    destruct (_suggestionsDropdown _); [|repeat split].
    simpl. repeat split. apply _hideSuggestionsDropdown_typingTimer.
  - destruct (clearHandler _); [|repeat split].
    simpl. repeat split. apply _clearCoordinates_typingTimer.
Qed.

Lemma fold_fetch_timers l s :
  let s' := fold_left (fun s t => _fetchAutocompleteSuggestions (callback_input t) s) l s in
  same_timers s s' /\
  now (browser s') = now (browser s) /\
  owned (widget s') = owned (widget s) /\
  fetch_calls (browser s')
    = (fetch_calls (browser s) ++ List.map callback_input l)%list.
Proof.
  revert s. induction l as [|t l IH]; intros s; simpl.
  - unfold same_timers. rewrite app_nil_r. repeat split.
  - destruct (IH (_fetchAutocompleteSuggestions (callback_input t) s))
      as ((Ha & Hb & Hc) & Hd & He & Hf).
    destruct (_fetchAutocompleteSuggestions_timers (callback_input t) s)
      as (Ha' & Hb' & Hc' & Hd' & He' & Hf').
    unfold same_timers.
    rewrite Ha, Hb, Hc, Hd, He, Hf, Ha', Hb', Hc', Hd', He', Hf'.
    rewrite <- app_assoc. repeat split.
Qed.

Lemma on_keyup_armed text s :
  timer_inv s ->
  keyupHandler (owned (widget s)) = true ->
  armed text (step (Keyup text) s) /\
  fetch_calls (browser (step (Keyup text) s)) = fetch_calls (browser s).
Proof.
  intros Hinv Hk. simpl. rewrite Hk. unfold on_keyup.
  assert (Hnext : next_timer (browser s) <> 0) by apply Hinv.
  destruct (handle_truthy (_typingTimer (widget s))) eqn:Et.
  - destruct (_typingTimer (widget s)) as [h|] eqn:Eh; [|discriminate].
    pose proof (timer_inv_clearTimeout s h Hinv Eh) as Hc.
    unfold setTimeout. simpl in *. split; [|reflexivity].
    exists (next_timer (browser s)). simpl. rewrite Hc.
    repeat split; try assumption; discriminate.
  - pose proof (timer_inv_no_handle s Hinv Et) as Hc.
    unfold setTimeout. simpl. split; [|reflexivity].
    exists (next_timer (browser s)). simpl. rewrite Hc.
    repeat split; try assumption; discriminate.
Qed.

Lemma elapse_within_delay text gap s :
  armed text s -> gap < typingDelay ->
  timer_inv (step (Elapse gap) s) /\
  keyupHandler (owned (widget (step (Elapse gap) s))) = true /\
  fetch_calls (browser (step (Elapse gap) s)) = fetch_calls (browser s).
Proof.
  intros (h & Ht & Hh & Hn & Hty & Hk) Hgap. simpl. unfold elapse.
  rewrite Ht. simpl.
  destruct (Nat.leb_spec (now (browser s) + typingDelay) (now (browser s) + gap)); [lia|].
  simpl. split; [|split; [assumption | reflexivity]].
  split; [exact Hn|].
  intros t' [<- | []]. simpl. split; assumption.
Qed.

Lemma elapse_past_delay text idle s :
  armed text s -> typingDelay <= idle ->
  fetch_calls (browser (step (Elapse idle) s))
    = (fetch_calls (browser s) ++ [text])%list.
Proof.
  intros (h & Ht & _) Hidle. simpl. unfold elapse.
  rewrite Ht. simpl.
  destruct (Nat.leb_spec (now (browser s) + typingDelay) (now (browser s) + idle)); [|lia].
  simpl.
  match goal with
  | |- context [_fetchAutocompleteSuggestions text ?s1] =>
      destruct (_fetchAutocompleteSuggestions_timers text s1) as (_ & _ & _ & _ & _ & ->)
  end.
  reflexivity.
Qed.

Lemma burst_one_search idle keystrokes :
  typingDelay <= idle ->
  Forall (fun k => fst k < typingDelay) keystrokes ->
  forall first s,
    armed first s ->
    fetch_calls (browser (run (burst keystrokes ++ [Elapse idle]) s))
      = (fetch_calls (browser s) ++ [last_text first keystrokes])%list.
Proof.
  intros Hidle. induction 1 as [|[gap text] rest Hgap _ IH]; intros first s Harmed.
  - apply (elapse_past_delay first idle s Harmed Hidle).
  - simpl in Hgap.
    destruct (elapse_within_delay first gap s Harmed Hgap) as (Hinv & Hk & Hcalls).
    destruct (on_keyup_armed text _ Hinv Hk) as (Harmed' & Hcalls').
    change (run (burst ((gap, text) :: rest) ++ [Elapse idle]) s)
      with (run (burst rest ++ [Elapse idle]) (step (Keyup text) (step (Elapse gap) s))).
    rewrite (IH text _ Harmed'), Hcalls', Hcalls.
    unfold last_text. simpl List.map. rewrite last_cons. reflexivity.
Qed.

(** The timeouts stay under the control of [_typingTimer] in every state
    the widget reaches. *)
Lemma timer_inv_step e s : timer_inv s -> timer_inv (step e s).
Proof.
  intros Hinv.
  pose proof (step_same_timers e s) as Hsame.
  destruct e as [ |v| |key|ms|k|k|k l|k|i|i|k l|k|l|o| | ];
    try (apply (timer_inv_same_timers s); assumption).
  - (* Keyup *)
    simpl. destruct (keyupHandler (owned (widget s))) eqn:Hk; [|exact Hinv].
    destruct (on_keyup_armed key s Hinv Hk) as ((h & Ht & Hh & Hn & Hty & _) & _).
    simpl in Ht, Hn, Hty. rewrite Hk in Ht, Hn, Hty.
    split; [exact Hn|].
    intros t Hin. rewrite Ht in Hin. destruct Hin as [<- | []]. simpl. split; assumption.
  - (* Elapse *)
    simpl. unfold elapse.
    match goal with
    | |- timer_inv (fold_left _ ?l ?s1) =>
        apply (timer_inv_same_timers s1); [apply (fold_fetch_timers l s1)|]
    end.
    destruct Hinv as (Hn & Hall). split; [exact Hn|].
    simpl. intros t Hin. apply filter_In in Hin. apply Hall, Hin.
  - (* Destroy *)
    simpl. unfold destroy. pose proof (proj1 Hinv) as Hn.
    destruct (handle_truthy (_typingTimer (widget s))) eqn:Et.
    + destruct (_typingTimer (widget s)) as [h|] eqn:Eh; [|discriminate].
      pose proof (timer_inv_clearTimeout s h Hinv Eh) as Hc.
      destruct (_suggestionsDropdown _); simpl; (split; [exact Hn|]);
        simpl; simpl in Hc; rewrite Hc; intros t [].
    + pose proof (timer_inv_no_handle s Hinv Et) as Hc.
      destruct (_suggestionsDropdown _); simpl; (split; [exact Hn|]);
        simpl; rewrite Hc; intros t [].
Qed.

Lemma reachable_timer_inv s : reachable s -> timer_inv s.
Proof.
  induction 1 as [cfg | e s _ IH].
  - split; [discriminate | intros t []].
  - apply timer_inv_step, IH.
Qed.

(** C7: in every reachable state with the search box wired up, a keystroke
    cancels the pending timeout and sets a new one, which is then the only
    one pending; a burst of keystrokes, each less than the typing delay of
    200 ms after the one before it, followed by an idle delay, therefore
    makes exactly one call of [_fetchAutocompleteSuggestions], with the text
    of the last keystroke. *)
Theorem debounce_one_search (s : System) (first : string)
    (keystrokes : list (nat * string)) (idle : nat) :
  reachable s ->
  keyupHandler (owned (widget s)) = true ->
  Forall (fun k => fst k < typingDelay) keystrokes ->
  typingDelay <= idle ->
  (exists h,
     timers (browser (step (Keyup first) s))
     = [{| handle := h; due := now (browser s) + typingDelay;
           callback_input := first |}]) /\
  fetch_calls (browser (run (Keyup first :: burst keystrokes ++ [Elapse idle]) s))
    = (fetch_calls (browser s) ++ [last_text first keystrokes])%list.
Proof.
  intros Hr Hk Hgaps Hidle.
  destruct (on_keyup_armed first s (reachable_timer_inv s Hr) Hk) as (Harmed & Hcalls).
  split.
  - destruct Harmed as (h & Ht & _). exists h. rewrite Ht.
    assert (Hnow : now (browser (step (Keyup first) s)) = now (browser s)).
    { simpl. rewrite Hk. unfold on_keyup, setTimeout, clearTimeout.
      destruct (handle_truthy _); [destruct (_typingTimer (widget s))|]; reflexivity. }
    rewrite Hnow. reflexivity.
  - change (run (Keyup first :: burst keystrokes ++ [Elapse idle]) s)
      with (run (burst keystrokes ++ [Elapse idle]) (step (Keyup first) s)).
    rewrite (burst_one_search idle keystrokes Hidle Hgaps first _ Harmed), Hcalls.
    reflexivity.
Qed.

End Debounce.

(** C7 at work: five keystrokes within 200 ms, then a pause. *)
Lemma debounce_one_search_witness :
  fetch_calls (browser (@run Sample.runtime
                          (Keyup "a" :: burst five_keystrokes ++ [Elapse 200]) ready))
  = ["abcde"].
Proof.
  refine (proj2 (@debounce_one_search Sample.runtime ready "a" five_keystrokes 200
                   _ eq_refl _ _)).
  - exact (reachable_step ScriptLoaded _
             (reachable_step Startup _ (reachable_postCreate delimited_config))).
  - unfold five_keystrokes, typingDelay.
    repeat (apply Forall_cons; [simpl; lia|]). apply Forall_nil.
  - unfold typingDelay. lia.
Defined.

(** ** Teardown *)

Section Teardown.

Context {rt : Runtime}.

Lemma destroy_torn_down s : timer_inv s -> torn_down (step Destroy s).
Proof.
  intros Hinv. simpl. unfold destroy, torn_down.
  destruct (handle_truthy (_typingTimer (widget s))) eqn:Et.
  - destruct (_typingTimer (widget s)) as [h|] eqn:Eh; [|discriminate].
    pose proof (timer_inv_clearTimeout s h Hinv Eh) as Hc.
    simpl. simpl in Hc.
    destruct (_suggestionsDropdown (widget s)) eqn:Ed; simpl; rewrite ?Ed, Hc; repeat split.
  - pose proof (timer_inv_no_handle s Hinv Et) as Hc.
    destruct (_suggestionsDropdown (widget s)) eqn:Ed; simpl; rewrite ?Ed, Hc; repeat split.
Qed.

Lemma destroy_fields s :
  let s' := step Destroy s in
  handle_truthy (_typingTimer (widget s')) = false /\
  _sessionToken (widget s') = None /\
  _suggestions (widget s') = None /\
  _placesLibrary (widget s') = None.
Proof.
  simpl. unfold destroy.
  destruct (handle_truthy (_typingTimer (widget s))) eqn:Et; simpl;
    destruct (_suggestionsDropdown (widget s)); simpl; repeat split; exact Et.
Qed.

Lemma destroy_twice s : step Destroy (step Destroy s) = step Destroy s.
Proof.
  destruct s as [w b].
  destruct w as [? ? ? ? ? ? ? ? ? ? dropdown ? timer ? ? ? ? ?].
  destruct timer as [[|h]|]; destruct dropdown; lazy; reflexivity.
Qed.

Lemma torn_down_ui_event e s :
  torn_down s -> is_ui_event e = true ->
  widget (step e s) = widget s /\
  torn_down (step e s) /\
  fetch_calls (browser (step e s)) = fetch_calls (browser s).
Proof.
  intros (Ho & Hd & Ht) He.
  assert (Hsame : torn_down s) by (repeat split; assumption).
  destruct e; try discriminate; simpl; rewrite ?Ho; simpl.
  - repeat split; assumption.
  - repeat split; assumption.
  - unfold elapse. rewrite Ht. simpl. unfold torn_down. simpl. repeat split; assumption.
  - unfold item_shown. rewrite Hd. repeat split; assumption.
  - unfold item_shown. rewrite Hd. repeat split; assumption.
  - repeat split; assumption.
  - repeat split; assumption.
  - repeat split; assumption.
Qed.

Lemma torn_down_ui_events events :
  forall s, torn_down s -> forallb is_ui_event events = true ->
  widget (run events s) = widget s /\
  fetch_calls (browser (run events s)) = fetch_calls (browser s).
Proof.
  induction events as [|e events IH]; intros s Ht Hall; [split; reflexivity|].
  simpl in Hall. apply andb_prop in Hall. destruct Hall as (He & Hall).
  destruct (torn_down_ui_event e s Ht He) as (Hw & Ht' & Hf).
  change (run (e :: events) s) with (run events (step e s)).
  destruct (IH _ Ht' Hall) as (-> & ->). split; assumption.
Qed.

(** C6, amended: [destroy()] can be called in every state the widget
    reaches, and calling it again changes nothing more.  It cancels the
    pending debounce timeout, clears the session token, the suggestion
    list, the cached Places library and the dropdown, and gives up the
    owned listeners; after it no timeout, key, click or script-loaded event
    reaches the widget and no search is started.  (Promises that were
    pending are not covered: their continuations still run.) *)
Theorem destroy_tears_down (s : System) :
  reachable s ->
  timers (browser (step Destroy s)) = [] /\
  handle_truthy (_typingTimer (widget (step Destroy s))) = false /\
  _sessionToken (widget (step Destroy s)) = None /\
  _suggestions (widget (step Destroy s)) = None /\
  _placesLibrary (widget (step Destroy s)) = None /\
  _suggestionsDropdown (widget (step Destroy s)) = None /\
  owned (widget (step Destroy s)) = no_handles /\
  step Destroy (step Destroy s) = step Destroy s /\
  (forall events, forallb is_ui_event events = true ->
     widget (run events (step Destroy s)) = widget (step Destroy s) /\
     fetch_calls (browser (run events (step Destroy s)))
       = fetch_calls (browser (step Destroy s))).
Proof.
  intros Hr.
  pose proof (destroy_torn_down s (reachable_timer_inv s Hr)) as Ht.
  destruct Ht as (Ho & Hd & Htm).
  destruct (destroy_fields s) as (H1 & H2 & H3 & H4).
  repeat split; try assumption.
  - apply destroy_twice.
  - apply torn_down_ui_events; [repeat split|]; assumption.
  - apply torn_down_ui_events; [repeat split|]; assumption.
Qed.

End Teardown.

(** C6, the claim as stated fails: promises that are pending when the widget
    is destroyed still run their continuation on the destroyed widget.  The
    answer to a search in flight fills the suggestion list again; the
    arrival of the Places library caches it, creates a session token and
    sends the search; the details of a selected place are written as the
    value. *)
Lemma pending_promises_outlive_destroy :
  (_suggestions (widget destroyed_during_search) = None /\
   _suggestions (widget (@step Sample.runtime (SuggestionsResolved 1 suggestions_a)
                           destroyed_during_search)) = Some suggestions_a) /\
  (_sessionToken (widget destroyed_during_import) = None /\
   _sessionToken (widget (@step Sample.runtime (ImportResolved 0)
                            destroyed_during_import)) = Some 0 /\
   List.map (fun r => input (snd r))
            (requests (browser (@step Sample.runtime (ImportResolved 0)
                                  destroyed_during_import))) = ["a"]) /\
  (value (widget destroyed_during_commit) = VString "" /\
   value (widget (@step Sample.runtime (PlaceResolved 2 (Some new_york))
                    destroyed_during_commit)) = VString "40,-73").
Proof. vm_compute. repeat split. Qed.

(** C6 at work: the widget is destroyed between a keystroke and its search;
    the timeout is cancelled and the pause that follows starts no search. *)
Lemma destroy_tears_down_witness :
  timers (browser (@step Sample.runtime Destroy typed_a)) = [] /\
  fetch_calls (browser (@run Sample.runtime [Elapse 200] (@step Sample.runtime Destroy typed_a)))
    = fetch_calls (browser (@step Sample.runtime Destroy typed_a)).
Proof.
  assert (Hr : @reachable Sample.runtime typed_a).
  { exact (reachable_step (Keyup "a") ready
             (reachable_step ScriptLoaded _
                (reachable_step Startup _ (reachable_postCreate delimited_config)))). }
  destruct (@destroy_tears_down Sample.runtime typed_a Hr)
    as (Ht & _ & _ & _ & _ & _ & _ & _ & Hquiet).
  split; [exact Ht|].
  exact (proj2 (Hquiet [Elapse 200] eq_refl)).
Defined.

Example typed_a_then_destroyed :
  List.map callback_input (timers (browser typed_a)) = ["a"] /\
  fetch_calls (browser (@run Sample.runtime [Destroy; Elapse 200] typed_a)) = [].
Proof. vm_compute. split; reflexivity. Qed.

(** * Further properties of the widget *)

(** ** Splitting at commas *)

Lemma split_length sep s : length (JS.split sep s) = S (count_char sep s).
Proof.
  induction s as [|c rest IH]; [reflexivity|].
  simpl. destruct (Ascii.eqb c sep); simpl.
  - rewrite IH. reflexivity.
  - destruct (JS.split sep rest); simpl in *; [discriminate | exact IH].
Qed.

Lemma split_no_separator sep s : count_char sep s = 0 -> JS.split sep s = [s].
Proof.
  induction s as [|c rest IH]; [reflexivity|].
  simpl. destruct (Ascii.eqb c sep); [discriminate|].
  simpl. intros H. rewrite (IH H). reflexivity.
Qed.

Lemma split_append sep a b :
  count_char sep a = 0 ->
  JS.split sep (a ++ String sep b) = a :: JS.split sep b.
Proof.
  induction a as [|c rest IH]; simpl.
  - intros _. rewrite Ascii.eqb_refl. reflexivity.
  - destruct (Ascii.eqb c sep); [discriminate|].
    simpl. intros H. rewrite (IH H). reflexivity.
Qed.

Lemma count_char_append c a b :
  count_char c (a ++ b) = count_char c a + count_char c b.
Proof.
  induction a as [|c' rest IH]; [reflexivity|].
  simpl. rewrite IH. apply Nat.add_assoc.
Qed.

Lemma split_two_parts s :
  negb (String.eqb s "") && (length (JS.split "," s) =? 2)%nat = true
  <-> count_char "," s = 1.
Proof.
  rewrite split_length.
  destruct s as [|c rest]; simpl.
  - split; discriminate.
  - destruct (count_char "," (String c rest)) as [|[|n]] eqn:E;
      simpl in E; rewrite E; simpl; split; congruence.
Qed.

(** ** The validity check, branch by branch *)

(** X1: on an object value [_hasCoordinates()] answers true exactly when
    each of latitude and longitude is neither [undefined] nor [null], does
    not convert to NaN and is not the number zero (of either sign).  The
    type is not tested: a component that is a number must be neither NaN nor
    zero, and a string or a boolean counts as soon as it converts to a
    number, the string ["0"] included. *)
Theorem hasCoordinates_object_iff (w : Widget) (o : Coordinates) :
  value w = VObject o ->
  (_hasCoordinates w = true <-> counts (latitude o) /\ counts (longitude o)).
Proof.
  intros Hv. split.
  - apply _hasCoordinates_object, Hv.
  - unfold _hasCoordinates, _isComplexType. rewrite Hv. simpl.
    destruct (latitude o) as [| |x|x sx], (longitude o) as [| |y|y sy]; simpl;
      intros (Hla & Hlo); try contradiction;
      repeat match goal with
             | H : _ /\ _ |- _ => destruct H
             end;
      repeat match goal with
             | H : _ = false |- _ => rewrite H; clear H
             end;
      reflexivity.
Qed.

(** X2: on a string property a string value counts as coordinates exactly
    when it contains one comma, whatever stands before and after it. *)
Theorem hasCoordinates_string_iff (w : Widget) (s : string) :
  value w = VString s ->
  _isComplexType VUndefined w = false ->
  (_hasCoordinates w = true <-> count_char "," s = 1).
Proof.
  intros Hv Hc. rewrite (_hasCoordinates_string w s Hv Hc).
  apply split_two_parts.
Qed.

(** ** Footprints *)

Lemma form_only_refl w : form_only w w.
Proof. destruct w; reflexivity. Qed.

Lemma form_only_fields w w' :
  form_only w w' ->
  config w' = config w /\ _started w' = _started w /\
  searchTextbox w' = searchTextbox w /\ searchDisabled w' = searchDisabled w /\
  _sessionToken w' = _sessionToken w /\ _suggestions w' = _suggestions w /\
  _suggestionsDropdown w' = _suggestionsDropdown w /\
  _selectedSuggestionIndex w' = _selectedSuggestionIndex w /\
  _typingTimer w' = _typingTimer w /\ _placesLibrary w' = _placesLibrary w /\
  owned w' = owned w.
Proof. intros ->. repeat split. Qed.

Lemma form_only_attached w w' : form_only w w' -> attached w' = attached w.
Proof. intros ->. reflexivity. Qed.

Lemma form_only_intro w w' :
  config w' = config w /\ _started w' = _started w /\
  searchTextbox w' = searchTextbox w /\ searchDisabled w' = searchDisabled w /\
  _sessionToken w' = _sessionToken w /\ _suggestions w' = _suggestions w /\
  _suggestionsDropdown w' = _suggestionsDropdown w /\
  _selectedSuggestionIndex w' = _selectedSuggestionIndex w /\
  _typingTimer w' = _typingTimer w /\ _placesLibrary w' = _placesLibrary w /\
  owned w' = owned w /\ attached w' = attached w ->
  form_only w w'.
Proof.
  unfold form_only. destruct w, w'; simpl.
  intros (-> & -> & -> & -> & -> & -> & -> & -> & -> & -> & -> & ->). reflexivity.
Qed.

Lemma form_only_trans w1 w2 w3 :
  form_only w1 w2 -> form_only w2 w3 -> form_only w1 w3.
Proof.
  intros H12 H23. apply form_only_intro.
  pose proof (form_only_attached _ _ H12) as c1.
  pose proof (form_only_attached _ _ H23) as c2.
  apply form_only_fields in H12, H23.
  destruct H12 as (a1 & a2 & a3 & a4 & a5 & a6 & a7 & a8 & a9 & a10 & a11).
  destruct H23 as (b1 & b2 & b3 & b4 & b5 & b6 & b7 & b8 & b9 & b10 & b11).
  repeat split; congruence.
Qed.

Lemma surface_form_only w w' : surface w w' -> form_only w w'.
Proof.
  intros H. apply form_only_intro. rewrite H. repeat split.
Qed.

Lemma search_only_refl w : search_only w w.
Proof. destruct w; reflexivity. Qed.

Lemma search_only_fields w w' :
  search_only w w' ->
  config w' = config w /\ _started w' = _started w /\ value w' = value w /\
  textbox w' = textbox w /\ searchTextbox w' = searchTextbox w /\
  searchDisabled w' = searchDisabled w /\ _map w' = _map w /\
  _marker w' = _marker w /\ _typingTimer w' = _typingTimer w /\
  owned w' = owned w /\ onChange w' = onChange w.
Proof. intros ->. repeat split. Qed.

Lemma search_only_attached w w' : search_only w w' -> attached w' = attached w.
Proof. intros ->. reflexivity. Qed.

Lemma search_only_intro w w' :
  config w' = config w /\ _started w' = _started w /\ value w' = value w /\
  textbox w' = textbox w /\ searchTextbox w' = searchTextbox w /\
  searchDisabled w' = searchDisabled w /\ _map w' = _map w /\
  _marker w' = _marker w /\ _typingTimer w' = _typingTimer w /\
  owned w' = owned w /\ onChange w' = onChange w /\ attached w' = attached w ->
  search_only w w'.
Proof.
  unfold search_only. destruct w, w'; simpl.
  intros (-> & -> & -> & -> & -> & -> & -> & -> & -> & -> & -> & ->).
  reflexivity.
Qed.

Lemma search_only_trans w1 w2 w3 :
  search_only w1 w2 -> search_only w2 w3 -> search_only w1 w3.
Proof.
  intros H12 H23. apply search_only_intro.
  pose proof (search_only_attached _ _ H12) as c1.
  pose proof (search_only_attached _ _ H23) as c2.
  apply search_only_fields in H12, H23.
  destruct H12 as (a1 & a2 & a3 & a4 & a5 & a6 & a7 & a8 & a9 & a10 & a11).
  destruct H23 as (b1 & b2 & b3 & b4 & b5 & b6 & b7 & b8 & b9 & b10 & b11).
  repeat split; congruence.
Qed.

Lemma _hideSuggestionsDropdown_search_only w :
  search_only w (_hideSuggestionsDropdown w).
Proof.
  apply search_only_intro. unfold _hideSuggestionsDropdown.
  destruct (_suggestionsDropdown w); repeat split.
Qed.

Lemma _showSuggestionsDropdown_search_only l w :
  search_only w (after (_showSuggestionsDropdown l w)).
Proof.
  apply search_only_intro.
  unfold _showSuggestionsDropdown, _createSuggestionsDropdown, _hideSuggestionsDropdown.
  destruct (_suggestionsDropdown w); [destruct l; repeat split|].
  simpl. destruct (attached w) eqn:Ea; destruct l; simpl; rewrite ?Ea; repeat split.
Qed.

Lemma _highlightSuggestion_search_only i w :
  search_only w (_highlightSuggestion i w).
Proof.
  apply search_only_intro. unfold _highlightSuggestion.
  destruct (_suggestionsDropdown w); repeat split.
Qed.

Lemma fetch_request_search_only text s :
  search_only (widget s) (widget (fetch_request text s)).
Proof.
  apply search_only_intro. unfold fetch_request.
  destruct (_sessionToken (widget s)); repeat split.
Qed.

Lemma _fetchAutocompleteSuggestions_search_only text s :
  search_only (widget s) (widget (_fetchAutocompleteSuggestions text s)).
Proof.
  unfold _fetchAutocompleteSuggestions.
  destruct (String.eqb text "").
  - apply _hideSuggestionsDropdown_search_only.
  - simpl. destruct (_placesLibrary (widget s)); [|apply search_only_refl].
    match goal with
    | |- search_only _ (widget (fetch_request text ?s1)) =>
        apply (fetch_request_search_only text s1)
    end.
Qed.

Lemma fold_fetch_search_only l s :
  search_only (widget s)
    (widget (fold_left (fun s t => _fetchAutocompleteSuggestions (callback_input t) s) l s)).
Proof.
  revert s. induction l as [|t l IH]; intros s; [apply search_only_refl|].
  simpl. eapply search_only_trans; [|apply IH].
  apply _fetchAutocompleteSuggestions_search_only.
Qed.

Lemma _hasCoordinates_ext w w' :
  value w' = value w -> config w' = config w ->
  _hasCoordinates w' = _hasCoordinates w.
Proof.
  intros Hv Hc. unfold _hasCoordinates.
  rewrite (_isComplexType_ext _ _ _ Hv Hc), Hv. reflexivity.
Qed.

Section Footprints.

Context {rt : Runtime}.

Lemma _setValueAttr_form_only v w : form_only w (_setValueAttr v w).
Proof.
  unfold _setValueAttr.
  set (w1 := set_textbox _ (set_value v w)).
  assert (H1 : form_only w w1) by (destruct w; reflexivity).
  set (w2 := match _marker w1 with None => _ | Some _ => _ end).
  assert (H2 : form_only w w2).
  { apply (form_only_trans _ _ _ H1). subst w2.
    destruct (_marker w1); [apply form_only_refl|].
    apply surface_form_only, _refreshMarkerLocation_surface. }
  destruct (_isComplexType VUndefined w2); [|exact H2].
  apply (form_only_trans _ _ _ H2). destruct w2; reflexivity.
Qed.

Lemma _setCoordinatesValue_form_only location w :
  form_only w (_setCoordinatesValue location w).
Proof.
  unfold _setCoordinatesValue.
  destruct (negb (_started w)); [apply form_only_refl|].
  destruct location as [l|].
  - destruct (JS.is_undefined (lng l) || JS.is_undefined (lat l)).
    + destruct w; reflexivity.
    + destruct (_isComplexType VUndefined w); apply _setValueAttr_form_only.
  - destruct (_isComplexType VUndefined w); apply _setValueAttr_form_only.
Qed.

Lemma on_rightclick_form_only latLng w : form_only w (on_rightclick latLng w).
Proof.
  unfold on_rightclick.
  eapply form_only_trans; [|apply _setCoordinatesValue_form_only].
  apply surface_form_only, _setMapLocation_surface.
Qed.

Lemma _setValueAttr_call_form_only v w : form_only w (after (_setValueAttr_call v w)).
Proof.
  unfold _setValueAttr_call.
  destruct (attached w); [apply _setValueAttr_form_only | destruct w; reflexivity].
Qed.

Lemma _setCoordinatesValue_call_form_only location w :
  form_only w (after (_setCoordinatesValue_call location w)).
Proof.
  destruct (attached w) eqn:Ea.
  - rewrite (_setCoordinatesValue_call_attached _ _ Ea).
    apply _setCoordinatesValue_form_only.
  - rewrite (_setCoordinatesValue_call_detached_after _ _ Ea). destruct w; reflexivity.
Qed.

(** The arrival of an answer touches nothing but the state of the search,
    also when showing it throws. *)
Lemma answer_search_only l w :
  search_only w
    match _showSuggestionsDropdown l (set_suggestions (Some l) w) with
    | Returned w => w
    | Thrown w => set_console_error (console_error w ++ [fetch_error_message]) w
    end.
Proof.
  pose proof (_showSuggestionsDropdown_search_only l (set_suggestions (Some l) w)) as H.
  assert (H0 : search_only w (set_suggestions (Some l) w)) by (destruct w; reflexivity).
  pose proof (search_only_trans _ _ _ H0 H) as H1.
  destruct (_showSuggestionsDropdown l (set_suggestions (Some l) w)) as [w'|w'];
    simpl in H1; [exact H1|].
  apply (search_only_trans _ _ _ H1). destruct w'; reflexivity.
Qed.

(** On a destroyed widget the arrival of the details of a place touches
    the map, the marker, the value and the error console only. *)
Lemma on_place_resolved_detached_form_only task l s :
  existsb (Nat.eqb task) (details (browser s)) = true ->
  attached (widget s) = false ->
  form_only (widget s) (widget (on_place_resolved task (Some l) s)).
Proof.
  intros Ep Ea. rewrite (on_place_resolved_detached _ _ _ Ep Ea).
  set (w1 := _setMapLocation (new_LatLng (lat l) (lng l)) (Some 15%Z) true false (widget s)).
  assert (H1 : form_only (widget s) w1)
    by apply surface_form_only, _setMapLocation_surface.
  pose proof (_setCoordinatesValue_call_form_only
                (Some (new_LatLng (lat l) (lng l))) w1) as H2.
  set (w2 := after (_setCoordinatesValue_call (Some (new_LatLng (lat l) (lng l))) w1)) in *.
  apply (form_only_trans _ _ _ H1), (form_only_trans _ _ _ H2).
  clearbody w2. destruct w2; reflexivity.
Qed.

(** On a live widget it runs to the end of the [try] block. *)
Lemma on_place_resolved_cases task l s :
  existsb (Nat.eqb task) (details (browser s)) = true ->
  (attached (widget s) = true /\
   widget (on_place_resolved task (Some l) s)
   = _hideSuggestionsDropdown
       (set_searchTextbox ""
          (_setCoordinatesValue (Some (new_LatLng (lat l) (lng l)))
             (_setMapLocation (new_LatLng (lat l) (lng l)) (Some 15%Z) true false
                (widget s))))) \/
  (attached (widget s) = false /\
   form_only (widget s) (widget (on_place_resolved task (Some l) s))).
Proof.
  intros Ep. destruct (attached (widget s)) eqn:Ea.
  - left. split; [reflexivity | apply on_place_resolved_attached; assumption].
  - right. split; [reflexivity | apply on_place_resolved_detached_form_only; assumption].
Qed.

End Footprints.

Section Effects.

Context {rt : Runtime}.

(** Searching, its answers and failures, and the pointer over the dropdown
    touch nothing but the state of the search. *)
Lemma step_search_only e s :
  is_search_event e = true -> search_only (widget s) (widget (step e s)).
Proof.
  destruct e as [ |v| |key|ms|k|k|k l|k|i|i|k l|k|l|o| | ]; try discriminate; intros _; simpl.
  - unfold elapse.
    match goal with
    | |- search_only _ (widget (fold_left _ ?l ?s1)) =>
        apply (fold_fetch_search_only l s1)
    end.
  - unfold on_import_resolved. destruct (lookup _ _); [|apply search_only_refl].
    match goal with
    | |- search_only _ (widget (fetch_request ?x ?s1)) =>
        apply (search_only_trans _ (widget s1));
          [apply search_only_intro; repeat split | apply fetch_request_search_only]
    end.
  - unfold on_import_rejected. destruct (lookup _ _); [|apply search_only_refl].
    apply search_only_intro; repeat split.
  - unfold on_suggestions_resolved. destruct (lookup _ _); [|apply search_only_refl].
    apply answer_search_only.
  - unfold on_suggestions_rejected. destruct (lookup _ _); [|apply search_only_refl].
    apply search_only_intro; repeat split.
  - destruct (item_shown _ _); [|apply search_only_refl].
    unfold _selectSuggestion. destruct (_suggestions _); [|apply search_only_refl].
    destruct (_ <=? _)%nat; apply search_only_refl.
  - destruct (item_shown _ _); [|apply search_only_refl].
    apply _highlightSuggestion_search_only.
  - unfold on_place_rejected. destruct (existsb _ _); [|apply search_only_refl].
    apply search_only_intro; repeat split.
  - destruct (documentClickHandler _ && o); [|apply search_only_refl].
    destruct (_suggestionsDropdown _); [|apply search_only_refl].
    apply _hideSuggestionsDropdown_search_only.
Qed.

(** The widget never writes the configuration the host gave it. *)
Lemma step_config e s : config (widget (step e s)) = config (widget s).
Proof.
  destruct (is_search_event e) eqn:Ee.
  { apply (search_only_fields _ _ (step_search_only e s Ee)). }
  destruct e as [ |v| |key|ms|k|k|k l|k|i|i|k l|k|l|o| | ]; try discriminate; simpl.
  - reflexivity.
  - apply (form_only_fields _ _ (_setValueAttr_call_form_only v (widget s))).
  - destruct (scriptLoadedSignal _); [|reflexivity].
    simpl. unfold on_script_loaded. simpl.
    rewrite (proj1 (surface_fields _ _ (_refreshMarkerLocation_surface _))).
    unfold _createGoogleMapsElement. simpl. destruct (readOnly _); reflexivity.
  - destruct (keyupHandler _); [|reflexivity].
    unfold on_keyup, setTimeout. destruct (handle_truthy _); reflexivity.
  - destruct (existsb (Nat.eqb k) (details (browser s))) eqn:Ep;
      [|unfold on_place_resolved; rewrite Ep; reflexivity].
    destruct l as [l|]; [|unfold on_place_resolved; rewrite Ep; reflexivity].
    destruct (on_place_resolved_cases k l s Ep) as [(_ & ->) | (_ & H)];
      [|apply (form_only_fields _ _ H)].
    rewrite (proj1 (search_only_fields _ _ (_hideSuggestionsDropdown_search_only _))).
    cbn [config set_searchTextbox].
    rewrite (proj1 (form_only_fields _ _ (_setCoordinatesValue_form_only _ _))).
    apply (surface_fields _ _ (_setMapLocation_surface _ _ _ _ _)).
  - destruct (rightClickHandler _); [|reflexivity].
    apply (form_only_fields _ _ (on_rightclick_form_only l (widget s))).
  - destruct (clearHandler _); [|reflexivity].
    simpl. unfold _clearCoordinates.
    rewrite (proj1 (form_only_fields _ _ (_setCoordinatesValue_form_only _ _))).
    destruct (_marker _); simpl;
      apply (search_only_fields _ _
               (_hideSuggestionsDropdown_search_only (set_searchTextbox "" (widget s)))).
  - unfold destroy.
    destruct (handle_truthy _); simpl; destruct (_suggestionsDropdown (widget s)); reflexivity.
Qed.

End Effects.

(** ** The format of the value *)

Lemma _isComplexType_object w o :
  value w = VObject o -> _isComplexType VUndefined w = true.
Proof. unfold _isComplexType. intros ->. reflexivity. Qed.

Lemma _isComplexType_not_object w w' :
  (forall o, value w <> VObject o) -> (forall o, value w' <> VObject o) ->
  config w' = config w ->
  _isComplexType VUndefined w' = _isComplexType VUndefined w.
Proof.
  unfold _isComplexType. intros H H' ->. simpl.
  destruct (value w) eqn:E, (value w') eqn:E'; try reflexivity;
    solve [exfalso; eapply H; reflexivity | exfalso; eapply H'; reflexivity].
Qed.

Lemma _isComplexType_false_not_object w :
  _isComplexType VUndefined w = false -> forall o, value w <> VObject o.
Proof.
  intros H o Ho. rewrite (_isComplexType_object w o Ho) in H. discriminate.
Qed.

Section Format.

Context {rt : Runtime}.

Lemma _setValueAttr_format v w :
  (_isComplexType VUndefined w = true -> exists o, v = VObject o) ->
  (_isComplexType VUndefined w = false -> forall o, v <> VObject o) ->
  _isComplexType VUndefined (_setValueAttr v w) = _isComplexType VUndefined w.
Proof.
  intros Hyes Hno.
  pose proof (_setValueAttr_value v w) as Hv.
  pose proof (proj1 (form_only_fields _ _ (_setValueAttr_form_only v w))) as Hc.
  destruct (_isComplexType VUndefined w) eqn:E.
  - destruct (Hyes eq_refl) as (o & ->). apply (_isComplexType_object _ o Hv).
  - rewrite <- E. apply _isComplexType_not_object.
    + apply _isComplexType_false_not_object, E.
    + rewrite Hv. apply Hno. reflexivity.
    + exact Hc.
Qed.

(** The widget writes a value of the format it finds. *)
Lemma _setCoordinatesValue_format location w :
  _isComplexType VUndefined (_setCoordinatesValue location w)
  = _isComplexType VUndefined w.
Proof.
  unfold _setCoordinatesValue.
  destruct (negb (_started w)); [reflexivity|].
  destruct location as [l|].
  - destruct (JS.is_undefined (lng l) || JS.is_undefined (lat l)).
    + apply _isComplexType_ext; reflexivity.
    + destruct (_isComplexType VUndefined w) eqn:E; rewrite <- E;
        apply _setValueAttr_format; rewrite E; try discriminate; intros _.
      eexists. reflexivity.
  - destruct (_isComplexType VUndefined w) eqn:E; rewrite <- E;
      apply _setValueAttr_format; rewrite E; try discriminate; intros _.
    eexists. reflexivity.
Qed.

Lemma _setCoordinatesValue_call_value location w :
  value (after (_setCoordinatesValue_call location w))
  = value (_setCoordinatesValue location w).
Proof.
  destruct (attached w) eqn:Ea.
  - rewrite (_setCoordinatesValue_call_attached _ _ Ea). reflexivity.
  - rewrite (_setCoordinatesValue_call_detached_after _ _ Ea). reflexivity.
Qed.

Lemma on_place_resolved_format task l s :
  existsb (Nat.eqb task) (details (browser s)) = true ->
  _isComplexType VUndefined (widget (on_place_resolved task (Some l) s))
  = _isComplexType VUndefined (widget s).
Proof.
  intros Ep.
  pose proof (surface_fields _ _ (_setMapLocation_surface
                (new_LatLng (lat l) (lng l)) (Some 15%Z) true false (widget s)))
    as (Hc' & _ & Hv' & _).
  transitivity (_isComplexType VUndefined
                  (_setCoordinatesValue (Some (new_LatLng (lat l) (lng l)))
                     (_setMapLocation (new_LatLng (lat l) (lng l)) (Some 15%Z) true false
                        (widget s))));
    [|rewrite _setCoordinatesValue_format; apply _isComplexType_ext; assumption].
  destruct (attached (widget s)) eqn:Ea.
  - rewrite (on_place_resolved_attached _ _ _ Ep Ea).
    pose proof (search_only_fields _ _ (_hideSuggestionsDropdown_search_only
      (set_searchTextbox ""
         (_setCoordinatesValue (Some (new_LatLng (lat l) (lng l)))
            (_setMapLocation (new_LatLng (lat l) (lng l)) (Some 15%Z) true false
               (widget s)))))) as (Hc & _ & Hv & _).
    rewrite (_isComplexType_ext _ _ _ Hv Hc).
    apply _isComplexType_ext; reflexivity.
  - rewrite (on_place_resolved_detached _ _ _ Ep Ea).
    apply _isComplexType_ext.
    + cbn [value set_console_error]. apply _setCoordinatesValue_call_value.
    + cbn [config set_console_error].
      rewrite (proj1 (form_only_fields _ _ (_setCoordinatesValue_call_form_only _ _))).
      rewrite (proj1 (form_only_fields _ _ (_setCoordinatesValue_form_only _ _))).
      reflexivity.
Qed.

(** X3: the format of the property (object or string), as [_isComplexType()]
    decides it, is changed by no event but a value set by the host: what the
    widget itself writes (on a pick, a commit or a clear) is of the format
    it finds. *)
Theorem format_changes_only_by_host (e : Event) (s : System) :
  is_host_set e = false ->
  _isComplexType VUndefined (widget (step e s))
  = _isComplexType VUndefined (widget s).
Proof.
  intros Hh.
  destruct (is_search_event e) eqn:Ee.
  { pose proof (search_only_fields _ _ (step_search_only e s Ee)) as (Hc & _ & Hv & _).
    apply _isComplexType_ext; assumption. }
  destruct e as [ |v| |key|ms|k|k|k l|k|i|i|k l|k|l|o| | ]; try discriminate; simpl.
  - reflexivity.
  - pose proof (step_config ScriptLoaded s) as Hcfg. simpl in Hcfg.
    destruct (scriptLoadedSignal _); [|reflexivity].
    apply _isComplexType_ext; [|exact Hcfg].
    simpl. unfold on_script_loaded. simpl.
    destruct (surface_fields _ _ (_refreshMarkerLocation_surface
                (_createGoogleMapsElement (widget s)))) as (_ & _ & -> & _).
    unfold _createGoogleMapsElement. simpl. destruct (readOnly _); reflexivity.
  - destruct (keyupHandler _); [|reflexivity].
    unfold on_keyup, setTimeout. destruct (handle_truthy _); reflexivity.
  - destruct (existsb (Nat.eqb k) (details (browser s))) eqn:Ep;
      [|unfold on_place_resolved; rewrite Ep; reflexivity].
    destruct l as [l|]; [|unfold on_place_resolved; rewrite Ep; reflexivity].
    apply on_place_resolved_format, Ep.
  - destruct (rightClickHandler _); [|reflexivity].
    simpl. unfold on_rightclick. rewrite _setCoordinatesValue_format.
    pose proof (surface_fields _ _ (_setMapLocation_surface l None false false (widget s)))
      as (Hc' & _ & Hv' & _).
    apply _isComplexType_ext; assumption.
  - destruct (clearHandler _); [|reflexivity].
    simpl. unfold _clearCoordinates. rewrite _setCoordinatesValue_format.
    pose proof (search_only_fields _ _ (_hideSuggestionsDropdown_search_only
                  (set_searchTextbox "" (widget s)))) as (Hc & _ & Hv & _).
    destruct (_marker _); apply _isComplexType_ext; simpl; assumption.
  - unfold destroy.
    destruct (handle_truthy _); simpl; destruct (_suggestionsDropdown (widget s)); reflexivity.
Qed.

End Format.

(** X3 at work: a right click on the editor of a string property. *)
Lemma format_changes_only_by_host_witness :
  _isComplexType VUndefined (widget (@step Sample.runtime (RightClick new_york) ready))
  = _isComplexType VUndefined (widget ready).
Proof.
  exact (@format_changes_only_by_host Sample.runtime (RightClick new_york) ready eq_refl).
Defined.

(** X1 at work: the object value (40, -73). *)
Lemma hasCoordinates_object_iff_witness :
  _hasCoordinates
    (set_value (VObject {| latitude := CNumber 40%float; longitude := CNumber (-73)%float |})
               (widget (postCreate structured_config))) = true.
Proof.
  apply (proj2 (hasCoordinates_object_iff
                  (set_value (VObject {| latitude := CNumber 40%float;
                                         longitude := CNumber (-73)%float |})
                             (widget (postCreate structured_config)))
                  {| latitude := CNumber 40%float; longitude := CNumber (-73)%float |}
                  eq_refl)).
  repeat split.
Defined.

(** The strings ["0"] and ["0"], which convert to the number zero, count as
    coordinates; the numbers 0 and 0 do not. *)
Example hasCoordinates_zero_strings :
  _hasCoordinates
    (set_value (VObject {| latitude := COther 0%float "0"; longitude := COther 0%float "0" |})
               (widget (postCreate structured_config))) = true /\
  _hasCoordinates
    (set_value (VObject {| latitude := CNumber 0%float; longitude := CNumber 0%float |})
               (widget (postCreate structured_config))) = false.
Proof. split; reflexivity. Qed.

(** X2 at work: the string value "40,-73" has one comma. *)
Lemma hasCoordinates_string_iff_witness :
  _hasCoordinates (set_value (VString "40,-73") (widget (postCreate delimited_config))) = true.
Proof.
  exact (proj2 (hasCoordinates_string_iff
                  (set_value (VString "40,-73") (widget (postCreate delimited_config)))
                  "40,-73" eq_refl eq_refl) eq_refl).
Defined.

(** ** Rendering on the map *)

Lemma _setMapLocation_no_map l z c k w :
  _map w = None -> _setMapLocation l z c k w = w.
Proof. unfold _setMapLocation. intros ->. reflexivity. Qed.

Lemma _setMapLocation_map l z c k w m :
  _map w = Some m ->
  _map (_setMapLocation l z c k w)
  = Some {| center := if c then l else center m;
            zoom := match z with
                    | Some n => if (n =? 0)%Z then zoom m else n
                    | None => zoom m
                    end;
            grayscale := grayscale m |}.
Proof.
  unfold _setMapLocation. intros ->.
  destruct m as [mc mz mg], k, c, z as [n|]; simpl; try reflexivity;
    destruct (n =? 0)%Z; reflexivity.
Qed.

Lemma _setMapLocation_idempotent l z c k w :
  _setMapLocation l z c k (_setMapLocation l z c k w) = _setMapLocation l z c k w.
Proof.
  destruct w as [? ? ? ? ? ? m mk ? ? ? ? ? ? ? ? ?].
  unfold _setMapLocation. simpl.
  destruct m as [[mc mz mg]|]; [|reflexivity].
  destruct k, c, z as [n|]; simpl; try reflexivity;
    destruct (n =? 0)%Z eqn:E; simpl; rewrite ?E; reflexivity.
Qed.

Section Presence.

Context {rt : Runtime}.

Lemma _refreshMarkerLocation_no_map w :
  _map w = None -> _refreshMarkerLocation w = w.
Proof. unfold _refreshMarkerLocation. intros ->. reflexivity. Qed.

Lemma _refreshMarkerLocation_keeps_map w :
  _map w <> None -> _map (_refreshMarkerLocation w) <> None.
Proof.
  unfold _refreshMarkerLocation. destruct (_map w) as [m|] eqn:Em; [|congruence].
  intros _.
  destruct (negb (_hasCoordinates w));
    [rewrite (_setMapLocation_map _ _ _ _ _ _ Em); discriminate|].
  destruct (_isComplexType VUndefined w);
    [rewrite (_setMapLocation_map _ _ _ _ _ _ Em); discriminate|].
  destruct (value w); try (rewrite Em; discriminate).
  rewrite (_setMapLocation_map _ _ _ _ _ _ Em); discriminate.
Qed.

(** X4: rendering is idempotent: a second [_refreshMarkerLocation()] on the
    same value changes nothing, so it neither adds a marker nor moves the
    map again. *)
Theorem refreshMarkerLocation_idempotent (w : Widget) :
  _refreshMarkerLocation (_refreshMarkerLocation w) = _refreshMarkerLocation w.
Proof.
  pose proof (surface_fields _ _ (_refreshMarkerLocation_surface w)) as (Hc & _ & Hv & _).
  destruct (_map w) as [m|] eqn:Em.
  2:{ rewrite (_refreshMarkerLocation_no_map w Em). apply _refreshMarkerLocation_no_map, Em. }
  assert (Hm : _map (_refreshMarkerLocation w) <> None)
    by (apply _refreshMarkerLocation_keeps_map; congruence).
  destruct (_map (_refreshMarkerLocation w)) as [m'|] eqn:Em'; [clear Hm|congruence].
  unfold _refreshMarkerLocation at 1.
  rewrite Em', (_hasCoordinates_ext _ _ Hv Hc), (_isComplexType_ext _ _ _ Hv Hc), Hv, Hc.
  unfold _refreshMarkerLocation. rewrite Em.
  destruct (negb (_hasCoordinates w)); [apply _setMapLocation_idempotent|].
  destruct (_isComplexType VUndefined w); [apply _setMapLocation_idempotent|].
  destruct (value w); try reflexivity. apply _setMapLocation_idempotent.
Qed.

Lemma _setValueAttr_presence v w :
  (_map w = None ->
   _map (_setValueAttr v w) = None /\ _marker (_setValueAttr v w) = _marker w) /\
  (_map w <> None -> _map (_setValueAttr v w) <> None).
Proof.
  unfold _setValueAttr.
  set (w1 := set_textbox _ (set_value v w)).
  set (w2 := match _marker w1 with None => _ | Some _ => _ end).
  assert (H2 : (_map w = None -> _map w2 = None /\ _marker w2 = _marker w) /\
               (_map w <> None -> _map w2 <> None)).
  { subst w2. destruct (_marker w1) eqn:Emk.
    - split; intros H; [split; [exact H | reflexivity] | exact H].
    - split; intros H.
      + rewrite (_refreshMarkerLocation_no_map w1 H). split; [exact H | reflexivity].
      + apply _refreshMarkerLocation_keeps_map. exact H. }
  destruct (_isComplexType VUndefined w2); exact H2.
Qed.

Lemma _setCoordinatesValue_presence location w :
  (_map w = None ->
   _map (_setCoordinatesValue location w) = None /\
   _marker (_setCoordinatesValue location w) = _marker w) /\
  (_map w <> None -> _map (_setCoordinatesValue location w) <> None).
Proof.
  unfold _setCoordinatesValue.
  destruct (negb (_started w)); [split; intros H; [split; [exact H | reflexivity] | exact H]|].
  destruct location as [l|].
  - destruct (JS.is_undefined (lng l) || JS.is_undefined (lat l)).
    + split; intros H; [split; [exact H | reflexivity] | exact H].
    + destruct (_isComplexType VUndefined w); apply _setValueAttr_presence.
  - destruct (_isComplexType VUndefined w); apply _setValueAttr_presence.
Qed.

(** A value set while a marker is shown is stored without rendering. *)
Lemma _setValueAttr_with_marker v w mk :
  _marker w = Some mk ->
  _map (_setValueAttr v w) = _map w /\ _marker (_setValueAttr v w) = Some mk.
Proof.
  intros Hmk. unfold _setValueAttr.
  cbn [_marker set_textbox set_value]. rewrite Hmk.
  destruct (_isComplexType VUndefined _); split; simpl; try reflexivity; exact Hmk.
Qed.

Lemma _setCoordinatesValue_with_marker location w mk :
  _marker w = Some mk ->
  _map (_setCoordinatesValue location w) = _map w /\
  _marker (_setCoordinatesValue location w) = Some mk.
Proof.
  intros Hmk. unfold _setCoordinatesValue.
  destruct (negb (_started w)); [split; [reflexivity | exact Hmk]|].
  destruct location as [l|].
  - destruct (JS.is_undefined (lng l) || JS.is_undefined (lat l)).
    + split; [reflexivity | exact Hmk].
    + destruct (_isComplexType VUndefined w); apply _setValueAttr_with_marker, Hmk.
  - destruct (_isComplexType VUndefined w); apply _setValueAttr_with_marker, Hmk.
Qed.

End Presence.

(** ** The map, the marker and the listeners *)

Lemma same_presence_refl w : same_presence w w.
Proof.
  split; [reflexivity|]. split; [reflexivity|].
  split; intros H; [split; [exact H | reflexivity] | exact H].
Qed.

Lemma same_presence_trans w1 w2 w3 :
  same_presence w1 w2 -> same_presence w2 w3 -> same_presence w1 w3.
Proof.
  intros (Ho & Hc & Hn & Hs) (Ho' & Hc' & Hn' & Hs').
  split; [congruence|]. split; [congruence|]. split.
  - intros H. destruct (Hn H) as (Hm & Hk). destruct (Hn' Hm) as (Hm' & Hk').
    split; congruence.
  - intros H. apply Hs', Hs, H.
Qed.

Lemma same_presence_fields w w' :
  owned w' = owned w -> config w' = config w ->
  _map w' = _map w -> _marker w' = _marker w ->
  same_presence w w'.
Proof.
  intros Ho Hc Hm Hk. split; [exact Ho|]. split; [exact Hc|]. split.
  - intros H. split; congruence.
  - congruence.
Qed.

Lemma same_presence_search_only w w' : search_only w w' -> same_presence w w'.
Proof.
  intros H. apply search_only_fields in H.
  destruct H as (Hc & _ & _ & _ & _ & _ & Hm & Hk & _ & Ho & _).
  apply same_presence_fields; assumption.
Qed.

Lemma surface_inv_same_presence w w' :
  same_presence w w' -> surface_inv w -> surface_inv w'.
Proof.
  intros (Ho & Hc & Hn & Hs) (I1 & I2 & I3 & I4).
  unfold surface_inv. rewrite Ho, Hc.
  split; [|split; [|split]].
  - intros H. destruct (_map w) eqn:Em.
    + exfalso. apply (Hs ltac:(discriminate)), H.
    + destruct (Hn eq_refl) as (_ & ->). apply I1. reflexivity.
  - intros H. apply Hn, I2, H.
  - intros H. apply Hs, I3, H.
  - exact I4.
Qed.

Lemma _setMapLocation_same_presence l z c k w :
  same_presence w (_setMapLocation l z c k w).
Proof.
  pose proof (surface_fields _ _ (_setMapLocation_surface l z c k w))
    as (Hc & _ & _ & _ & _ & _ & _ & _ & _ & Ho).
  split; [exact Ho|]. split; [exact Hc|]. split.
  - intros H. rewrite (_setMapLocation_no_map _ _ _ _ _ H). split; [exact H | reflexivity].
  - intros H. destruct (_map w) as [m|] eqn:Em; [|congruence].
    rewrite (_setMapLocation_map _ _ _ _ _ _ Em). discriminate.
Qed.

Section Surface.

Context {rt : Runtime}.

Lemma _setValueAttr_same_presence v w : same_presence w (_setValueAttr v w).
Proof.
  pose proof (form_only_fields _ _ (_setValueAttr_form_only v w))
    as (Hc & _ & _ & _ & _ & _ & _ & _ & _ & _ & Ho).
  split; [exact Ho|]. split; [exact Hc|]. apply _setValueAttr_presence.
Qed.

Lemma _setCoordinatesValue_same_presence location w :
  same_presence w (_setCoordinatesValue location w).
Proof.
  pose proof (form_only_fields _ _ (_setCoordinatesValue_form_only location w))
    as (Hc & _ & _ & _ & _ & _ & _ & _ & _ & _ & Ho).
  split; [exact Ho|]. split; [exact Hc|]. apply _setCoordinatesValue_presence.
Qed.

Lemma _setValueAttr_call_same_presence v w :
  same_presence w (after (_setValueAttr_call v w)).
Proof.
  unfold _setValueAttr_call.
  destruct (attached w); [apply _setValueAttr_same_presence|].
  apply same_presence_fields; reflexivity.
Qed.

Lemma _setCoordinatesValue_call_same_presence location w :
  same_presence w (after (_setCoordinatesValue_call location w)).
Proof.
  destruct (attached w) eqn:Ea.
  - rewrite (_setCoordinatesValue_call_attached _ _ Ea).
    apply _setCoordinatesValue_same_presence.
  - rewrite (_setCoordinatesValue_call_detached_after _ _ Ea).
    apply same_presence_fields; reflexivity.
Qed.

Lemma on_place_resolved_same_presence task l s :
  existsb (Nat.eqb task) (details (browser s)) = true ->
  same_presence (widget s) (widget (on_place_resolved task (Some l) s)).
Proof.
  intros Ep.
  eapply same_presence_trans;
    [apply (_setMapLocation_same_presence (new_LatLng (lat l) (lng l)) (Some 15%Z)
              true false)|].
  destruct (attached (widget s)) eqn:Ea.
  - rewrite (on_place_resolved_attached _ _ _ Ep Ea).
    eapply same_presence_trans; [apply _setCoordinatesValue_same_presence|].
    eapply same_presence_trans;
      [|apply same_presence_search_only, _hideSuggestionsDropdown_search_only].
    apply same_presence_fields; reflexivity.
  - rewrite (on_place_resolved_detached _ _ _ Ep Ea).
    eapply same_presence_trans; [apply _setCoordinatesValue_call_same_presence|].
    apply same_presence_fields; reflexivity.
Qed.

Lemma surface_inv_step e s :
  surface_inv (widget s) -> surface_inv (widget (step e s)).
Proof.
  intros Hinv.
  destruct (is_search_event e) eqn:Ee.
  { apply (surface_inv_same_presence (widget s)); [|exact Hinv].
    apply same_presence_search_only, step_search_only, Ee. }
  destruct e as [ |v| |key|ms|k|k|k l|k|i|i|k l|k|l|o| | ]; try discriminate; simpl.
  - exact Hinv.
  - apply (surface_inv_same_presence (widget s)); [|exact Hinv].
    apply _setValueAttr_call_same_presence.
  - destruct (scriptLoadedSignal (owned (widget s))) eqn:Es; [|exact Hinv].
    destruct Hinv as (I1 & I2 & I3 & I4).
    simpl. unfold on_script_loaded.
    set (w1 := _createGoogleMapsElement (widget s)).
    assert (Hm1 : _map w1 <> None).
    { subst w1. unfold _createGoogleMapsElement. simpl.
      destruct (readOnly (config (widget s))); discriminate. }
    pose proof (_refreshMarkerLocation_keeps_map w1 Hm1) as Hm2.
    pose proof (surface_fields _ _ (_refreshMarkerLocation_surface w1))
      as (Hc & _ & _ & _ & _ & _ & _ & _ & _ & Ho).
    assert (Hcfg1 : config w1 = config (widget s)).
    { subst w1. unfold _createGoogleMapsElement. simpl.
      destruct (readOnly (config (widget s))); reflexivity. }
    unfold surface_inv. simpl. rewrite Ho, Hc, Hcfg1.
    split; [intros H; contradiction|].
    split; [discriminate|].
    split; [intros _; exact Hm2|].
    intros Hr. subst w1. unfold _createGoogleMapsElement. simpl.
    rewrite Hr. simpl. apply I4, Hr.
  - destruct (keyupHandler _); [|exact Hinv].
    apply (surface_inv_same_presence (widget s)); [|exact Hinv].
    unfold on_keyup, setTimeout.
    destruct (handle_truthy _); apply same_presence_fields; reflexivity.
  - destruct (existsb (Nat.eqb k) (details (browser s))) eqn:Ep;
      [|unfold on_place_resolved; rewrite Ep; exact Hinv].
    destruct l as [l|]; [|unfold on_place_resolved; rewrite Ep; exact Hinv].
    apply (surface_inv_same_presence (widget s)); [|exact Hinv].
    apply on_place_resolved_same_presence, Ep.
  - destruct (rightClickHandler _); [|exact Hinv].
    apply (surface_inv_same_presence (widget s)); [|exact Hinv].
    simpl. unfold on_rightclick.
    eapply same_presence_trans; [apply _setMapLocation_same_presence|].
    apply _setCoordinatesValue_same_presence.
  - destruct (clearHandler _); [|exact Hinv].
    simpl. unfold _clearCoordinates.
    set (w1 := _hideSuggestionsDropdown (set_searchTextbox "" (widget s))).
    assert (H1 : surface_inv w1).
    { apply (surface_inv_same_presence (widget s)); [|exact Hinv].
      eapply same_presence_trans;
        [|apply same_presence_search_only, _hideSuggestionsDropdown_search_only].
      apply same_presence_fields; reflexivity. }
    apply (surface_inv_same_presence
             (match _marker w1 with Some _ => set_marker None w1 | None => w1 end));
      [apply _setCoordinatesValue_same_presence|].
    destruct (_marker w1); [|exact H1].
    destruct H1 as (I1 & I2 & I3 & I4). unfold surface_inv. simpl.
    split; [reflexivity|]. split; [exact I2|]. split; [exact I3 | exact I4].
  - unfold destroy.
    destruct Hinv as (I1 & I2 & I3 & I4).
    destruct (handle_truthy _); simpl; destruct (_suggestionsDropdown (widget s));
      unfold surface_inv; simpl;
      (split; [exact I1|]); (split; [discriminate|]); (split; [discriminate|]);
      intros _; repeat split.
Qed.

Lemma reachable_surface_inv s : reachable s -> surface_inv (widget s).
Proof.
  induction 1 as [cfg | e s _ IH]; [|apply surface_inv_step, IH].
  unfold surface_inv. simpl.
  split; [reflexivity|]. split; [reflexivity|]. split; [discriminate|].
  intros _. repeat split.
Qed.

End Surface.

Lemma _hasCoordinates_absent w :
  value w = VNull \/ value w = VObject {| latitude := CNull; longitude := CNull |} ->
  _hasCoordinates w = false.
Proof.
  unfold _hasCoordinates, _isComplexType. intros [-> | ->]; reflexivity.
Qed.

Section Surface_properties.

Context {rt : Runtime}.

Lemma _refreshMarkerLocation_first_render w m :
  _map w = Some m -> _marker w = None ->
  (_hasCoordinates w = true -> _marker (_refreshMarkerLocation w) <> None) /\
  (_hasCoordinates w = false ->
   _marker (_refreshMarkerLocation w) = None /\
   _map (_refreshMarkerLocation w)
   = Some {| center := default_location (config w); zoom := zoom m;
             grayscale := grayscale m |}).
Proof.
  intros Hm Hk.
  assert (Hm' : _map w <> None) by congruence.
  unfold _refreshMarkerLocation. rewrite Hm. split; intros Hc; rewrite Hc; simpl.
  - destruct (_isComplexType VUndefined w) eqn:Ec.
    + rewrite (proj1 (_setMapLocation_marker _ _ _ _ Hm')). discriminate.
    + destruct (value w) eqn:Ev.
      * unfold _hasCoordinates in Hc. rewrite Ev in Hc. discriminate.
      * unfold _hasCoordinates in Hc. rewrite Ev in Hc. discriminate.
      * rewrite (proj1 (_setMapLocation_marker _ _ _ _ Hm')). discriminate.
      * rewrite (_isComplexType_object w o Ev) in Ec. discriminate.
  - rewrite (proj2 (_setMapLocation_marker _ _ _ _ Hm')).
    rewrite (_setMapLocation_map _ _ _ _ _ _ Hm). split; [exact Hk | reflexivity].
Qed.

(** X5: a read-only editor never registers the listeners of the map and of
    the search box: in every state it reaches, a keystroke, a right click on
    the map and a click in the document leave it exactly as it is. *)
Theorem readonly_ignores_input (s : System) :
  reachable s ->
  readOnly (config (widget s)) = true ->
  (forall text, step (Keyup text) s = s) /\
  (forall latLng, step (RightClick latLng) s = s) /\
  (forall outside, step (DocumentClick outside) s = s).
Proof.
  intros Hr Hro.
  destruct (reachable_surface_inv s Hr) as (_ & _ & _ & I4).
  destruct (I4 Hro) as (Hrc & Hk & Hd).
  simpl. rewrite Hrc, Hk, Hd. repeat split.
Qed.

(** X6: the map is created when the script-loaded signal fires, and the
    value stored until then is rendered at once: afterwards a marker exists
    exactly when the value has coordinates, and without coordinates the map
    shows the default location.  The signal is removed, so a second
    script-loaded event changes nothing. *)
Theorem script_loaded_renders_value (s : System) :
  reachable s ->
  scriptLoadedSignal (owned (widget s)) = true ->
  _map (widget s) = None /\
  _map (widget (step ScriptLoaded s)) <> None /\
  value (widget (step ScriptLoaded s)) = value (widget s) /\
  (_marker (widget (step ScriptLoaded s)) <> None
   <-> _hasCoordinates (widget s) = true) /\
  (_hasCoordinates (widget s) = false ->
   _map (widget (step ScriptLoaded s))
   = Some {| center := default_location (config (widget s));
             zoom := defaultZoom (config (widget s));
             grayscale := readOnly (config (widget s)) |}) /\
  step ScriptLoaded (step ScriptLoaded s) = step ScriptLoaded s.
Proof.
  intros Hr Hs.
  destruct (reachable_surface_inv s Hr) as (I1 & I2 & _ & _).
  pose proof (I2 Hs) as Hm. pose proof (I1 Hm) as Hk.
  split; [exact Hm|].
  assert (Hstep : widget (step ScriptLoaded s) = on_script_loaded (widget s)).
  { simpl. rewrite Hs. reflexivity. }
  set (w1 := _createGoogleMapsElement (widget s)).
  assert (H1 : _map w1 = Some {| center := default_location (config (widget s));
                                 zoom := defaultZoom (config (widget s));
                                 grayscale := readOnly (config (widget s)) |} /\
               _marker w1 = None /\ value w1 = value (widget s) /\
               config w1 = config (widget s)).
  { subst w1. unfold _createGoogleMapsElement. simpl.
    destruct (readOnly (config (widget s))); simpl; repeat split; exact Hk. }
  destruct H1 as (Hm1 & Hk1 & Hv1 & Hc1).
  pose proof (_hasCoordinates_ext _ _ Hv1 Hc1) as Hh1.
  destruct (_refreshMarkerLocation_first_render w1 _ Hm1 Hk1) as (Hyes & Hno).
  pose proof (surface_fields _ _ (_refreshMarkerLocation_surface w1))
    as (Hc2 & _ & Hv2 & _).
  assert (Hmap : _map (on_script_loaded (widget s)) = _map (_refreshMarkerLocation w1))
    by reflexivity.
  assert (Hmk : _marker (on_script_loaded (widget s)) = _marker (_refreshMarkerLocation w1))
    by reflexivity.
  assert (Hval : value (on_script_loaded (widget s)) = value (_refreshMarkerLocation w1))
    by reflexivity.
  rewrite Hstep, Hmap, Hmk, Hval.
  split; [apply _refreshMarkerLocation_keeps_map; congruence|].
  split; [congruence|].
  split; [|split].
  - split.
    + intros Hmarker. destruct (_hasCoordinates (widget s)) eqn:Eh; [reflexivity|].
      destruct (Hno Hh1) as (Hnone & _). contradiction.
    + intros Eh. apply Hyes. congruence.
  - intros Eh. assert (Eh1 : _hasCoordinates w1 = false) by congruence.
    destruct (Hno Eh1) as (_ & ->).
    simpl. rewrite Hc1. reflexivity.
  - assert (Hs' : scriptLoadedSignal (owned (widget (step ScriptLoaded s))) = false).
    { rewrite Hstep. reflexivity. }
    cbn [step] in *. rewrite Hs'. reflexivity.
Qed.

(** X7: a right click on the map puts the marker at the clicked location
    (creating it when there is none) and leaves the centre and the zoom of
    the map, the suggestions and the search box as they are. *)
Theorem rightclick_moves_marker_only (s : System) (latLng : LatLng) :
  reachable s ->
  rightClickHandler (owned (widget s)) = true ->
  _marker (widget (step (RightClick latLng) s)) = Some {| position := Some latLng |} /\
  _map (widget (step (RightClick latLng) s)) = _map (widget s) /\
  _map (widget s) <> None /\
  _suggestions (widget (step (RightClick latLng) s)) = _suggestions (widget s) /\
  _suggestionsDropdown (widget (step (RightClick latLng) s))
    = _suggestionsDropdown (widget s) /\
  searchTextbox (widget (step (RightClick latLng) s)) = searchTextbox (widget s).
Proof.
  intros Hr Hh.
  destruct (reachable_surface_inv s Hr) as (_ & _ & I3 & _).
  pose proof (I3 Hh) as Hm.
  simpl. rewrite Hh. simpl.
  pose proof (form_only_fields _ _ (on_rightclick_form_only latLng (widget s)))
    as (_ & _ & Hst & _ & _ & Hsg & Hdd & _).
  unfold on_rightclick in *.
  destruct (_map (widget s)) as [m|] eqn:Em; [|congruence].
  pose proof (proj1 (_setMapLocation_marker latLng None false
                       (widget s) ltac:(congruence))) as Hmk.
  pose proof (_setMapLocation_map latLng None false false _ _ Em) as Hmap.
  destruct (_setCoordinatesValue_with_marker (Some latLng) _ _ Hmk) as (-> & ->).
  rewrite Hmap. destruct m; simpl. repeat split; try assumption; discriminate.
Qed.

End Surface_properties.

(** X5 at work: typing in the search box of the read-only editor. *)
Lemma readonly_ignores_input_witness :
  @step Sample.runtime (Keyup "a") readonly_ready = readonly_ready.
Proof.
  refine (proj1 (@readonly_ignores_input Sample.runtime readonly_ready _ eq_refl) "a").
  exact (reachable_step ScriptLoaded _
           (reachable_step Startup _ (reachable_postCreate readonly_config))).
Defined.

(** X6 at work: the value set before the map is loaded gets its marker. *)
Lemma script_loaded_renders_value_witness :
  _marker (widget (@step Sample.runtime ScriptLoaded value_before_map)) <> None.
Proof.
  refine (proj2 (proj1 (proj2 (proj2 (proj2
            (@script_loaded_renders_value Sample.runtime value_before_map _ eq_refl))))) eq_refl).
  exact (reachable_step (SetValue (VString "40,-73")) _
           (reachable_step Startup _ (reachable_postCreate delimited_config))).
Defined.

(** X7 at work: a right click on the started editor. *)
Lemma rightclick_moves_marker_only_witness :
  _marker (widget (@step Sample.runtime (RightClick new_york) ready))
  = Some {| position := Some new_york |}.
Proof.
  refine (proj1 (@rightclick_moves_marker_only Sample.runtime ready new_york _ eq_refl)).
  exact (reachable_step ScriptLoaded _
           (reachable_step Startup _ (reachable_postCreate delimited_config))).
Defined.

(** ** Picking, committing and clearing *)

Lemma new_LatLng_eta l : new_LatLng (lat l) (lng l) = l.
Proof. destruct l; reflexivity. Qed.

Lemma existsb_filter_out task l :
  existsb (Nat.eqb task) (filter (fun k => negb (k =? task)%nat) l) = false.
Proof.
  induction l as [|k l IH]; [reflexivity|].
  simpl. destruct (Nat.eqb_spec k task) as [->|Hne]; simpl; [exact IH|].
  rewrite IH. destruct (Nat.eqb_spec task k); [congruence | reflexivity].
Qed.

Section Picking.

Context {rt : Runtime}.

Lemma _setValueAttr_first_render v w m :
  _map w = Some m -> _marker w = None ->
  (_hasCoordinates (set_value v w) = false ->
   _marker (_setValueAttr v w) = None /\
   _map (_setValueAttr v w)
   = Some {| center := default_location (config w); zoom := zoom m;
             grayscale := grayscale m |}) /\
  (forall s, v = VString s -> _isComplexType VUndefined (set_value v w) = false ->
   _hasCoordinates (set_value v w) = true ->
   _marker (_setValueAttr v w)
   = Some {| position :=
               Some (new_LatLng
                       (CNumber (parseFloat (JS.part 0 (JS.split "," s))))
                       (CNumber (parseFloat (JS.part 1 (JS.split "," s))))) |}).
Proof.
  intros Hm Hk. unfold _setValueAttr.
  set (w1 := set_textbox _ (set_value v w)).
  assert (Hm1 : _map w1 = Some m) by exact Hm.
  assert (Hk1 : _marker w1 = None) by exact Hk.
  assert (Hh1 : _hasCoordinates w1 = _hasCoordinates (set_value v w))
    by (apply _hasCoordinates_ext; reflexivity).
  assert (Hc1 : _isComplexType VUndefined w1 = _isComplexType VUndefined (set_value v w))
    by (apply _isComplexType_ext; reflexivity).
  rewrite Hk1. cbv beta iota. split.
  - intros Hno. rewrite <- Hh1 in Hno.
    destruct (_refreshMarkerLocation_first_render w1 m Hm1 Hk1) as (_ & H).
    destruct (H Hno) as (Hmk & Hmap).
    destruct (_isComplexType VUndefined (_refreshMarkerLocation w1)); simpl;
      (split; [exact Hmk | exact Hmap]).
  - intros s -> Hcx Hyes. rewrite <- Hh1 in Hyes. rewrite <- Hc1 in Hcx.
    assert (Hr : _marker (_refreshMarkerLocation w1)
                 = Some {| position :=
                             Some (new_LatLng
                                     (CNumber (parseFloat (JS.part 0 (JS.split "," s))))
                                     (CNumber (parseFloat (JS.part 1 (JS.split "," s))))) |}).
    { unfold _refreshMarkerLocation. rewrite Hm1, Hyes, Hcx. simpl.
      apply _setMapLocation_marker. unfold w1. simpl. congruence. }
    destruct (_isComplexType VUndefined (_refreshMarkerLocation w1)); simpl; exact Hr.
Qed.

(** X8: on a started editor of a string property a picked location is
    written as its two components joined by a comma; when the printed
    components contain no comma themselves, the string splits back into
    exactly these two, it counts as coordinates, and the first render of it
    puts the marker at the numbers parsed from the printed components, which
    are the numbers the object format stores. *)
Theorem picked_string_is_reparsed (w : Widget) (l : LatLng) :
  _started w = true ->
  _isComplexType VUndefined w = false ->
  lat l <> CUndefined -> lng l <> CUndefined ->
  count_char "," (JS.ToString (lat l)) = 0 ->
  count_char "," (JS.ToString (lng l)) = 0 ->
  value (_setCoordinatesValue (Some l) w)
    = VString (JS.ToString (lat l) ++ "," ++ JS.ToString (lng l)) /\
  JS.split "," (JS.ToString (lat l) ++ "," ++ JS.ToString (lng l))
    = [JS.ToString (lat l); JS.ToString (lng l)] /\
  _hasCoordinates (_setCoordinatesValue (Some l) w) = true /\
  (_map w <> None -> _marker w = None ->
   _marker (_setCoordinatesValue (Some l) w)
   = Some {| position :=
               Some (new_LatLng (CNumber (parseFloat (JS.ToString (lat l))))
                                (CNumber (parseFloat (JS.ToString (lng l))))) |}).
Proof.
  intros Hs Hc Hla Hlo Hca Hcb.
  set (a := JS.ToString (lat l)) in *. set (b := JS.ToString (lng l)) in *.
  assert (Hsplit : JS.split "," (a ++ "," ++ b) = [a; b]).
  { change (a ++ "," ++ b) with (a ++ String "," b).
    rewrite (split_append _ _ _ Hca), (split_no_separator _ _ Hcb). reflexivity. }
  assert (Heq : _setCoordinatesValue (Some l) w = _setValueAttr (VString (a ++ "," ++ b)) w).
  { unfold _setCoordinatesValue. rewrite Hs, Hc. simpl.
    destruct (lng l); try contradiction; destruct (lat l); try contradiction; reflexivity. }
  assert (Hv : value (_setCoordinatesValue (Some l) w) = VString (a ++ "," ++ b))
    by (rewrite Heq; apply _setValueAttr_value).
  assert (Hf : _isComplexType VUndefined (_setCoordinatesValue (Some l) w) = false)
    by (rewrite _setCoordinatesValue_format; exact Hc).
  assert (Hcount : count_char "," (a ++ "," ++ b) = 1).
  { rewrite count_char_append. simpl. rewrite Hca, Hcb. reflexivity. }
  split; [exact Hv|]. split; [exact Hsplit|].
  split; [rewrite (_hasCoordinates_string _ _ Hv Hf); apply split_two_parts, Hcount|].
  intros Hm Hk. rewrite Heq.
  destruct (_map w) as [m|] eqn:Em; [|congruence].
  destruct (_setValueAttr_first_render (VString (a ++ "," ++ b)) w m Em Hk) as (_ & H).
  assert (Hc' : _isComplexType VUndefined (set_value (VString (a ++ "," ++ b)) w) = false).
  { rewrite <- Hc. apply _isComplexType_not_object.
    - apply _isComplexType_false_not_object, Hc.
    - intros o. discriminate.
    - reflexivity. }
  rewrite (H _ eq_refl Hc').
  - rewrite Hsplit. reflexivity.
  - rewrite (_hasCoordinates_string (set_value (VString (a ++ "," ++ b)) w)
               (a ++ "," ++ b) eq_refl Hc').
    apply split_two_parts, Hcount.
Qed.

Lemma _setCoordinatesValue_console_error l w :
  lat l <> CUndefined -> lng l <> CUndefined ->
  console_error (_setCoordinatesValue (Some l) w) = console_error w.
Proof.
  intros Hla Hlo. unfold _setCoordinatesValue.
  destruct (negb (_started w)); [reflexivity|].
  assert (Hu : JS.is_undefined (lng l) || JS.is_undefined (lat l) = false)
    by (destruct (lng l); try contradiction; destruct (lat l); try contradiction;
        reflexivity).
  rewrite Hu. destruct (_isComplexType VUndefined w); apply _setValueAttr_console_error.
Qed.

(** X9: when the details of a selected place arrive with a location, the
    marker is put there and the map is centred on it at zoom 15; the session
    token and the suggestion list are kept, and the fetch is no longer
    pending.  On a widget that has not been destroyed the search box is then
    emptied and the dropdown hidden with nothing highlighted.  On a
    destroyed widget the [try] block is left by a TypeError before that: the
    search box, the dropdown, the highlighted index, the text box and the
    record of [onChange] stay as they were, and the [catch] logs the error
    of the selection. *)
Theorem commit_applies_place (s : System) (task : nat) (l : LatLng) (m : Map) :
  existsb (Nat.eqb task) (details (browser s)) = true ->
  _map (widget s) = Some m ->
  _marker (widget (step (PlaceResolved task (Some l)) s)) = Some {| position := Some l |} /\
  _map (widget (step (PlaceResolved task (Some l)) s))
    = Some {| center := l; zoom := 15; grayscale := grayscale m |} /\
  _sessionToken (widget (step (PlaceResolved task (Some l)) s)) = _sessionToken (widget s) /\
  _suggestions (widget (step (PlaceResolved task (Some l)) s)) = _suggestions (widget s) /\
  existsb (Nat.eqb task) (details (browser (step (PlaceResolved task (Some l)) s))) = false /\
  (attached (widget s) = true ->
   searchTextbox (widget (step (PlaceResolved task (Some l)) s)) = "" /\
   _selectedSuggestionIndex (widget (step (PlaceResolved task (Some l)) s)) = (-1)%Z /\
   (forall d, _suggestionsDropdown (widget s) = Some d ->
      _suggestionsDropdown (widget (step (PlaceResolved task (Some l)) s))
      = Some {| display := false; items := items d |})) /\
  (attached (widget s) = false ->
   searchTextbox (widget (step (PlaceResolved task (Some l)) s))
     = searchTextbox (widget s) /\
   _selectedSuggestionIndex (widget (step (PlaceResolved task (Some l)) s))
     = _selectedSuggestionIndex (widget s) /\
   _suggestionsDropdown (widget (step (PlaceResolved task (Some l)) s))
     = _suggestionsDropdown (widget s) /\
   textbox (widget (step (PlaceResolved task (Some l)) s)) = textbox (widget s) /\
   onChange (widget (step (PlaceResolved task (Some l)) s)) = onChange (widget s) /\
   (lat l <> CUndefined -> lng l <> CUndefined ->
    console_error (widget (step (PlaceResolved task (Some l)) s))
    = (console_error (widget s) ++ [select_error_message])%list)).
Proof.
  intros Hp Hm.
  change (step (PlaceResolved task (Some l)) s) with (on_place_resolved task (Some l) s).
  assert (Hb : existsb (Nat.eqb task) (details (browser (on_place_resolved task (Some l) s)))
               = false).
  { unfold on_place_resolved. rewrite Hp. apply existsb_filter_out. }
  pose proof (on_place_resolved_attached task l s Hp) as Hlive.
  pose proof (on_place_resolved_detached task l s Hp) as Hdead.
  rewrite new_LatLng_eta in Hlive, Hdead.
  set (w1 := _setMapLocation l (Some 15%Z) true false (widget s)) in *.
  assert (Hk1 : _marker w1 = Some {| position := Some l |})
    by (apply _setMapLocation_marker; congruence).
  assert (Hm1 : _map w1 = Some {| center := l; zoom := 15; grayscale := grayscale m |})
    by (apply (_setMapLocation_map l (Some 15%Z) true false _ _ Hm)).
  pose proof (surface_fields _ _ (_setMapLocation_surface l (Some 15%Z) true false (widget s)))
    as (_ & _ & _ & Htb1 & Ht1 & Hs1 & Hoc1 & Hce1 & _).
  pose proof (form_only_fields _ _ (surface_form_only _ _
                (_setMapLocation_surface l (Some 15%Z) true false (widget s))))
    as (_ & _ & Hst1 & _ & _ & _ & Hd1 & Hi1 & _).
  fold w1 in Htb1, Ht1, Hs1, Hoc1, Hce1, Hst1, Hd1, Hi1.
  destruct (attached (widget s)) eqn:Ea.
  - rewrite (Hlive eq_refl). clear Hlive Hdead.
    remember (_setCoordinatesValue (Some l) w1) as w2 eqn:Ew2.
    destruct (_setCoordinatesValue_with_marker (Some l) w1 _ Hk1) as (Hm2 & Hk2).
    pose proof (form_only_fields _ _ (_setCoordinatesValue_form_only (Some l) w1))
      as (_ & _ & _ & _ & Ht2 & Hs2 & Hd2 & _).
    rewrite <- Ew2 in Hm2, Hk2, Ht2, Hs2, Hd2.
    destruct (_hideSuggestionsDropdown_fields (set_searchTextbox "" w2))
      as (_ & _ & Ht & Hs & _ & _ & Hk & Hmap).
    rewrite Hk, Hmap, Ht, Hs. cbn [_marker _map _sessionToken _suggestions set_searchTextbox].
    split; [exact Hk2|]. split; [rewrite Hm2; exact Hm1|].
    split; [congruence|]. split; [congruence|]. split; [exact Hb|].
    split; [|discriminate]. intros _.
    assert (Hsb : searchTextbox (_hideSuggestionsDropdown (set_searchTextbox "" w2)) = "")
      by (unfold _hideSuggestionsDropdown;
          destruct (_suggestionsDropdown (set_searchTextbox "" w2)); reflexivity).
    assert (Hidx : _selectedSuggestionIndex
                     (_hideSuggestionsDropdown (set_searchTextbox "" w2)) = (-1)%Z)
      by (unfold _hideSuggestionsDropdown;
          destruct (_suggestionsDropdown (set_searchTextbox "" w2)); reflexivity).
    split; [exact Hsb|]. split; [exact Hidx|].
    intros d Hd. unfold _hideSuggestionsDropdown.
    cbn [_suggestionsDropdown set_searchTextbox].
    rewrite Hd2, Hd1, Hd. reflexivity.
  - rewrite (Hdead eq_refl). clear Hlive Hdead.
    assert (Ha1 : attached w1 = false).
    { unfold w1. rewrite (surface_attached _ _ (_setMapLocation_surface _ _ _ _ _)).
      exact Ea. }
    rewrite (_setCoordinatesValue_call_detached_after (Some l) w1 Ha1).
    cbn [_marker _map _sessionToken _suggestions searchTextbox _selectedSuggestionIndex
         _suggestionsDropdown textbox onChange console_error set_console_error set_value].
    split; [exact Hk1|]. split; [exact Hm1|].
    split; [exact Ht1|]. split; [exact Hs1|]. split; [exact Hb|].
    split; [discriminate|]. intros _.
    split; [exact Hst1|]. split; [exact Hi1|]. split; [exact Hd1|].
    split; [exact Htb1|]. split; [exact Hoc1|].
    intros Hla Hlo. rewrite (_setCoordinatesValue_console_error l w1 Hla Hlo), Hce1.
    reflexivity.
Qed.

(** X10: a detail fetch that yields no location changes nothing in the
    widget; a failed detail fetch, a failed search and a failed import of the
    Places library add one message to the error console and change nothing
    else (the value, the marker, the map, the suggestions and the dropdown
    stay as they were). *)
Theorem failures_only_log (s : System) (task : nat) :
  widget (step (PlaceResolved task None) s) = widget s /\
  (widget (step (PlaceRejected task) s) = widget s \/
   widget (step (PlaceRejected task) s)
   = set_console_error (console_error (widget s) ++ [select_error_message]) (widget s)) /\
  (widget (step (SuggestionsRejected task) s) = widget s \/
   widget (step (SuggestionsRejected task) s)
   = set_console_error (console_error (widget s) ++ [fetch_error_message]) (widget s)) /\
  (widget (step (ImportRejected task) s) = widget s \/
   widget (step (ImportRejected task) s)
   = set_console_error (console_error (widget s) ++ [fetch_error_message]) (widget s)).
Proof.
  simpl. unfold on_place_resolved, on_place_rejected, on_suggestions_rejected,
    on_import_rejected.
  split; [destruct (existsb _ _); reflexivity|].
  split; [destruct (existsb _ _); [right | left]; reflexivity|].
  split; destruct (lookup _ _); solve [right; reflexivity | left; reflexivity].
Qed.

(** X11: the clear action on a started editor leaves a value without
    coordinates, no marker, an empty search box and a hidden dropdown with
    nothing highlighted; a required field is then invalid, and a loaded map
    is centred on the default location at its current zoom. *)
Theorem clear_action_resets (s : System) :
  clearHandler (owned (widget s)) = true ->
  _started (widget s) = true ->
  _hasCoordinates (widget (step ClearClick s)) = false /\
  _marker (widget (step ClearClick s)) = None /\
  searchTextbox (widget (step ClearClick s)) = "" /\
  _selectedSuggestionIndex (widget (step ClearClick s)) = (-1)%Z /\
  (forall d, _suggestionsDropdown (widget s) = Some d ->
     _suggestionsDropdown (widget (step ClearClick s))
     = Some {| display := false; items := items d |}) /\
  (required (config (widget s)) = true -> isValid (widget (step ClearClick s)) = false) /\
  (forall m, _map (widget s) = Some m ->
     _map (widget (step ClearClick s))
     = Some {| center := default_location (config (widget s)); zoom := zoom m;
               grayscale := grayscale m |}).
Proof.
  intros Hh Hs. simpl. rewrite Hh. simpl. unfold _clearCoordinates.
  destruct (_hideSuggestionsDropdown_fields (set_searchTextbox "" (widget s)))
    as (Hv1 & _ & _ & _ & Hs1 & Hc1 & _ & Hm1).
  pose proof (search_only_fields _ _ (_hideSuggestionsDropdown_search_only
                (set_searchTextbox "" (widget s)))) as (_ & _ & _ & _ & Hst1 & _).
  assert (Hi1 : _selectedSuggestionIndex
                  (_hideSuggestionsDropdown (set_searchTextbox "" (widget s))) = (-1)%Z).
  { unfold _hideSuggestionsDropdown. destruct (_suggestionsDropdown _); reflexivity. }
  assert (Hd1 : forall d, _suggestionsDropdown (widget s) = Some d ->
                _suggestionsDropdown
                  (_hideSuggestionsDropdown (set_searchTextbox "" (widget s)))
                = Some {| display := false; items := items d |}).
  { intros d Hd. unfold _hideSuggestionsDropdown. simpl. rewrite Hd. reflexivity. }
  remember (_hideSuggestionsDropdown (set_searchTextbox "" (widget s))) as w1 eqn:Ew1.
  simpl in Hv1, Hs1, Hc1, Hm1, Hst1.
  remember (match _marker w1 with Some _ => set_marker None w1 | None => w1 end)
    as w2 eqn:Ew2.
  assert (H2 : _marker w2 = None /\ _map w2 = _map (widget s) /\
               value w2 = value (widget s) /\ config w2 = config (widget s) /\
               _started w2 = true /\ searchTextbox w2 = "" /\
               _selectedSuggestionIndex w2 = (-1)%Z /\
               _suggestionsDropdown w2 = _suggestionsDropdown w1).
  { rewrite Ew2. destruct (_marker w1) eqn:E; simpl; repeat split; congruence. }
  destruct H2 as (Hk2 & Hm2 & Hv2 & Hc2 & Hs2 & Hst2 & Hi2 & Hd2).
  pose proof (form_only_fields _ _ (_setCoordinatesValue_form_only None w2))
    as (Hc3 & _ & Hst3 & _ & _ & _ & Hd3 & Hi3 & _).
  set (v := if _isComplexType VUndefined w2
            then VObject {| latitude := CNull; longitude := CNull |} else VNull).
  assert (Heq : _setCoordinatesValue None w2 = _setValueAttr v w2).
  { unfold _setCoordinatesValue, v. rewrite Hs2. simpl.
    destruct (_isComplexType VUndefined w2); reflexivity. }
  assert (Hv3 : value (_setCoordinatesValue None w2) = v)
    by (rewrite Heq; apply _setValueAttr_value).
  assert (Hno : _hasCoordinates (_setCoordinatesValue None w2) = false).
  { apply _hasCoordinates_absent. rewrite Hv3. unfold v.
    destruct (_isComplexType VUndefined w2); [right | left]; reflexivity. }
  split; [exact Hno|].
  split.
  { destruct (_map w2) as [m|] eqn:Em.
    - rewrite Heq.
      apply (_setValueAttr_first_render v w2 m Em Hk2).
      apply _hasCoordinates_absent. simpl. unfold v.
      destruct (_isComplexType VUndefined w2); [right | left]; reflexivity.
    - rewrite (proj2 (proj1 (_setCoordinatesValue_presence None w2) Em)). exact Hk2. }
  split; [congruence|]. split; [congruence|].
  split; [intros d Hd; rewrite Hd3, Hd2; apply Hd1, Hd|].
  split.
  - intros Hreq. unfold isValid. rewrite Hc3, Hc2, Hreq. exact Hno.
  - intros m Hm. rewrite Heq.
    assert (Em : _map w2 = Some m) by congruence.
    rewrite <- Hc2.
    apply (_setValueAttr_first_render v w2 m Em Hk2).
    apply _hasCoordinates_absent. simpl. unfold v.
    destruct (_isComplexType VUndefined w2); [right | left]; reflexivity.
Qed.

End Picking.

(** X8 at work: New York picked on the started editor of a string property. *)
Lemma picked_string_is_reparsed_witness :
  value (@_setCoordinatesValue Sample.runtime (Some new_york) (widget ready))
  = VString (@JS.ToString Sample.runtime (lat new_york) ++ ","
             ++ @JS.ToString Sample.runtime (lng new_york)).
Proof.
  refine (proj1 (@picked_string_is_reparsed Sample.runtime (widget ready) new_york
                   eq_refl eq_refl _ _ _ _)).
  - discriminate.
  - discriminate.
  - vm_compute. reflexivity.
  - vm_compute. reflexivity.
Defined.

Example picked_string_is_reparsed_value :
  value (@_setCoordinatesValue Sample.runtime (Some new_york) (widget ready))
  = VString "40,-73".
Proof. vm_compute. reflexivity. Qed.

(** X9 at work: the details of the clicked suggestion arrive. *)
Lemma commit_applies_place_witness :
  _marker (widget (@step Sample.runtime (PlaceResolved 2 (Some new_york)) commit_pending))
  = Some {| position := Some new_york |}.
Proof.
  refine (proj1 (@commit_applies_place Sample.runtime commit_pending 2 new_york
                   {| center := default_location delimited_config; zoom := 5;
                      grayscale := false |} _ _)).
  - vm_compute. reflexivity.
  - vm_compute. reflexivity.
Defined.

(** After [destroy()] the same arrival moves the marker, stores the value
    and logs the error; the search box keeps its text. *)
Example commit_after_destroy :
  _marker (widget (@step Sample.runtime (PlaceResolved 2 (Some new_york))
                     destroyed_during_commit))
    = Some {| position := Some new_york |} /\
  value (widget (@step Sample.runtime (PlaceResolved 2 (Some new_york))
                   destroyed_during_commit)) = VString "40,-73" /\
  textbox (widget (@step Sample.runtime (PlaceResolved 2 (Some new_york))
                     destroyed_during_commit)) = "" /\
  console_error (widget (@step Sample.runtime (PlaceResolved 2 (Some new_york))
                           destroyed_during_commit)) = [select_error_message].
Proof. vm_compute. repeat split. Qed.

(** X11 at work: the clear icon on the editor that shows New York. *)
Lemma clear_action_resets_witness :
  _marker (widget (@step Sample.runtime ClearClick delimited_picked)) = None.
Proof.
  refine (proj1 (proj2 (@clear_action_resets Sample.runtime delimited_picked _ _))).
  - vm_compute. reflexivity.
  - vm_compute. reflexivity.
Defined.

(** ** The dropdown and the suggestion list *)

Lemma dropdown_inv_ext w w' :
  _suggestionsDropdown w' = _suggestionsDropdown w ->
  _suggestions w' = _suggestions w ->
  _selectedSuggestionIndex w' = _selectedSuggestionIndex w ->
  attached w' = attached w ->
  dropdown_inv w -> dropdown_inv w'.
Proof. unfold dropdown_inv. intros -> -> -> ->. exact (fun H => H). Qed.

Lemma dropdown_inv_form_only w w' : form_only w w' -> dropdown_inv w -> dropdown_inv w'.
Proof.
  intros H. pose proof (form_only_attached _ _ H) as Ha. apply form_only_fields in H.
  destruct H as (_ & _ & _ & _ & _ & Hs & Hd & Hi & _).
  apply dropdown_inv_ext; assumption.
Qed.

Lemma dropdown_inv_hide w : dropdown_inv w -> dropdown_inv (_hideSuggestionsDropdown w).
Proof.
  unfold dropdown_inv, _hideSuggestionsDropdown.
  destruct (_suggestionsDropdown w) as [d|] eqn:E; simpl; [|rewrite E; exact (fun H => H)].
  intros Hinv [Ha | Hd]; [|discriminate].
  destruct (Hinv (or_introl Ha)) as (Hl & _). split; [exact Hl | discriminate].
Qed.

Lemma nth_error_shown_items (l : list Suggestion) i label selected :
  nth_error (List.map (fun s => (text s, false)) l) i = Some (label, selected) ->
  selected = false.
Proof.
  revert i. induction l as [|x l IH]; intros [|i]; simpl; try discriminate.
  - intros H. injection H as _ <-. reflexivity.
  - apply IH.
Qed.

(** After the arrival of an answer, shown or not. *)
Lemma dropdown_inv_answer l w :
  dropdown_inv
    match _showSuggestionsDropdown l (set_suggestions (Some l) w) with
    | Returned w => w
    | Thrown w => set_console_error (console_error w ++ [fetch_error_message]) w
    end.
Proof.
  assert (Hmap : List.map fst (List.map (fun s => (text s, false)) l) = List.map text l).
  { rewrite map_map. reflexivity. }
  assert (Hshown : forall w0 : Widget,
    dropdown_inv
      (match l with
       | [] => _hideSuggestionsDropdown
                 (set_selectedSuggestionIndex (-1)%Z
                    (set_suggestionsDropdown
                       (Some {| display := match _suggestionsDropdown w0 with
                                           | Some d => display d
                                           | None => false
                                           end;
                                items := [] |}) (set_suggestions (Some l) w0)))
       | _ :: _ =>
           set_suggestionsDropdown
             (Some {| display := true;
                      items := List.map (fun s => (text s, false)) l |})
             (set_selectedSuggestionIndex (-1)%Z
                (set_suggestionsDropdown
                   (Some {| display := match _suggestionsDropdown w0 with
                                       | Some d => display d
                                       | None => false
                                       end;
                            items := [] |}) (set_suggestions (Some l) w0)))
       end)).
  { intros w0. unfold dropdown_inv, _hideSuggestionsDropdown.
    destruct l as [|x l]; simpl; intros _.
    - split; [exists nil; split; reflexivity | discriminate].
    - split; [exists (x :: l); split; [reflexivity | exact Hmap]|].
      intros _. split; [left; reflexivity|].
      intros i label selected Hn.
      rewrite (nth_error_shown_items (x :: l) i label selected Hn).
      symmetry. apply Z.eqb_neq. lia. }
  unfold _showSuggestionsDropdown, _createSuggestionsDropdown.
  cbn [_suggestionsDropdown set_suggestions].
  destruct (_suggestionsDropdown w) as [d|] eqn:E.
  - cbn [_suggestionsDropdown set_suggestions]. rewrite E.
    specialize (Hshown w). rewrite E in Hshown. exact Hshown.
  - cbn [attached set_suggestionsDropdown set_suggestions].
    destruct (attached w) eqn:Ea.
    + specialize (Hshown (set_suggestionsDropdown (Some {| display := false; items := [] |}) w)).
      exact Hshown.
    + unfold dropdown_inv. simpl. rewrite Ea. intros [H | H]; discriminate.
Qed.

Lemma highlighted_items_labels index a (l : list (string * bool)) :
  List.map fst
    (List.map (fun '(i, (label, _)) => (label, (i =? index)%nat))
              (List.combine (List.seq a (length l)) l))
  = List.map fst l.
Proof.
  revert a. induction l as [|[label sel] l IH]; intros a; [reflexivity|].
  simpl. rewrite IH. reflexivity.
Qed.

Lemma highlighted_items_length index a (l : list (string * bool)) :
  length (List.map (fun '(i, (label, _)) => (label, (i =? index)%nat))
                   (List.combine (List.seq a (length l)) l))
  = length l.
Proof.
  rewrite <- (length_map fst), highlighted_items_labels. apply length_map.
Qed.

Lemma highlighted_items_flag index a (l : list (string * bool)) i label selected :
  nth_error (List.map (fun '(i, (label, _)) => (label, (i =? index)%nat))
                      (List.combine (List.seq a (length l)) l)) i
  = Some (label, selected) ->
  selected = (a + i =? index)%nat.
Proof.
  revert a i. induction l as [|[lab sel] l IH]; intros a [|i]; simpl; try discriminate.
  - intros H. injection H as _ <-. rewrite Nat.add_0_r. reflexivity.
  - intros H. rewrite (IH _ _ H). f_equal. lia.
Qed.

Lemma dropdown_inv_highlight index w :
  item_shown index w = true ->
  dropdown_inv w -> dropdown_inv (_highlightSuggestion index w).
Proof.
  unfold item_shown, dropdown_inv, _highlightSuggestion.
  destruct (_suggestionsDropdown w) as [d|] eqn:E; [|discriminate].
  intros Hshown Hinv.
  apply andb_prop in Hshown. destruct Hshown as (Hdisp & Hlt).
  destruct (Hinv (or_intror Hdisp)) as ((l & Hl & Hlabels) & _).
  apply Nat.ltb_lt in Hlt. simpl. intros _.
  split.
  - exists l. split; [exact Hl|]. rewrite highlighted_items_labels. exact Hlabels.
  - intros _. rewrite highlighted_items_length. split; [right; lia|].
    intros i label selected Hn.
    rewrite (highlighted_items_flag _ _ _ _ _ _ Hn). simpl.
    destruct (Nat.eqb_spec i index) as [->|Hne].
    + symmetry. apply Z.eqb_refl.
    + symmetry. apply Z.eqb_neq. lia.
Qed.

Section Dropdown.

Context {rt : Runtime}.

Lemma fetch_request_dropdown text s :
  _suggestionsDropdown (widget (fetch_request text s)) = _suggestionsDropdown (widget s) /\
  _suggestions (widget (fetch_request text s)) = _suggestions (widget s) /\
  _selectedSuggestionIndex (widget (fetch_request text s))
    = _selectedSuggestionIndex (widget s) /\
  attached (widget (fetch_request text s)) = attached (widget s).
Proof. unfold fetch_request. destruct (_sessionToken (widget s)); repeat split. Qed.

Lemma _fetchAutocompleteSuggestions_dropdown_inv text s :
  dropdown_inv (widget s) -> dropdown_inv (widget (_fetchAutocompleteSuggestions text s)).
Proof.
  intros H. unfold _fetchAutocompleteSuggestions.
  destruct (String.eqb text ""); [apply dropdown_inv_hide, H|].
  simpl. destruct (_placesLibrary (widget s)); [|exact H].
  match goal with
  | |- dropdown_inv (widget (fetch_request text ?s1)) =>
      destruct (fetch_request_dropdown text s1) as (Hd & Hs & Hi & Ha);
      apply (dropdown_inv_ext _ _ Hd Hs Hi Ha)
  end.
  exact H.
Qed.

Lemma fold_fetch_dropdown_inv l s :
  dropdown_inv (widget s) ->
  dropdown_inv
    (widget (fold_left (fun s t => _fetchAutocompleteSuggestions (callback_input t) s) l s)).
Proof.
  revert s. induction l as [|t l IH]; intros s H; [exact H|].
  simpl. apply IH, _fetchAutocompleteSuggestions_dropdown_inv, H.
Qed.

Lemma destroy_dropdown s : _suggestionsDropdown (widget (destroy s)) = None.
Proof.
  unfold destroy.
  destruct (handle_truthy _); simpl;
    destruct (_suggestionsDropdown (widget s)) eqn:E; simpl; rewrite ?E; reflexivity.
Qed.

Lemma dropdown_inv_step e s :
  dropdown_inv (widget s) -> dropdown_inv (widget (step e s)).
Proof.
  intros Hinv.
  assert (Hdes : dropdown_inv (widget (destroy s)))
    by (unfold dropdown_inv; rewrite destroy_dropdown; exact I).
  destruct e as [ |v| |key|ms|k|k|k l|k|i|i|k l|k|l|o| | ]; [simpl .. | exact Hdes].
  - exact Hinv.
  - apply (dropdown_inv_form_only _ _ (_setValueAttr_call_form_only v (widget s))), Hinv.
  - destruct (scriptLoadedSignal _); [|exact Hinv].
    simpl. unfold on_script_loaded.
    apply (dropdown_inv_ext (_refreshMarkerLocation (_createGoogleMapsElement (widget s))));
      try reflexivity.
    apply (dropdown_inv_form_only (_createGoogleMapsElement (widget s)));
      [apply surface_form_only, _refreshMarkerLocation_surface|].
    unfold _createGoogleMapsElement. simpl.
    destruct (readOnly _); exact Hinv.
  - destruct (keyupHandler _); [|exact Hinv].
    unfold on_keyup, setTimeout. destruct (handle_truthy _); exact Hinv.
  - unfold elapse. apply fold_fetch_dropdown_inv. exact Hinv.
  - unfold on_import_resolved. destruct (lookup _ _); [|exact Hinv].
    match goal with
    | |- dropdown_inv (widget (fetch_request ?x ?s1)) =>
        destruct (fetch_request_dropdown x s1) as (Hd & Hs & Hi & Ha);
        apply (dropdown_inv_ext _ _ Hd Hs Hi Ha)
    end.
    exact Hinv.
  - unfold on_import_rejected. destruct (lookup _ _); exact Hinv.
  - unfold on_suggestions_resolved. destruct (lookup _ _); [|exact Hinv].
    apply dropdown_inv_answer.
  - unfold on_suggestions_rejected. destruct (lookup _ _); exact Hinv.
  - destruct (item_shown _ _); [|exact Hinv].
    unfold _selectSuggestion. destruct (_suggestions _); [|exact Hinv].
    destruct (_ <=? _)%nat; exact Hinv.
  - destruct (item_shown i (widget s)) eqn:Es; [|exact Hinv].
    apply dropdown_inv_highlight; assumption.
  - destruct (existsb (Nat.eqb k) (details (browser s))) eqn:Ep;
      [|unfold on_place_resolved; rewrite Ep; exact Hinv].
    destruct l as [l|]; [|unfold on_place_resolved; rewrite Ep; exact Hinv].
    destruct (on_place_resolved_cases k l s Ep) as [(_ & ->) | (_ & H)];
      [|apply (dropdown_inv_form_only _ _ H), Hinv].
    apply dropdown_inv_hide.
    apply (dropdown_inv_ext
             (_setCoordinatesValue (Some (new_LatLng (lat l) (lng l)))
                (_setMapLocation (new_LatLng (lat l) (lng l)) (Some 15%Z) true false
                   (widget s)))); try reflexivity.
    apply (dropdown_inv_form_only _ _ (_setCoordinatesValue_form_only _ _)).
    apply (dropdown_inv_form_only _ _
             (surface_form_only _ _ (_setMapLocation_surface _ _ _ _ _))).
    exact Hinv.
  - unfold on_place_rejected. destruct (existsb _ _); exact Hinv.
  - destruct (rightClickHandler _); [|exact Hinv].
    apply (dropdown_inv_form_only _ _ (on_rightclick_form_only l (widget s))), Hinv.
  - destruct (documentClickHandler _ && o); [|exact Hinv].
    destruct (_suggestionsDropdown (widget s)) eqn:E; [|exact Hinv].
    apply dropdown_inv_hide, Hinv.
  - destruct (clearHandler _); [|exact Hinv].
    simpl. unfold _clearCoordinates.
    apply (dropdown_inv_form_only _ _ (_setCoordinatesValue_form_only _ _)).
    assert (H1 : dropdown_inv (_hideSuggestionsDropdown (set_searchTextbox "" (widget s)))).
    { apply dropdown_inv_hide. exact Hinv. }
    destruct (_marker _); exact H1.
Qed.

Lemma reachable_dropdown_inv s : reachable s -> dropdown_inv (widget s).
Proof.
  intros Hr. induction Hr as [cfg | e s _ IH]; [exact I|].
  apply dropdown_inv_step, IH.
Qed.

(** X12: in every state the widget reaches, the dropdown of a widget that
    has not been destroyed, and a dropdown that is displayed, lists the
    texts of the current suggestion list, item by item (each text is the
    [innerHTML] of its item); while it is displayed, the highlighted index
    is -1 or the index of one of its items, and the class [selected] is on
    the item at that index and on no other.  (After [destroy()] the first
    answer that arrives leaves a hidden list that was never filled; see
    C1.) *)
Theorem dropdown_follows_suggestions (s : System) (d : Dropdown) :
  reachable s ->
  _suggestionsDropdown (widget s) = Some d ->
  attached (widget s) = true \/ display d = true ->
  (exists l, _suggestions (widget s) = Some l /\
             List.map fst (items d) = List.map text l) /\
  (display d = true ->
   (_selectedSuggestionIndex (widget s) = (-1)%Z \/
    (0 <= _selectedSuggestionIndex (widget s) < Z.of_nat (length (items d)))%Z) /\
   forall i label selected,
     nth_error (items d) i = Some (label, selected) ->
     selected = (Z.of_nat i =? _selectedSuggestionIndex (widget s))%Z).
Proof.
  intros Hr Hd Hlive.
  pose proof (reachable_dropdown_inv s Hr) as Hinv.
  unfold dropdown_inv in Hinv. rewrite Hd in Hinv. exact (Hinv Hlive).
Qed.

(** X13: in every state the widget reaches, a click on a displayed
    suggestion starts the fetch of the details of its place: the bounds check
    of [_selectSuggestion] never turns it down.  Nothing of the widget
    changes before the details arrive. *)
Theorem shown_item_click_starts_fetch (s : System) (index : nat) :
  reachable s ->
  item_shown index (widget s) = true ->
  details (browser (step (ItemClick index) s))
    = (details (browser s) ++ [next_task (browser s)])%list /\
  widget (step (ItemClick index) s) = widget s.
Proof.
  intros Hr Hshown. simpl. rewrite Hshown.
  unfold item_shown in Hshown.
  destruct (_suggestionsDropdown (widget s)) as [d|] eqn:Ed; [|discriminate].
  pose proof (reachable_dropdown_inv s Hr) as Hinv.
  unfold dropdown_inv in Hinv. rewrite Ed in Hinv.
  apply andb_prop in Hshown. destruct Hshown as (Hdisp & Hlt). apply Nat.ltb_lt in Hlt.
  destruct (Hinv (or_intror Hdisp)) as ((l & Hl & Hlabels) & _).
  assert (Hlen : length l = length (items d)).
  { rewrite <- (length_map text l), <- Hlabels. apply length_map. }
  unfold _selectSuggestion. rewrite Hl.
  destruct (Nat.leb_spec (length l) index); [lia|].
  split; reflexivity.
Qed.

End Dropdown.

(** ** The answers to searches *)

Section Answers.

Context {rt : Runtime}.

Lemma fold_fetch_suggestions l s :
  _suggestions
    (widget (fold_left (fun s t => _fetchAutocompleteSuggestions (callback_input t) s) l s))
  = _suggestions (widget s).
Proof.
  revert s. induction l as [|t l IH]; intros s; [reflexivity|].
  simpl. rewrite IH. unfold _fetchAutocompleteSuggestions.
  destruct (String.eqb (callback_input t) "").
  - apply _hideSuggestionsDropdown_fields.
  - simpl. destruct (_placesLibrary (widget s)); [|reflexivity].
    match goal with
    | |- context [fetch_request ?x ?s1] =>
        destruct (fetch_request_dropdown x s1) as (_ & -> & _)
    end.
    reflexivity.
Qed.

(** No event but the arrival of an answer and [destroy()] writes the
    suggestion list. *)
Lemma step_keeps_suggestions e s :
  is_answer e = false -> is_destroy e = false ->
  _suggestions (widget (step e s)) = _suggestions (widget s).
Proof.
  intros Ha Hd.
  destruct e as [ |v| |key|ms|k|k|k l|k|i|i|k l|k|l|o| | ]; try discriminate; simpl.
  - reflexivity.
  - apply (form_only_fields _ _ (_setValueAttr_call_form_only v (widget s))).
  - destruct (scriptLoadedSignal _); [|reflexivity].
    simpl. unfold on_script_loaded. simpl.
    destruct (surface_fields _ _ (_refreshMarkerLocation_surface
                (_createGoogleMapsElement (widget s)))) as (_ & _ & _ & _ & _ & -> & _).
    unfold _createGoogleMapsElement. simpl. destruct (readOnly _); reflexivity.
  - destruct (keyupHandler _); [|reflexivity].
    unfold on_keyup, setTimeout. destruct (handle_truthy _); reflexivity.
  - unfold elapse. rewrite fold_fetch_suggestions. reflexivity.
  - unfold on_import_resolved. destruct (lookup _ _); [|reflexivity].
    match goal with
    | |- context [fetch_request ?x ?s1] =>
        destruct (fetch_request_dropdown x s1) as (_ & -> & _)
    end.
    reflexivity.
  - unfold on_import_rejected. destruct (lookup _ _); reflexivity.
  - unfold on_suggestions_rejected. destruct (lookup _ _); reflexivity.
  - destruct (item_shown _ _); [|reflexivity].
    unfold _selectSuggestion. destruct (_suggestions (widget s)) eqn:Es; [|exact Es].
    destruct (_ <=? _)%nat; [exact Es|simpl; exact Es].
  - destruct (item_shown _ _); [|reflexivity].
    simpl. unfold _highlightSuggestion. destruct (_suggestionsDropdown _); reflexivity.
  - destruct (existsb (Nat.eqb k) (details (browser s))) eqn:Ep;
      [|unfold on_place_resolved; rewrite Ep; reflexivity].
    destruct l as [l|]; [|unfold on_place_resolved; rewrite Ep; reflexivity].
    destruct (on_place_resolved_cases k l s Ep) as [(_ & ->) | (_ & H)];
      [|apply (form_only_fields _ _ H)].
    destruct (_hideSuggestionsDropdown_fields
                (set_searchTextbox ""
                   (_setCoordinatesValue (Some (new_LatLng (lat l) (lng l)))
                      (_setMapLocation (new_LatLng (lat l) (lng l)) (Some 15%Z) true false
                         (widget s))))) as (_ & _ & _ & -> & _).
    cbn [_suggestions set_searchTextbox].
    destruct (form_only_fields _ _ (_setCoordinatesValue_form_only
                (Some (new_LatLng (lat l) (lng l)))
                (_setMapLocation (new_LatLng (lat l) (lng l)) (Some 15%Z) true false
                   (widget s)))) as (_ & _ & _ & _ & _ & -> & _).
    apply (surface_fields _ _ (_setMapLocation_surface _ _ _ _ _)).
  - unfold on_place_rejected. destruct (existsb _ _); reflexivity.
  - destruct (rightClickHandler _); [|reflexivity].
    apply (form_only_fields _ _ (on_rightclick_form_only l (widget s))).
  - destruct (documentClickHandler _ && o); [|reflexivity].
    destruct (_suggestionsDropdown (widget s)); [|reflexivity].
    apply _hideSuggestionsDropdown_fields.
  - destruct (clearHandler _); [|reflexivity].
    apply _clearCoordinates_sessionToken.
Qed.

Lemma run_keeps_suggestions events :
  forall s, forallb (fun e => negb (is_answer e || is_destroy e)) events = true ->
  _suggestions (widget (run events s)) = _suggestions (widget s).
Proof.
  unfold run.
  induction events as [|e events IH]; intros s Hall; [reflexivity|].
  simpl in Hall. apply andb_prop in Hall. destruct Hall as (He & Hall).
  cbn [fold_left]. rewrite (IH _ Hall).
  apply negb_true_iff, orb_false_iff in He. destruct He as (Ha & Hd).
  apply step_keeps_suggestions; assumption.
Qed.

(** C1, amended: the answer to a search in flight is applied when it
    arrives, whatever was issued in the meantime: the suggestion list
    becomes that answer, and no later event but the next answer or
    [destroy()] writes it, so that at every moment the list is the answer that
    arrived last (not the answer to the search issued last: see
    [stale_answer_overwrites]).  On a widget that has not been destroyed, or
    whose dropdown exists, the dropdown then lists the answer, nothing
    highlighted.  On a destroyed widget without a dropdown the list is filled
    all the same, but showing it throws: a hidden, empty dropdown is left,
    the highlighted index is not reset and the error is logged. *)
Theorem suggestions_follow_last_answer (s : System) (task : nat)
    (request : Request) (suggestions : list Suggestion) (rest : list Event) :
  lookup task (requests (browser s)) = Some request ->
  _suggestions (widget (step (SuggestionsResolved task suggestions) s)) = Some suggestions /\
  (forallb (fun e => negb (is_answer e || is_destroy e)) rest = true ->
   _suggestions (widget (run rest (step (SuggestionsResolved task suggestions) s)))
   = Some suggestions) /\
  (attached (widget s) = true \/ _suggestionsDropdown (widget s) <> None ->
   _suggestionsDropdown (widget (step (SuggestionsResolved task suggestions) s))
     = Some {| display := negb (length suggestions =? 0)%nat;
               items := List.map (fun x => (text x, false)) suggestions |} /\
   _selectedSuggestionIndex (widget (step (SuggestionsResolved task suggestions) s))
     = (-1)%Z /\
   console_error (widget (step (SuggestionsResolved task suggestions) s))
     = console_error (widget s)) /\
  (attached (widget s) = false -> _suggestionsDropdown (widget s) = None ->
   _suggestionsDropdown (widget (step (SuggestionsResolved task suggestions) s))
     = Some {| display := false; items := [] |} /\
   _selectedSuggestionIndex (widget (step (SuggestionsResolved task suggestions) s))
     = _selectedSuggestionIndex (widget s) /\
   console_error (widget (step (SuggestionsResolved task suggestions) s))
     = (console_error (widget s) ++ [fetch_error_message])%list).
Proof.
  intros Hl.
  change (step (SuggestionsResolved task suggestions) s)
    with (on_suggestions_resolved task suggestions s).
  assert (H1 : _suggestions (widget (on_suggestions_resolved task suggestions s))
               = Some suggestions).
  { rewrite (on_suggestions_resolved_widget _ _ _ _ Hl).
    unfold _showSuggestionsDropdown, _createSuggestionsDropdown, _hideSuggestionsDropdown.
    cbn [_suggestionsDropdown set_suggestions].
    destruct (_suggestionsDropdown (widget s)); [destruct suggestions; reflexivity|].
    cbn [attached set_suggestionsDropdown set_suggestions].
    destruct (attached (widget s)); destruct suggestions; reflexivity. }
  split; [exact H1|].
  split; [intros Hall; rewrite (run_keeps_suggestions rest _ Hall); exact H1|].
  rewrite (on_suggestions_resolved_widget _ _ _ _ Hl).
  unfold _showSuggestionsDropdown, _createSuggestionsDropdown, _hideSuggestionsDropdown.
  cbn [_suggestionsDropdown set_suggestions].
  split.
  - intros Hlive.
    destruct (_suggestionsDropdown (widget s)) as [d|] eqn:Ed.
    + destruct suggestions; repeat split.
    + destruct Hlive as [Ha | Hd]; [|congruence].
      cbn [attached set_suggestionsDropdown set_suggestions]. rewrite Ha.
      destruct suggestions; repeat split.
  - intros Ha Hd. rewrite Hd.
    cbn [attached set_suggestionsDropdown set_suggestions]. rewrite Ha.
    repeat split.
Qed.

End Answers.

(** C1 at work: the answer to the later search arrives while the earlier
    one is still in flight; the pointer, a keystroke and a pause follow. *)
Lemma suggestions_follow_last_answer_witness :
  _suggestions
    (widget (@run Sample.runtime [ItemMouseEnter 0; Keyup "abc"; Elapse 100]
               (@step Sample.runtime (SuggestionsResolved 2 suggestions_ab)
                  two_searches_in_flight)))
  = Some suggestions_ab.
Proof.
  refine (proj1 (proj2 (@suggestions_follow_last_answer Sample.runtime
                   two_searches_in_flight 2
                   {| input := "ab"; sessionToken := Some 0; origin := _ |}
                   suggestions_ab [ItemMouseEnter 0; Keyup "abc"; Elapse 100] _))
            eq_refl).
  vm_compute. reflexivity.
Defined.

(** After [destroy()] the answer still fills the list; no list is shown and
    the error is logged.  A second answer finds the dropdown and fills it. *)
Example answer_after_destroy :
  _suggestions (widget (@step Sample.runtime (SuggestionsResolved 1 suggestions_a)
                          destroyed_during_search)) = Some suggestions_a /\
  _suggestionsDropdown (widget (@step Sample.runtime (SuggestionsResolved 1 suggestions_a)
                                  destroyed_during_search))
    = Some {| display := false; items := [] |} /\
  console_error (widget (@step Sample.runtime (SuggestionsResolved 1 suggestions_a)
                           destroyed_during_search)) = [fetch_error_message].
Proof. vm_compute. repeat split. Qed.

(** X12 at work: the dropdown after the answer to the search for "a". *)
Lemma dropdown_follows_suggestions_witness :
  exists l, _suggestions (widget suggestions_shown) = Some l /\
    List.map fst (items {| display := true;
                           items := [("Amsterdam", false); ("Athens", false)] |})
    = List.map text l.
Proof.
  refine (proj1 (@dropdown_follows_suggestions Sample.runtime suggestions_shown
                   {| display := true;
                      items := [("Amsterdam", false); ("Athens", false)] |} _ _
                   (or_intror eq_refl))).
  - exact (reachable_step (SuggestionsResolved 1 suggestions_a) _
             (reachable_step (ImportResolved 0) _
                (reachable_step (Elapse 200) _
                   (reachable_step (Keyup "a") _
                      (reachable_step ScriptLoaded _
                         (reachable_step Startup _
                            (reachable_postCreate delimited_config))))))).
  - vm_compute. reflexivity.
Defined.

(** X13 at work: a click on the first suggestion. *)
Lemma shown_item_click_starts_fetch_witness :
  details (browser (@step Sample.runtime (ItemClick 0) suggestions_shown))
  = (details (browser suggestions_shown) ++ [next_task (browser suggestions_shown)])%list.
Proof.
  refine (proj1 (@shown_item_click_starts_fetch Sample.runtime suggestions_shown 0 _ _)).
  - exact (reachable_step (SuggestionsResolved 1 suggestions_a) _
             (reachable_step (ImportResolved 0) _
                (reachable_step (Elapse 200) _
                   (reachable_step (Keyup "a") _
                      (reachable_step ScriptLoaded _
                         (reachable_step Startup _
                            (reachable_postCreate delimited_config))))))).
  - vm_compute. reflexivity.
Defined.

(** ** Requests and session tokens *)

Lemma In_remove_key {A} k (l : list (nat * A)) x : In x (remove_key k l) -> In x l.
Proof. unfold remove_key. intros H. apply filter_In in H. apply H. Qed.

Lemma lookup_In {A} k (l : list (nat * A)) a : lookup k l = Some a -> In (k, a) l.
Proof.
  induction l as [|[k' a'] l IH]; simpl; [discriminate|].
  destruct (Nat.eqb_spec k' k) as [->|Hne].
  - intros H. injection H as ->. left. reflexivity.
  - intros H. right. apply IH, H.
Qed.

(** [tokens s s']: from [s] to [s'] the session token and the token counter
    are the same and no search or request was added. *)
Lemma requests_inv_quiet s s' :
  _sessionToken (widget s') = _sessionToken (widget s) ->
  next_token (browser s') = next_token (browser s) ->
  (forall x, In x (imports (browser s')) -> In x (imports (browser s))) ->
  (forall x, In x (requests (browser s')) -> In x (requests (browser s))) ->
  requests_inv s -> requests_inv s'.
Proof.
  intros Ht Hn Hi Hr (I1 & I2 & I3). unfold requests_inv. rewrite Ht, Hn.
  split; [exact I1|]. split.
  - intros k text H. apply (I2 k), Hi, H.
  - intros k r H. apply (I3 k), Hr, H.
Qed.

Lemma requests_inv_fetch_request text s :
  text <> "" ->
  requests_inv s -> requests_inv (fetch_request text s).
Proof.
  intros Htext (I1 & I2 & I3). unfold requests_inv.
  assert (Hi : imports (browser (fetch_request text s)) = imports (browser s)).
  { unfold fetch_request. destruct (_sessionToken (widget s)); reflexivity. }
  rewrite Hi. split; [|split; [exact I2|]].
  - unfold fetch_request. destruct (_sessionToken (widget s)) as [t|] eqn:Et; simpl.
    + rewrite Et. exact I1.
    + intros t H. injection H as <-. lia.
  - unfold fetch_request. destruct (_sessionToken (widget s)) as [t|] eqn:Et; simpl.
    + rewrite Et. intros k r H. apply in_app_or in H. destruct H as [H | [H | []]].
      * apply (I3 k r H).
      * injection H as _ <-. simpl. split; [exact Htext|].
        exists t. split; [reflexivity | apply I1; reflexivity].
    + intros k r H. apply in_app_or in H. destruct H as [H | [H | []]].
      * destruct (I3 k r H) as (Hne & t & Hs & Hlt).
        split; [exact Hne|]. exists t. split; [exact Hs | lia].
      * injection H as _ <-. simpl. split; [exact Htext|].
        exists (next_token (browser s)). split; [reflexivity | lia].
Qed.

Lemma requests_inv_fetch text s :
  requests_inv s -> requests_inv (_fetchAutocompleteSuggestions text s).
Proof.
  intros Hinv. unfold _fetchAutocompleteSuggestions.
  destruct (String.eqb_spec text "") as [->|Hne].
  - apply (requests_inv_quiet s); try reflexivity; try (intros x H; exact H); [|exact Hinv].
    simpl. unfold _hideSuggestionsDropdown.
    destruct (_suggestionsDropdown (widget s)); reflexivity.
  - simpl. destruct (_placesLibrary (widget s)).
    + apply requests_inv_fetch_request; [exact Hne|].
      apply (requests_inv_quiet s); try reflexivity; try (intros x H; exact H). exact Hinv.
    + destruct Hinv as (I1 & I2 & I3). split; [exact I1|]. split; [|exact I3].
      simpl. intros k text' H. apply in_app_or in H. destruct H as [H | [H | []]].
      * apply (I2 k), H.
      * injection H as _ <-. exact Hne.
Qed.

Lemma requests_inv_fold l s :
  requests_inv s ->
  requests_inv (fold_left (fun s t => _fetchAutocompleteSuggestions (callback_input t) s) l s).
Proof.
  revert s. induction l as [|t l IH]; intros s H; [exact H|].
  simpl. apply IH, requests_inv_fetch, H.
Qed.

Lemma _showSuggestionsDropdown_sessionToken l w :
  _sessionToken (after (_showSuggestionsDropdown l w)) = _sessionToken w.
Proof.
  unfold _showSuggestionsDropdown, _createSuggestionsDropdown, _hideSuggestionsDropdown.
  destruct (_suggestionsDropdown w); [destruct l; reflexivity|].
  simpl. destruct (attached w); destruct l; reflexivity.
Qed.

Lemma answer_sessionToken l w :
  _sessionToken
    match _showSuggestionsDropdown l (set_suggestions (Some l) w) with
    | Returned w => w
    | Thrown w => set_console_error (console_error w ++ [fetch_error_message]) w
    end
  = _sessionToken w.
Proof.
  pose proof (_showSuggestionsDropdown_sessionToken l (set_suggestions (Some l) w)) as H.
  destruct (_showSuggestionsDropdown l (set_suggestions (Some l) w)); exact H.
Qed.

(** Closes the goals of [requests_inv_quiet] that hold by computation; [tac]
    is tried on the equation of the session token. *)
Ltac quiet s tac :=
  apply (requests_inv_quiet s);
  [ first [reflexivity | tac | idtac]
  | reflexivity
  | let x := fresh "x" in let H := fresh "H" in
    intros x H; first [exact H | exact (In_remove_key _ _ _ H)]
  | let x := fresh "x" in let H := fresh "H" in
    intros x H; first [exact H | exact (In_remove_key _ _ _ H)]
  | assumption ].

Section Requests.

Context {rt : Runtime}.

Lemma on_place_resolved_sessionToken task place_location s :
  _sessionToken (widget (on_place_resolved task place_location s))
  = _sessionToken (widget s).
Proof.
  destruct (existsb (Nat.eqb task) (details (browser s))) eqn:Ep;
    [|unfold on_place_resolved; rewrite Ep; reflexivity].
  destruct place_location as [l|]; [|unfold on_place_resolved; rewrite Ep; reflexivity].
  destruct (on_place_resolved_cases task l s Ep) as [(_ & ->) | (_ & H)];
    [|apply (form_only_fields _ _ H)].
  destruct (_hideSuggestionsDropdown_fields
              (set_searchTextbox ""
                 (_setCoordinatesValue (Some (new_LatLng (lat l) (lng l)))
                    (_setMapLocation (new_LatLng (lat l) (lng l)) (Some 15%Z) true false
                       (widget s))))) as (_ & _ & -> & _).
  cbn [_sessionToken set_searchTextbox].
  destruct (form_only_fields _ _ (_setCoordinatesValue_form_only
              (Some (new_LatLng (lat l) (lng l)))
              (_setMapLocation (new_LatLng (lat l) (lng l)) (Some 15%Z) true false
                 (widget s)))) as (_ & _ & _ & _ & -> & _).
  apply (surface_fields _ _ (_setMapLocation_surface _ _ _ _ _)).
Qed.

Lemma on_place_resolved_browser task place_location s :
  next_token (browser (on_place_resolved task place_location s)) = next_token (browser s) /\
  imports (browser (on_place_resolved task place_location s)) = imports (browser s) /\
  requests (browser (on_place_resolved task place_location s)) = requests (browser s) /\
  timers (browser (on_place_resolved task place_location s)) = timers (browser s).
Proof.
  unfold on_place_resolved.
  destruct (existsb (Nat.eqb task) (details (browser s))); [|repeat split].
  destruct place_location; repeat split.
Qed.

Lemma requests_inv_step e s : requests_inv s -> requests_inv (step e s).
Proof.
  intros Hinv.
  destruct e as [ |v| |key|ms|k|k|k l|k|i|i|k l|k|l|o| | ]; simpl.
  - quiet s idtac.
  - quiet s ltac:(apply (form_only_fields _ _ (_setValueAttr_call_form_only v (widget s)))).
  - destruct (scriptLoadedSignal _); [|exact Hinv].
    quiet s idtac.
    simpl. unfold on_script_loaded. simpl.
    destruct (surface_fields _ _ (_refreshMarkerLocation_surface
                (_createGoogleMapsElement (widget s)))) as (_ & _ & _ & _ & -> & _).
    unfold _createGoogleMapsElement. simpl. destruct (readOnly _); reflexivity.
  - destruct (keyupHandler _); [|exact Hinv].
    assert (Hk : _sessionToken (widget (on_keyup key s)) = _sessionToken (widget s) /\
                 next_token (browser (on_keyup key s)) = next_token (browser s) /\
                 imports (browser (on_keyup key s)) = imports (browser s) /\
                 requests (browser (on_keyup key s)) = requests (browser s)).
    { unfold on_keyup, setTimeout, clearTimeout.
      destruct (handle_truthy _); [destruct (_typingTimer (widget s))|]; repeat split. }
    destruct Hk as (Ha & Hb & Hc & Hd).
    apply (requests_inv_quiet s);
      [exact Ha | exact Hb | rewrite Hc; exact (fun x H => H)
       | rewrite Hd; exact (fun x H => H) | exact Hinv].
  - unfold elapse. apply requests_inv_fold. quiet s idtac.
  - unfold on_import_resolved. destruct (lookup k (imports (browser s))) as [text|] eqn:El;
      [|exact Hinv].
    apply requests_inv_fetch_request.
    + destruct Hinv as (_ & I2 & _). apply (I2 k). apply lookup_In, El.
    + quiet s idtac.
  - unfold on_import_rejected. destruct (lookup _ _); [|exact Hinv]. quiet s idtac.
  - unfold on_suggestions_resolved. destruct (lookup _ _); [|exact Hinv].
    quiet s ltac:(unfold on_widget, on_browser; cbn [widget];
                  apply answer_sessionToken).
  - unfold on_suggestions_rejected. destruct (lookup _ _); [|exact Hinv]. quiet s idtac.
  - destruct (item_shown _ _); [|exact Hinv].
    unfold _selectSuggestion. destruct (_suggestions _); [|exact Hinv].
    destruct (_ <=? _)%nat; [exact Hinv|]. quiet s idtac.
  - destruct (item_shown _ _); [|exact Hinv].
    quiet s ltac:(simpl; unfold _highlightSuggestion;
                  destruct (_suggestionsDropdown _); reflexivity).
  - destruct (on_place_resolved_browser k l s) as (Hn & Hi & Hq & _).
    apply (requests_inv_quiet s);
      [apply on_place_resolved_sessionToken | exact Hn
       | rewrite Hi; exact (fun x H => H) | rewrite Hq; exact (fun x H => H) | exact Hinv].
  - unfold on_place_rejected. destruct (existsb _ _); [|exact Hinv]. quiet s idtac.
  - destruct (rightClickHandler _); [|exact Hinv].
    quiet s ltac:(apply (form_only_fields _ _ (on_rightclick_form_only l (widget s)))).
  - destruct (documentClickHandler _ && o); [|exact Hinv].
    destruct (_suggestionsDropdown (widget s)) eqn:E; [|exact Hinv].
    quiet s ltac:(apply _hideSuggestionsDropdown_fields).
  - destruct (clearHandler _); [|exact Hinv].
    quiet s ltac:(apply _clearCoordinates_sessionToken).
  - change (requests_inv (destroy s)).
    destruct Hinv as (I1 & I2 & I3).
    assert (Hb : next_token (browser (destroy s)) = next_token (browser s) /\
                 imports (browser (destroy s)) = imports (browser s) /\
                 requests (browser (destroy s)) = requests (browser s) /\
                 _sessionToken (widget (destroy s)) = None).
    { unfold destroy, clearTimeout.
      destruct (handle_truthy _); simpl;
        [destruct (_typingTimer (widget s))|];
        destruct (_suggestionsDropdown (widget s)) eqn:E; simpl; rewrite ?E;
        repeat split. }
    destruct Hb as (Hn & Hi & Hq & Ht).
    unfold requests_inv. rewrite Hn, Hi, Hq, Ht.
    split; [discriminate|]. split; assumption.
Qed.

(** X14: in every state the widget reaches, each search that awaits the
    Places library and each request in flight is for a non-empty text, and
    each request carries a session token that was created before it was
    sent: a search for the empty text sends nothing. *)
Theorem requests_carry_text_and_token (s : System) (task : nat) (r : Request) :
  reachable s ->
  In (task, r) (requests (browser s)) ->
  input r <> "" /\
  exists t, sessionToken r = Some t /\ t < next_token (browser s).
Proof.
  intros Hr.
  assert (Hinv : requests_inv s).
  { clear task r. induction Hr as [cfg | e s _ IH]; [|apply requests_inv_step, IH].
    split; [discriminate|]. split; intros k x []. }
  apply Hinv.
Qed.

End Requests.

(** X14 at work: the request for "ab" in flight. *)
Lemma requests_carry_text_and_token_witness :
  input {| input := "ab"; sessionToken := Some 0;
           origin := Some (CNumber 59%float, CNumber 18%float) |} <> "" /\
  exists t,
    sessionToken {| input := "ab"; sessionToken := Some 0;
                    origin := Some (CNumber 59%float, CNumber 18%float) |} = Some t /\
    t < next_token (browser two_searches_in_flight).
Proof.
  refine (@requests_carry_text_and_token Sample.runtime two_searches_in_flight 2
            {| input := "ab"; sessionToken := Some 0;
               origin := Some (CNumber 59%float, CNumber 18%float) |} _ _).
  - exact (reachable_step (Elapse 200) _
             (reachable_step (Keyup "ab") _
                (reachable_step (ImportResolved 0) _
                   (reachable_step (Elapse 200) _
                      (reachable_step (Keyup "a") _
                         (reachable_step ScriptLoaded _
                            (reachable_step Startup _
                               (reachable_postCreate delimited_config)))))))).
  - vm_compute. right. left. reflexivity.
Defined.

Lemma one_token_quiet s s' :
  _sessionToken (widget s') = _sessionToken (widget s) ->
  next_token (browser s') = next_token (browser s) ->
  (forall x, In x (requests (browser s')) -> In x (requests (browser s))) ->
  one_token s -> one_token s'.
Proof.
  intros Ht Hn Hr (I1 & I2). unfold one_token. rewrite Ht, Hn.
  split; [exact I1|].
  apply Forall_forall. intros x H. apply (proj1 (Forall_forall _ _) I2), Hr, H.
Qed.

Lemma one_token_fetch_request text s : one_token s -> one_token (fetch_request text s).
Proof.
  intros (I1 & I2). unfold one_token, fetch_request.
  destruct (_sessionToken (widget s)) as [t|] eqn:Et; simpl.
  - rewrite Et. split; [exact I1|].
    apply Forall_app. split; [exact I2|].
    constructor; [|constructor]. simpl.
    destruct I1 as [(_ & H) | (_ & H)]; congruence.
  - destruct I1 as [(Hn & _) | (_ & H)]; [|discriminate].
    rewrite Hn. split; [right; split; reflexivity|].
    apply Forall_app. split; [exact I2|].
    constructor; [reflexivity | constructor].
Qed.

Lemma one_token_fetch text s :
  one_token s -> one_token (_fetchAutocompleteSuggestions text s).
Proof.
  intros Hinv. unfold _fetchAutocompleteSuggestions.
  destruct (String.eqb text "").
  - apply (one_token_quiet s); try reflexivity; [|exact (fun x H => H) | exact Hinv].
    apply _hideSuggestionsDropdown_fields.
  - simpl. destruct (_placesLibrary (widget s)).
    + apply one_token_fetch_request.
      apply (one_token_quiet s); try reflexivity; [exact (fun x H => H) | exact Hinv].
    + apply (one_token_quiet s); try reflexivity; [exact (fun x H => H) | exact Hinv].
Qed.

Lemma one_token_fold l s :
  one_token s ->
  one_token (fold_left (fun s t => _fetchAutocompleteSuggestions (callback_input t) s) l s).
Proof.
  revert s. induction l as [|t l IH]; intros s H; [exact H|].
  simpl. apply IH, one_token_fetch, H.
Qed.

(** As [quiet], for [one_token_quiet]. *)
Ltac quiet1 s tac :=
  apply (one_token_quiet s);
  [ first [reflexivity | tac | idtac]
  | reflexivity
  | let x := fresh "x" in let H := fresh "H" in
    intros x H; first [exact H | exact (In_remove_key _ _ _ H)]
  | assumption ].

Section One_token.

Context {rt : Runtime}.

Lemma one_token_step e s :
  is_destroy e = false -> one_token s -> one_token (step e s).
Proof.
  intros Hd Hinv.
  destruct e as [ |v| |key|ms|k|k|k l|k|i|i|k l|k|l|o| | ]; try discriminate; simpl.
  - quiet1 s idtac.
  - quiet1 s ltac:(apply (form_only_fields _ _ (_setValueAttr_call_form_only v (widget s)))).
  - destruct (scriptLoadedSignal _); [|exact Hinv].
    quiet1 s idtac.
    simpl. unfold on_script_loaded. simpl.
    destruct (surface_fields _ _ (_refreshMarkerLocation_surface
                (_createGoogleMapsElement (widget s)))) as (_ & _ & _ & _ & -> & _).
    unfold _createGoogleMapsElement. simpl. destruct (readOnly _); reflexivity.
  - destruct (keyupHandler _); [|exact Hinv].
    assert (Hk : _sessionToken (widget (on_keyup key s)) = _sessionToken (widget s) /\
                 next_token (browser (on_keyup key s)) = next_token (browser s) /\
                 requests (browser (on_keyup key s)) = requests (browser s)).
    { unfold on_keyup, setTimeout, clearTimeout.
      destruct (handle_truthy _); [destruct (_typingTimer (widget s))|]; repeat split. }
    destruct Hk as (Ha & Hb & Hc).
    apply (one_token_quiet s);
      [exact Ha | exact Hb | rewrite Hc; exact (fun x H => H) | exact Hinv].
  - unfold elapse. apply one_token_fold. quiet1 s idtac.
  - unfold on_import_resolved. destruct (lookup k (imports (browser s))); [|exact Hinv].
    apply one_token_fetch_request. quiet1 s idtac.
  - unfold on_import_rejected. destruct (lookup _ _); [|exact Hinv]. quiet1 s idtac.
  - unfold on_suggestions_resolved. destruct (lookup _ _); [|exact Hinv].
    quiet1 s ltac:(unfold on_widget, on_browser; cbn [widget];
                   apply answer_sessionToken).
  - unfold on_suggestions_rejected. destruct (lookup _ _); [|exact Hinv]. quiet1 s idtac.
  - destruct (item_shown _ _); [|exact Hinv].
    unfold _selectSuggestion. destruct (_suggestions _); [|exact Hinv].
    destruct (_ <=? _)%nat; [exact Hinv|]. quiet1 s idtac.
  - destruct (item_shown _ _); [|exact Hinv].
    quiet1 s ltac:(simpl; unfold _highlightSuggestion;
                   destruct (_suggestionsDropdown _); reflexivity).
  - destruct (on_place_resolved_browser k l s) as (Hn & _ & Hq & _).
    apply (one_token_quiet s);
      [apply on_place_resolved_sessionToken | exact Hn
       | rewrite Hq; exact (fun x H => H) | exact Hinv].
  - unfold on_place_rejected. destruct (existsb _ _); [|exact Hinv]. quiet1 s idtac.
  - destruct (rightClickHandler _); [|exact Hinv].
    quiet1 s ltac:(apply (form_only_fields _ _ (on_rightclick_form_only l (widget s)))).
  - destruct (documentClickHandler _ && o); [|exact Hinv].
    destruct (_suggestionsDropdown (widget s)) eqn:E; [|exact Hinv].
    quiet1 s ltac:(apply _hideSuggestionsDropdown_fields).
  - destruct (clearHandler _); [|exact Hinv].
    quiet1 s ltac:(apply _clearCoordinates_sessionToken).
Qed.

Lemma one_token_run events :
  forall s, forallb (fun e => negb (is_destroy e)) events = true ->
  one_token s -> one_token (run events s).
Proof.
  induction events as [|e events IH]; intros s Hall Hinv; [exact Hinv|].
  simpl in Hall. apply andb_prop in Hall. destruct Hall as (He & Hall).
  change (run (e :: events) s) with (run events (step e s)).
  apply IH; [exact Hall|]. apply one_token_step; [|exact Hinv].
  destruct (is_destroy e); [discriminate | reflexivity].
Qed.

(** X15: an editor that is not destroyed creates at most one session token:
    whatever is typed, picked, committed or cleared, every request in
    flight carries the token created for the first search. *)
Theorem one_session_token_until_destroy (cfg : Config) (events : list Event) :
  forallb (fun e => negb (is_destroy e)) events = true ->
  next_token (browser (run events (postCreate cfg))) <= 1 /\
  Forall (fun r => sessionToken (snd r) = Some 0)
         (requests (browser (run events (postCreate cfg)))).
Proof.
  intros Hall.
  assert (H0 : one_token (postCreate cfg)).
  { split; [left; split; reflexivity | constructor]. }
  destruct (one_token_run events _ Hall H0) as (I1 & I2).
  split; [|exact I2].
  destruct I1 as [(-> & _) | (-> & _)]; lia.
Qed.

End One_token.

(** X15 at work: a search, the clear icon, another search. *)
Lemma one_session_token_until_destroy_witness :
  next_token (browser (@run Sample.runtime
     [Startup; ScriptLoaded; Keyup "a"; Elapse 200; ImportResolved 0;
      ClearClick; Keyup "b"; Elapse 200] (postCreate delimited_config))) <= 1.
Proof.
  exact (proj1 (@one_session_token_until_destroy Sample.runtime delimited_config
     [Startup; ScriptLoaded; Keyup "a"; Elapse 200; ImportResolved 0;
      ClearClick; Keyup "b"; Elapse 200] eq_refl)).
Defined.

(** ** The pending timeout *)

Section Pending_timeout.

Context {rt : Runtime}.

Lemma one_timer_step e s :
  timer_inv s ->
  length (timers (browser s)) <= 1 ->
  length (timers (browser (step e s))) <= 1.
Proof.
  intros Hinv Hlen.
  pose proof (step_same_timers e s) as Hsame.
  destruct e as [ |v| |key|ms|k|k|k l|k|i|i|k l|k|l|o| | ];
    try (destruct Hsame as (_ & -> & _); exact Hlen).
  - simpl. destruct (keyupHandler (owned (widget s))) eqn:Hk; [|exact Hlen].
    destruct (on_keyup_armed key s Hinv Hk) as ((h & Ht & _) & _).
    simpl in Ht. rewrite Hk in Ht. rewrite Ht. simpl. lia.
  - simpl. unfold elapse.
    match goal with
    | |- context [fold_left _ ?l ?s1] =>
        destruct (fold_fetch_timers l s1) as ((_ & -> & _) & _)
    end.
    simpl. etransitivity; [apply filter_length_le | exact Hlen].
  - simpl. unfold destroy.
    destruct (handle_truthy (_typingTimer (widget s))) eqn:Et.
    + destruct (_typingTimer (widget s)) as [h|] eqn:Eh; [|discriminate].
      pose proof (timer_inv_clearTimeout s h Hinv Eh) as Hc.
      destruct (_suggestionsDropdown _); simpl; simpl in Hc; rewrite Hc; simpl; lia.
    + destruct (_suggestionsDropdown _); simpl; exact Hlen.
Qed.

Lemma reachable_one_timer s : reachable s -> length (timers (browser s)) <= 1.
Proof.
  induction 1 as [cfg | e s Hr IH]; [simpl; lia|].
  apply one_timer_step; [apply reachable_timer_inv, Hr | exact IH].
Qed.

(** X16: in every state the widget reaches at most one timeout is pending,
    and it is the one [_typingTimer] names; the passing of time, however
    long, therefore makes at most one call of
    [_fetchAutocompleteSuggestions], and leaves no timeout that was due. *)
Theorem pause_starts_at_most_one_search (s : System) (ms : nat) :
  reachable s ->
  length (timers (browser s)) <= 1 /\
  (forall t, In t (timers (browser s)) -> _typingTimer (widget s) = Some (handle t)) /\
  (exists texts,
     length texts <= 1 /\
     fetch_calls (browser (step (Elapse ms) s)) = (fetch_calls (browser s) ++ texts)%list) /\
  Forall (fun t => now (browser s) + ms < due t) (timers (browser (step (Elapse ms) s))).
Proof.
  intros Hr. pose proof (reachable_one_timer s Hr) as Hlen.
  split; [exact Hlen|].
  split; [intros t Hin; apply (reachable_timer_inv s Hr), Hin|].
  simpl. unfold elapse.
  match goal with
  | |- context [fold_left _ ?l ?s1] =>
      destruct (fold_fetch_timers l s1) as ((_ & Ht & _) & _ & _ & Hf)
  end.
  split.
  - eexists. split; [|exact Hf].
    rewrite length_map. etransitivity; [apply filter_length_le | exact Hlen].
  - rewrite Ht. simpl. apply Forall_forall. intros t Hin.
    apply filter_In in Hin. destruct Hin as (_ & Hlate).
    destruct (Nat.leb_spec (due t) (now (browser s) + ms)); [discriminate | assumption].
Qed.

End Pending_timeout.

(** X16 at work: a long pause after two keystrokes. *)
Lemma pause_starts_at_most_one_search_witness :
  length (timers (browser (@step Sample.runtime (Keyup "ab")
     (@step Sample.runtime (Keyup "a") ready)))) <= 1.
Proof.
  refine (proj1 (@pause_starts_at_most_one_search Sample.runtime
            (@step Sample.runtime (Keyup "ab") (@step Sample.runtime (Keyup "a") ready))
            1000 _)).
  exact (reachable_step (Keyup "ab") _
           (reachable_step (Keyup "a") _
              (reachable_step ScriptLoaded _
                 (reachable_step Startup _
                    (reachable_postCreate delimited_config))))).
Defined.

(** ** The page and its loader *)

Lemma Forall_update {A : Type} (P : A -> Prop) (f : A -> A) i l :
  (forall x, P x -> P (f x)) -> Forall P l -> Forall P (update i f l).
Proof.
  intros Hf H. revert i. induction H as [|x l Hx Hl IH]; intros i; [simpl; constructor|].
  destruct i as [|j]; simpl; constructor; auto.
Qed.

Lemma Event_eq_ScriptLoaded (e : Event) : e = ScriptLoaded \/ e <> ScriptLoaded.
Proof. destruct e; first [left; reflexivity | right; discriminate]. Qed.

Section Page.

Context {rt : Runtime}.

Lemma destroy_owned_map s :
  owned (widget (destroy s)) = no_handles /\
  _map (widget (destroy s)) = _map (widget s).
Proof.
  unfold destroy.
  destruct (handle_truthy _); simpl; destruct (_suggestionsDropdown (widget s));
    split; reflexivity.
Qed.

Lemma on_script_loaded_map w :
  _map (on_script_loaded w) <> None /\
  scriptLoadedSignal (owned (on_script_loaded w)) = false.
Proof.
  unfold on_script_loaded. split; [|reflexivity].
  cbn [_map set_owned]. apply _refreshMarkerLocation_keeps_map.
  unfold _createGoogleMapsElement. simpl.
  destruct (readOnly (config w)); discriminate.
Qed.

(** But for the script-loaded handler and [destroy], no event registers or
    removes a listener, and none creates or drops the map. *)
Lemma step_owned_map e s :
  match e with
  | ScriptLoaded | Destroy => True
  | _ => owned (widget (step e s)) = owned (widget s) /\
         (_map (widget s) = None <-> _map (widget (step e s)) = None)
  end.
Proof.
  assert (Hsp : forall w w', same_presence w w' ->
            owned w' = owned w /\ (_map w = None <-> _map w' = None)).
  { intros w w' (Ho & _ & Hn & Hs). split; [exact Ho|]. split.
    - intros H. apply Hn, H.
    - intros H. destruct (_map w) eqn:E; [|reflexivity].
      exfalso. apply Hs; [discriminate | exact H]. }
  destruct (is_search_event e) eqn:Ee.
  { pose proof (Hsp _ _ (same_presence_search_only _ _ (step_search_only e s Ee))) as H.
    destruct e; try discriminate; exact H. }
  destruct e as [ |v| |key|ms|k|k|k l|k|i|i|k l|k|l|o| | ]; try discriminate;
    try exact I; simpl.
  - split; [reflexivity | tauto].
  - apply Hsp, _setValueAttr_call_same_presence.
  - destruct (keyupHandler _); [|split; [reflexivity | tauto]].
    unfold on_keyup, setTimeout.
    destruct (handle_truthy _); simpl; (split; [reflexivity | tauto]).
  - destruct (existsb (Nat.eqb k) (details (browser s))) eqn:Ep;
      [|unfold on_place_resolved; rewrite Ep; split; [reflexivity | tauto]].
    destruct l as [l|];
      [|unfold on_place_resolved; rewrite Ep; split; [reflexivity | tauto]].
    apply Hsp, on_place_resolved_same_presence, Ep.
  - destruct (rightClickHandler _); [|split; [reflexivity | tauto]].
    apply Hsp. simpl. unfold on_rightclick.
    eapply same_presence_trans; [apply _setMapLocation_same_presence|].
    apply _setCoordinatesValue_same_presence.
  - destruct (clearHandler _); [|split; [reflexivity | tauto]].
    simpl. unfold _clearCoordinates.
    set (w1 := _hideSuggestionsDropdown (set_searchTextbox "" (widget s))).
    destruct (Hsp _ _ (_setCoordinatesValue_same_presence None
                (match _marker w1 with Some _ => set_marker None w1 | None => w1 end)))
      as (Ho & Hm).
    destruct (Hsp _ _ (same_presence_search_only _ _
                (_hideSuggestionsDropdown_search_only (set_searchTextbox "" (widget s)))))
      as (Ho1 & Hm1).
    fold w1 in Ho1, Hm1. cbn [owned _map set_searchTextbox] in Ho1, Hm1.
    assert (H12 :
      (owned (match _marker w1 with Some _ => set_marker None w1 | None => w1 end)
       = owned w1) /\
      (_map (match _marker w1 with Some _ => set_marker None w1 | None => w1 end)
       = _map w1))
      by (destruct (_marker w1); split; reflexivity).
    destruct H12 as (Ho2 & Hm2).
    rewrite Ho, Ho2, Ho1. split; [reflexivity|].
    rewrite <- Hm, Hm2. exact Hm1.
Qed.

Lemma step_keeps_no_map e s :
  e <> ScriptLoaded -> _map (widget s) = None -> _map (widget (step e s)) = None.
Proof.
  intros He Hm. pose proof (step_owned_map e s) as H.
  destruct e; try (apply H, Hm); [congruence|].
  change (_map (widget (destroy s)) = None).
  rewrite (proj2 (destroy_owned_map s)). exact Hm.
Qed.

Lemma step_signal_stays_off e s :
  scriptLoadedSignal (owned (widget s)) = false ->
  scriptLoadedSignal (owned (widget (step e s))) = false.
Proof.
  intros Hs. pose proof (step_owned_map e s) as H.
  destruct e; try (rewrite (proj1 H); exact Hs).
  - simpl. rewrite Hs. exact Hs.
  - change (scriptLoadedSignal (owned (widget (destroy s))) = false).
    rewrite (proj1 (destroy_owned_map s)). reflexivity.
Qed.

Lemma reachable_map_or_destroyed s :
  reachable s ->
  scriptLoadedSignal (owned (widget s)) = false ->
  _map (widget s) <> None \/ owned (widget s) = no_handles.
Proof.
  induction 1 as [cfg | e s Hr IH]; [discriminate|].
  pose proof (step_owned_map e s) as H.
  assert (Hquiet :
    owned (widget (step e s)) = owned (widget s) /\
    (_map (widget s) = None <-> _map (widget (step e s)) = None) ->
    scriptLoadedSignal (owned (widget (step e s))) = false ->
    _map (widget (step e s)) <> None \/ owned (widget (step e s)) = no_handles).
  { intros (Ho & Hm) Hs. rewrite Ho in Hs |- *.
    destruct (IH Hs) as [Hmap | Hnone]; [left | right; exact Hnone].
    intros Hn. apply Hmap, Hm, Hn. }
  destruct e; try (apply Hquiet, H).
  - simpl. destruct (scriptLoadedSignal (owned (widget s))) eqn:Es.
    + intros _. left. apply on_script_loaded_map.
    + intros _. apply IH. reflexivity.
  - intros _. right. apply destroy_owned_map.
Qed.

Lemma dispatch_not_listening l :
  Forall (fun s => scriptLoadedSignal (owned (widget s)) = false) l ->
  List.map (step ScriptLoaded) l = l.
Proof.
  induction 1 as [|s l Hs _ IH]; [reflexivity|].
  simpl. rewrite Hs, IH. reflexivity.
Qed.

Lemma dispatch_signals_off l :
  Forall (fun s => scriptLoadedSignal (owned (widget s)) = false)
         (List.map (step ScriptLoaded) l).
Proof.
  apply Forall_map, Forall_forall. intros s _. simpl.
  destruct (scriptLoadedSignal (owned (widget s))) eqn:Es; [reflexivity | exact Es].
Qed.

Lemma call_googleMapsScriptCallback_dispatches p :
  googleMapsScriptCallback p <> None ->
  call_googleMapsScriptCallback p = dispatchEvent p.
Proof.
  unfold call_googleMapsScriptCallback.
  destruct (googleMapsScriptCallback p); [reflexivity | congruence].
Qed.

(** What the creation of an editor does to the page, by the state of the
    loader. *)
Lemma create_fields cfg key p :
  googleMapsScriptCallback (create cfg key p) <> None /\
  google_maps (create cfg key p) = google_maps p /\
  match script_src p with
  | None =>
      script_src (create cfg key p) = Some (scriptUrl key) /\
      dispatched (create cfg key p) = dispatched p /\
      editors (create cfg key p) = (editors p ++ [postCreate cfg])%list
  | Some u =>
      script_src (create cfg key p) = Some u /\
      if google_maps p then
        dispatched (create cfg key p) = S (dispatched p) /\
        editors (create cfg key p)
        = List.map (step ScriptLoaded) (editors p ++ [postCreate cfg])
      else
        dispatched (create cfg key p) = dispatched p /\
        editors (create cfg key p) = (editors p ++ [postCreate cfg])%list
  end.
Proof.
  destruct p as [g c u m d l].
  destruct g, c, u, m; cbn [script_src google_maps];
    (split;
     [unfold create, _addGoogleMapsScript, call_googleMapsScriptCallback;
      simpl; discriminate|]);
    repeat split.
Qed.

Lemma page_inv_dispatchEvent p :
  script_src p <> None -> google_maps p = true -> googleMapsScriptCallback p <> None ->
  page_inv (dispatchEvent p).
Proof.
  intros Hs Hg Hc. unfold page_inv, dispatchEvent. simpl.
  split; [intros _; exact Hc|]. split.
  - intros _. split; [exact Hs|]. split; [exact Hg | apply dispatch_signals_off].
  - discriminate.
Qed.

Lemma page_inv_step e p : page_inv p -> page_inv (page_step e p).
Proof.
  intros Hinv. pose proof Hinv as (I1 & I2 & I3).
  destruct e as [cfg key| | |i e]; simpl.
  - change (page_inv (create cfg key p)).
    destruct (create_fields cfg key p) as (Hc & Hg & H).
    unfold page_inv. split; [intros _; exact Hc|].
    destruct (script_src p) as [u|] eqn:Eu.
    + destruct H as (Hs & H). rewrite Hs, Hg.
      destruct (google_maps p) eqn:Eg; destruct H as (-> & ->).
      * split; [|discriminate]. intros _.
        split; [discriminate|]. split; [reflexivity | apply dispatch_signals_off].
      * split; [intros H; destruct (I2 H) as (_ & ? & _); discriminate|].
        intros H. apply Forall_app. split; [apply I3, H | repeat constructor].
    + destruct H as (Hs & -> & ->).
      split; [intros H; destruct (I2 H) as (? & _); congruence|].
      intros H. apply Forall_app. split; [apply I3, H | repeat constructor].
  - unfold page_inv. simpl. split; [exact I1|]. split; [|exact I3].
    intros H. destruct (I2 H) as (Hs & _ & Hf). repeat split; assumption.
  - destruct (script_src p) as [u|] eqn:Eu; [|exact Hinv].
    rewrite call_googleMapsScriptCallback_dispatches by (simpl; apply I1; discriminate).
    apply page_inv_dispatchEvent; simpl; [congruence | reflexivity | apply I1; discriminate].
  - assert (Hupd : page_inv (set_editors (update i (step e) (editors p)) p) \/
                   e = ScriptLoaded).
    { destruct (Event_eq_ScriptLoaded e) as [-> | Hne]; [right; reflexivity | left].
      unfold page_inv. simpl. split; [exact I1|]. split.
      - intros H. destruct (I2 H) as (Hs & Hg & Hf). repeat split; try assumption.
        apply Forall_update; [|exact Hf]. intros s. apply step_signal_stays_off.
      - intros H. apply Forall_update; [|apply I3, H].
        intros s. apply step_keeps_no_map, Hne. }
    destruct Hupd as [H | ->]; [|exact Hinv].
    destruct e; first [exact H | exact Hinv].
Qed.

Lemma page_reachable_inv p : page_reachable p -> page_inv p.
Proof.
  induction 1 as [g | e p _ IH]; [|apply page_inv_step, IH].
  unfold page_inv. simpl. split; [congruence|]. split; [lia|]. constructor.
Qed.

Lemma page_editors_reachable p : page_reachable p -> Forall reachable (editors p).
Proof.
  induction 1 as [g | e p _ IH]; [constructor|].
  assert (Hd : Forall reachable (List.map (step ScriptLoaded) (editors p))).
  { apply Forall_map. revert IH. apply Forall_impl. intros s. apply reachable_step. }
  assert (Hnew : forall cfg, Forall reachable (editors p ++ [postCreate cfg])).
  { intros cfg. apply Forall_app. split; [exact IH|].
    constructor; [apply reachable_postCreate | constructor]. }
  assert (Hdnew : forall cfg,
            Forall reachable (List.map (step ScriptLoaded) (editors p ++ [postCreate cfg]))).
  { intros cfg. apply Forall_map. generalize (Hnew cfg). apply Forall_impl.
    intros s. apply reachable_step. }
  destruct e as [cfg key| | |i e]; simpl.
  - change (Forall reachable (editors (create cfg key p))).
    destruct (create_fields cfg key p) as (_ & _ & H).
    destruct (script_src p); destruct H as (_ & H); [destruct (google_maps p)|];
      destruct H as (_ & ->); first [apply Hnew | apply Hdnew].
  - exact IH.
  - unfold call_googleMapsScriptCallback.
    destruct (script_src p); [|exact IH]. simpl.
    destruct (googleMapsScriptCallback p); [exact Hd | exact IH].
  - assert (Hu : Forall reachable (update i (step e) (editors p))).
    { apply Forall_update; [|exact IH]. intros s. apply reachable_step. }
    destruct e; first [exact Hu | exact IH].
Qed.

(** X17: on every page, whatever the order in which editors are created,
    the script loads and events reach the editors: each editor is in a state
    the widget can reach; before the first dispatch of
    [googleMapsScriptLoaded] no editor has a map; after it every editor has
    its map, also those created later, but for the ones destroyed before
    they got one. *)
Theorem editors_get_their_map (p : Page) (s : System) :
  page_reachable p -> In s (editors p) ->
  reachable s /\
  (dispatched p = 0 -> _map (widget s) = None) /\
  (0 < dispatched p -> _map (widget s) <> None \/ owned (widget s) = no_handles).
Proof.
  intros Hp Hin.
  pose proof (proj1 (Forall_forall _ _) (page_editors_reachable p Hp) s Hin) as Hr.
  destruct (page_reachable_inv p Hp) as (_ & I2 & I3).
  split; [exact Hr|]. split.
  - intros H. apply (proj1 (Forall_forall _ _) (I3 H) s Hin).
  - intros H. destruct (I2 H) as (_ & _ & Hf).
    apply reachable_map_or_destroyed; [exact Hr|].
    apply (proj1 (Forall_forall _ _) Hf s Hin).
Qed.

Lemma page_step_keeps_script e p u :
  script_src p = Some u -> script_src (page_step e p) = Some u.
Proof.
  intros Hu. destruct e as [cfg key| | |i e]; simpl.
  - change (script_src (create cfg key p) = Some u).
    destruct (create_fields cfg key p) as (_ & _ & H).
    rewrite Hu in H. apply H.
  - exact Hu.
  - rewrite Hu. unfold call_googleMapsScriptCallback. simpl.
    destruct (googleMapsScriptCallback p); reflexivity.
  - destruct e; exact Hu.
Qed.

Lemma page_run_keeps_script events :
  forall p u, script_src p = Some u -> script_src (page_run events p) = Some u.
Proof.
  unfold page_run.
  induction events as [|e events IH]; intros p u Hu; [exact Hu|].
  cbn [fold_left]. apply IH. apply page_step_keeps_script. exact Hu.
Qed.

(** X18: the script tag is inserted once, by the first editor created on
    the page, with the API key of that editor; no editor created later and no
    event replaces it, so the keys of the other editors are never used. *)
Theorem script_tag_inserted_once (p : Page) (cfg : Config) (apiKey : string)
    (events : list PageEvent) :
  script_src p = None ->
  script_src (create cfg apiKey p) = Some (scriptUrl apiKey) /\
  dispatched (create cfg apiKey p) = dispatched p /\
  script_src (page_run events (create cfg apiKey p)) = Some (scriptUrl apiKey).
Proof.
  intros Hn.
  assert (H : script_src (create cfg apiKey p) = Some (scriptUrl apiKey) /\
              dispatched (create cfg apiKey p) = dispatched p).
  { destruct (create_fields cfg apiKey p) as (_ & _ & H).
    rewrite Hn in H. split; apply H. }
  destruct H as (H1 & H2).
  split; [exact H1|]. split; [exact H2|].
  apply page_run_keeps_script, H1.
Qed.

(** X19: an editor created after the event has been dispatched once gets
    its map inside [postCreate], before [startup]: the loader calls the
    callback at once; the other editors of the page, which no longer listen,
    are left as they are. *)
Theorem late_editor_initialised_at_creation (p : Page) (cfg : Config) (apiKey : string) :
  page_reachable p -> 0 < dispatched p ->
  editors (create cfg apiKey p)
    = (editors p ++ [step ScriptLoaded (postCreate cfg)])%list /\
  _map (widget (step ScriptLoaded (postCreate cfg))) <> None /\
  _started (widget (step ScriptLoaded (postCreate cfg))) = false /\
  script_src (create cfg apiKey p) = script_src p.
Proof.
  intros Hp Hd.
  destruct (page_reachable_inv p Hp) as (_ & I2 & _).
  destruct (I2 Hd) as (Hs & Hg & Hf).
  destruct (create_fields cfg apiKey p) as (_ & _ & H).
  destruct (script_src p) as [u|] eqn:Eu; [clear Hs | congruence].
  rewrite Hg in H. destruct H as (Hu & _ & He).
  split; [|split; [apply (on_script_loaded_map (widget (postCreate cfg)))|split]].
  - rewrite He, map_app, (dispatch_not_listening _ Hf). reflexivity.
  - change (_started (on_script_loaded (widget (postCreate cfg))) = false).
    unfold on_script_loaded. cbn [_started set_owned].
    destruct (surface_fields _ _ (_refreshMarkerLocation_surface
                (_createGoogleMapsElement (widget (postCreate cfg)))))
      as (_ & -> & _).
    unfold _createGoogleMapsElement. simpl. destruct (readOnly cfg); reflexivity.
  - exact Hu.
Qed.

End Page.

(** X17 at work: the first of three editors, the Google script having loaded
    after the second was created. *)
Lemma editors_get_their_map_witness :
  @reachable Sample.runtime
    (@step Sample.runtime ScriptLoaded (postCreate delimited_config)) /\
  (dispatched three_editors = 0 ->
   _map (widget (@step Sample.runtime ScriptLoaded (postCreate delimited_config))) = None) /\
  (0 < dispatched three_editors ->
   _map (widget (@step Sample.runtime ScriptLoaded (postCreate delimited_config))) <> None \/
   owned (widget (@step Sample.runtime ScriptLoaded (postCreate delimited_config)))
   = no_handles).
Proof.
  refine (@editors_get_their_map Sample.runtime three_editors
            (@step Sample.runtime ScriptLoaded (postCreate delimited_config)) _ _).
  - exact (page_reachable_step (Create readonly_config "third-key") _
             (page_reachable_step ScriptCallback _
                (page_reachable_step (Create structured_config "second-key") _
                   (page_reachable_step (Create delimited_config "first-key") _
                      (page_reachable_blank false))))).
  - vm_compute. left. reflexivity.
Defined.

(** The three editors have their maps, and the tag carries the first key. *)
Example three_editors_maps :
  List.map (fun s => match _map (widget s) with Some _ => true | None => false end)
           (editors three_editors) = [true; true; true] /\
  List.map (fun s => _started (widget s)) (editors three_editors) = [false; false; false] /\
  script_src three_editors = Some (scriptUrl "first-key") /\
  dispatched three_editors = 2.
Proof. vm_compute. repeat split. Qed.

(** X18 at work: the first editor on a blank page, then two more. *)
Lemma script_tag_inserted_once_witness :
  script_src (@create Sample.runtime delimited_config "first-key" (blank_page false))
  = Some (scriptUrl "first-key") /\
  dispatched (@create Sample.runtime delimited_config "first-key" (blank_page false))
  = dispatched (blank_page false) /\
  script_src (@page_run Sample.runtime
                [Create structured_config "second-key"; ScriptCallback;
                 Create readonly_config "third-key"]
                (@create Sample.runtime delimited_config "first-key" (blank_page false)))
  = Some (scriptUrl "first-key").
Proof.
  exact (@script_tag_inserted_once Sample.runtime (blank_page false) delimited_config
           "first-key"
           [Create structured_config "second-key"; ScriptCallback;
            Create readonly_config "third-key"] eq_refl).
Defined.

(** X19 at work: an editor created after the script has loaded. *)
Lemma late_editor_initialised_at_creation_witness :
  editors (@create Sample.runtime readonly_config "third-key"
             (@page_step Sample.runtime ScriptCallback
                (@page_step Sample.runtime (Create delimited_config "first-key")
                   (blank_page false))))
  = (editors (@page_step Sample.runtime ScriptCallback
                (@page_step Sample.runtime (Create delimited_config "first-key")
                   (blank_page false)))
     ++ [@step Sample.runtime ScriptLoaded (postCreate readonly_config)])%list.
Proof.
  refine (proj1 (@late_editor_initialised_at_creation Sample.runtime
            (@page_step Sample.runtime ScriptCallback
               (@page_step Sample.runtime (Create delimited_config "first-key")
                  (blank_page false)))
            readonly_config "third-key" _ _)).
  - exact (page_reachable_step ScriptCallback _
             (page_reachable_step (Create delimited_config "first-key") _
                (page_reachable_blank false))).
  - vm_compute. lia.
Defined.

(** ** What a structured property stores *)

Section Structured.

Context {rt : Runtime}.

(** X20: on a started editor of a structured property whose template is
    attached, a location with both components is stored as the object of
    its two numbers (each printed and parsed again), and the setter of
    Editor.js itself (lines 182-184) calls [this.onChange] once, with that
    object, before it returns.  Only these calls are recorded: the inherited
    setter of Dojo may schedule a further, deferred call of [onChange] of
    its own (it does when the type of the value changes), which is not
    counted here.  The stored value counts as coordinates exactly when
    neither number is NaN or zero, so a place on the equator or on the
    prime meridian is stored but does not satisfy a required property. *)
Theorem picked_object_is_stored (w : Widget) (l : LatLng) :
  _started w = true ->
  attached w = true ->
  _isComplexType VUndefined w = true ->
  lat l <> CUndefined -> lng l <> CUndefined ->
  _setCoordinatesValue_call (Some l) w = Returned (_setCoordinatesValue (Some l) w) /\
  value (_setCoordinatesValue (Some l) w)
    = VObject {| latitude := CNumber (parseFloat (JS.ToString (lat l)));
                 longitude := CNumber (parseFloat (JS.ToString (lng l))) |} /\
  onChange (_setCoordinatesValue (Some l) w)
    = (onChange w ++
       [VObject {| latitude := CNumber (parseFloat (JS.ToString (lat l)));
                   longitude := CNumber (parseFloat (JS.ToString (lng l))) |}])%list /\
  (_hasCoordinates (_setCoordinatesValue (Some l) w) = true <->
   PrimFloat.is_nan (parseFloat (JS.ToString (lat l))) = false /\
   PrimFloat.is_nan (parseFloat (JS.ToString (lng l))) = false /\
   PrimFloat.eqb (parseFloat (JS.ToString (lat l))) 0%float = false /\
   PrimFloat.eqb (parseFloat (JS.ToString (lng l))) 0%float = false) /\
  (required (config w) = true ->
   isValid (_setCoordinatesValue (Some l) w)
   = _hasCoordinates (_setCoordinatesValue (Some l) w)).
Proof.
  intros Hs Ha Hc Hla Hlo.
  split; [apply _setCoordinatesValue_call_attached, Ha|].
  set (x := parseFloat (JS.ToString (lat l))).
  set (y := parseFloat (JS.ToString (lng l))).
  set (v := VObject {| latitude := CNumber x; longitude := CNumber y |}).
  assert (Heq : _setCoordinatesValue (Some l) w = _setValueAttr v w).
  { unfold _setCoordinatesValue. rewrite Hs, Hc. simpl.
    destruct (lng l); try contradiction; destruct (lat l); try contradiction; reflexivity. }
  rewrite Heq.
  pose proof (_setValueAttr_value v w) as Hv.
  split; [exact Hv|]. split; [|split].
  - unfold _setValueAttr.
    set (w1 := set_textbox _ (set_value v w)).
    set (w2 := match _marker w1 with None => _ | Some _ => _ end).
    assert (H2 : value w2 = v /\ onChange w2 = onChange w).
    { subst w2. destruct (_marker w1); [split; reflexivity|].
      destruct (surface_fields _ _ (_refreshMarkerLocation_surface w1))
        as (_ & _ & -> & _ & _ & _ & -> & _).
      split; reflexivity. }
    destruct H2 as (Hv2 & Ho2).
    rewrite (_isComplexType_object w2 _ Hv2). simpl. rewrite Ho2. reflexivity.
  - unfold _hasCoordinates, _isComplexType. rewrite Hv. subst v. simpl.
    destruct (PrimFloat.is_nan x), (PrimFloat.is_nan y),
             (PrimFloat.eqb x 0), (PrimFloat.eqb y 0); simpl;
      split; try discriminate; try (intros (? & ? & ? & ?); discriminate);
      intros _; repeat split.
  - intros Hreq. unfold isValid.
    rewrite (proj1 (form_only_fields _ _ (_setValueAttr_form_only v w))), Hreq.
    reflexivity.
Qed.

End Structured.

(** X20 at work: a right click in New York on a structured property. *)
Lemma picked_object_is_stored_witness :
  value (@_setCoordinatesValue Sample.runtime (Some new_york)
           (set_started true (widget (postCreate structured_config))))
  = VObject {| latitude := CNumber (@parseFloat Sample.runtime
                                      (@JS.ToString Sample.runtime (lat new_york)));
               longitude := CNumber (@parseFloat Sample.runtime
                                       (@JS.ToString Sample.runtime (lng new_york))) |}.
Proof.
  refine (proj1 (proj2 (@picked_object_is_stored Sample.runtime
            (set_started true (widget (postCreate structured_config))) new_york
            eq_refl eq_refl eq_refl _ _))); discriminate.
Defined.
